(** * pseudo-bitcoin: the ledger core of [Blockchain.py] and [Wallet.py]

    A shallow embedding of the account wallet ([Wallet.py]) and of the
    single-process ledger ([Blockchain.py]): wallet creation and address
    derivation, the two pending pools, block assembly, settlement, and the
    flat-file store.

    Conventions of the embedding.
    - Python [int] is [Z]; [str] is [string]; [bytes] is [list byte].
    - A method of [Blockchain] is a function [Blockchain -> result A * Blockchain]:
      the state it leaves behind is kept when it raises, as the mutations
      of a Python object are.
    - The library calls whose value matters are written out ([hashlib.sha256],
      [base64], [json] for the one-level records this program writes);
      the elliptic-curve and proof-of-work collaborators are parameters.
    - Console output ([print]) is not part of the state. *)

From Stdlib Require Import ZArith Lia List Bool.
From Stdlib.Strings Require Import Ascii String Byte.
From Stdlib Require Import DecimalString Decimal DecimalZ DecimalPos.
From stdpp Require Import base option list strings gmap.

Local Open Scope string_scope.
Local Open Scope list_scope.
Local Open Scope Z_scope.

(** ** Bytes *)

Definition byte_of_Z (z : Z) : byte :=
  match Byte.of_N (Z.to_N (z mod 256)) with
  | Some b => b
  | None => x00
  end.

Definition Z_of_byte (b : byte) : Z := Z.of_N (Byte.to_N b).

#[global] Instance byte_eq_dec : EqDecision byte := Byte.byte_eq_dec.

(** [bytes.decode()] on ASCII-only data, and [str.encode()] (UTF-8) for the
    code points below 256 that a [string] can hold. *)
Definition bytes_decode (bs : list byte) : string := string_of_list_byte bs.

Definition utf8_char (c : ascii) : list byte :=
  let n := Z.of_N (N_of_ascii c) in
  if n <? 128 then [byte_of_Z n]
  else [byte_of_Z (Z.lor 192 (Z.shiftr n 6)); byte_of_Z (Z.lor 128 (Z.land n 63))].

Fixpoint str_encode (s : string) : list byte :=
  match s with
  | EmptyString => []
  | String c s' => utf8_char c ++ str_encode s'
  end.

(** ** hashlib.sha256 *)

Module SHA256.

Definition w32 (x : Z) : Z := x mod 2 ^ 32.
Definition add32 (x y : Z) : Z := w32 (x + y).
Definition rotr (n x : Z) : Z :=
  Z.lor (Z.shiftr x n) (w32 (Z.shiftl x (32 - n))).
Definition Ch (x y z : Z) : Z :=
  Z.lxor (Z.land x y) (Z.land (w32 (Z.lnot x)) z).
Definition Maj (x y z : Z) : Z :=
  Z.lxor (Z.lxor (Z.land x y) (Z.land x z)) (Z.land y z).
Definition Sigma0 (x : Z) : Z :=
  Z.lxor (Z.lxor (rotr 2 x) (rotr 13 x)) (rotr 22 x).
Definition Sigma1 (x : Z) : Z :=
  Z.lxor (Z.lxor (rotr 6 x) (rotr 11 x)) (rotr 25 x).
Definition sigma0 (x : Z) : Z :=
  Z.lxor (Z.lxor (rotr 7 x) (rotr 18 x)) (Z.shiftr x 3).
Definition sigma1 (x : Z) : Z :=
  Z.lxor (Z.lxor (rotr 17 x) (rotr 19 x)) (Z.shiftr x 10).

(** The round constants are the first 32 bits of the fractional parts of
    the cube roots of the first 64 primes, and the initial hash value those
    of the square roots of the first 8. *)
Definition primes : list Z :=
  [2; 3; 5; 7; 11; 13; 17; 19; 23; 29; 31; 37; 41; 43; 47; 53; 59; 61; 67; 71;
   73; 79; 83; 89; 97; 101; 103; 107; 109; 113; 127; 131; 137; 139; 149; 151;
   157; 163; 167; 173; 179; 181; 191; 193; 197; 199; 211; 223; 227; 229; 233;
   239; 241; 251; 257; 263; 269; 271; 277; 281; 283; 293; 307; 311].

(** The integer cube root by bisection: [lo ^ 3 <= n < hi ^ 3] throughout. *)
Fixpoint cube_root (fuel : nat) (n lo hi : Z) : Z :=
  match fuel with
  | O => lo
  | S fuel' =>
      let mid := (lo + hi) / 2 in
      if mid * mid * mid <=? n then cube_root fuel' n mid hi
      else cube_root fuel' n lo mid
  end.

Definition frac_cube_root (p : Z) : Z :=
  w32 (cube_root 40 (p * 2 ^ 96) 0 (2 ^ 36)).

Definition frac_square_root (p : Z) : Z :=
  w32 (Z.sqrt (p * 2 ^ 64)).

Definition K : list Z := Eval vm_compute in map frac_cube_root primes.

Definition H0 : list Z :=
  Eval vm_compute in map frac_square_root (firstn 8 primes).

(** Big-endian packing of bytes into 32-bit words and back. *)
Fixpoint words_of_bytes (bs : list Z) : list Z :=
  match bs with
  | a :: b :: c :: d :: rest =>
      (a * 2 ^ 24 + b * 2 ^ 16 + c * 2 ^ 8 + d) :: words_of_bytes rest
  | _ => []
  end.

Definition bytes_of_word (w : Z) : list byte :=
  [byte_of_Z (Z.shiftr w 24); byte_of_Z (Z.shiftr w 16);
   byte_of_Z (Z.shiftr w 8); byte_of_Z w].

Definition be64 (n : Z) : list Z :=
  map (fun i => Z.shiftr n (8 * i) mod 256) [7; 6; 5; 4; 3; 2; 1; 0].

(** The padded message: a [0x80] byte, zeroes up to 56 modulo 64, and the
    bit length on eight bytes. *)
Definition pad (msg : list Z) : list Z :=
  let len := Z.of_nat (length msg) in
  let k := (55 - len) mod 64 in
  msg ++ [128] ++ repeat 0 (Z.to_nat k) ++ be64 (8 * len).

(** The message schedule, most recent word first. *)
Fixpoint schedule (n : nat) (rev_w : list Z) : list Z :=
  match n with
  | O => rev_w
  | S n' =>
      let g i := nth i rev_w 0 in
      let w := add32 (add32 (sigma1 (g 1%nat)) (g 6%nat))
                     (add32 (sigma0 (g 14%nat)) (g 15%nat)) in
      schedule n' (w :: rev_w)
  end.

Definition round (st : list Z) (kw : Z * Z) : list Z :=
  match st with
  | [a; b; c; d; e; f; g; h] =>
      let t1 := add32 (add32 (add32 h (Sigma1 e)) (add32 (Ch e f g) (fst kw)))
                      (snd kw) in
      let t2 := add32 (Sigma0 a) (Maj a b c) in
      [add32 t1 t2; a; b; c; add32 d t1; e; f; g]
  | _ => st
  end.

Definition zip_add (xs ys : list Z) : list Z :=
  map (fun p => add32 (fst p) (snd p)) (combine xs ys).

Definition compress (h : list Z) (block : list Z) : list Z :=
  let w := rev (schedule 48 (rev block)) in
  zip_add h (fold_left round (combine K w) h).

Fixpoint blocks (n : nat) (ws : list Z) (h : list Z) : list Z :=
  match n with
  | O => h
  | S n' => blocks n' (skipn 16 ws) (compress h (firstn 16 ws))
  end.

Definition digest (msg : list byte) : list byte :=
  let ws := words_of_bytes (pad (map Z_of_byte msg)) in
  flat_map bytes_of_word (blocks (length ws / 16) ws H0).

End SHA256.

(** ** base64 *)

Module Base64.

Definition alphabet : string :=
  "ABCDEFGHIJKLMNOPQRSTUVWXYZabcdefghijklmnopqrstuvwxyz0123456789+/".

Definition sextet : Type := bool * bool * bool * bool * bool * bool.

(** A sextet is written most significant bit first. *)
Definition N_of_sextet (s : sextet) : N :=
  let '(b5, b4, b3, b2, b1, b0) := s in
  N_of_digits [b0; b1; b2; b3; b4; b5].

Definition char_of_sextet (s : sextet) : byte :=
  match String.get (N.to_nat (N_of_sextet s)) alphabet with
  | Some c => byte_of_ascii c
  | None => x00
  end.

Definition sextet_of_N (n : N) : sextet :=
  (N.testbit n 5, N.testbit n 4, N.testbit n 3,
   N.testbit n 2, N.testbit n 1, N.testbit n 0).

Fixpoint index_of (c : ascii) (s : string) (i : N) : option N :=
  match s with
  | EmptyString => None
  | String c' s' => if Ascii.eqb c c' then Some i else index_of c s' (N.succ i)
  end.

Definition sextet_of_char (c : byte) : option sextet :=
  sextet_of_N <$> index_of (ascii_of_byte c) alphabet 0%N.

Definition pad_char : byte := "="%byte.

(** Three bytes make four characters. *)
Definition encode3 (a b c : byte) : list byte :=
  let '(a0, (a1, (a2, (a3, (a4, (a5, (a6, a7))))))) := Byte.to_bits a in
  let '(b0, (b1, (b2, (b3, (b4, (b5, (b6, b7))))))) := Byte.to_bits b in
  let '(c0, (c1, (c2, (c3, (c4, (c5, (c6, c7))))))) := Byte.to_bits c in
  [char_of_sextet (a7, a6, a5, a4, a3, a2);
   char_of_sextet (a1, a0, b7, b6, b5, b4);
   char_of_sextet (b3, b2, b1, b0, c7, c6);
   char_of_sextet (c5, c4, c3, c2, c1, c0)].

Fixpoint b64encode (bs : list byte) : list byte :=
  match bs with
  | [] => []
  | [a] => firstn 2 (encode3 a x00 x00) ++ [pad_char; pad_char]
  | [a; b] => firstn 3 (encode3 a b x00) ++ [pad_char]
  | a :: b :: c :: rest => encode3 a b c ++ b64encode rest
  end.

Definition byte_of_bits8 (b7 b6 b5 b4 b3 b2 b1 b0 : bool) : byte :=
  Byte.of_bits (b0, (b1, (b2, (b3, (b4, (b5, (b6, b7))))))).

Definition is_nil {A} (l : list A) : bool :=
  match l with [] => true | _ => false end.

(** Four characters give back three bytes; a padded final group gives one
    or two. Anything else is [binascii.Error]. *)
Fixpoint b64decode (cs : list byte) : option (list byte) :=
  match cs with
  | [] => Some []
  | c0 :: c1 :: c2 :: c3 :: rest =>
      '(p5, p4, p3, p2, p1, p0) ← sextet_of_char c0;
      '(q5, q4, q3, q2, q1, q0) ← sextet_of_char c1;
      let a := byte_of_bits8 p5 p4 p3 p2 p1 p0 q5 q4 in
      if Byte.eqb c2 pad_char && Byte.eqb c3 pad_char && is_nil rest then Some [a]
      else
        '(r5, r4, r3, r2, r1, r0) ← sextet_of_char c2;
        let b := byte_of_bits8 q3 q2 q1 q0 r5 r4 r3 r2 in
        if Byte.eqb c3 pad_char && is_nil rest then Some [a; b]
        else
          '(s5, s4, s3, s2, s1, s0) ← sextet_of_char c3;
          let c := byte_of_bits8 r1 r0 s5 s4 s3 s2 s1 s0 in
          (fun tl => a :: b :: c :: tl) <$> b64decode rest
  | _ => None
  end.

End Base64.

Definition hex_digit (n : Z) : ascii :=
  match String.get (Z.to_nat n) "0123456789abcdef" with
  | Some c => c
  | None => "0"%char
  end.

Definition hex_of_bytes (bs : list byte) : string :=
  string_of_list_ascii
    (flat_map (fun b => [hex_digit (Z_of_byte b / 16); hex_digit (Z_of_byte b mod 16)]) bs).

(** ** Python values used by the program *)

(** [str(n)] for an [int]. *)
Definition py_str_int (z : Z) : string := NilEmpty.string_of_int (Z.to_int z).

(** A [dict] keeps its keys in insertion order; assigning to a key that is
    present replaces the value where it stands. *)
Definition dict (V : Type) : Type := list (string * V).

Fixpoint dict_get {V} (k : string) (d : dict V) : option V :=
  match d with
  | [] => None
  | (k', v) :: d' => if String.eqb k k' then Some v else dict_get k d'
  end.

Fixpoint dict_set {V} (k : string) (v : V) (d : dict V) : dict V :=
  match d with
  | [] => [(k, v)]
  | (k', v') :: d' =>
      if String.eqb k k' then (k', v) :: d' else (k', v') :: dict_set k v d'
  end.

Definition dict_mem {V} (k : string) (d : dict V) : bool :=
  match dict_get k d with Some _ => true | None => false end.

(** No key stands twice. *)
Fixpoint distinct_keys {V} (d : dict V) : Prop :=
  match d with
  | [] => True
  | (k, _) :: d' => dict_get k d' = None /\ distinct_keys d'
  end.

(** ** json.dumps and json.loads

    The documents of this program are one-level objects whose members are
    strings and integers. [dumps] writes them as [json.dumps] does (members
    separated by a comma and a space, a colon and a space after the key,
    every character outside the printable ASCII range escaped); [loads]
    reads such objects, with optional white space between the tokens, and
    rejects every other text. *)

Module Json.

Inductive value : Type :=
| Str (s : string)
| Int (z : Z).

Definition dquote : ascii := "034"%char.
Definition bslash : ascii := "092"%char.

Definition hex_char (n : N) : ascii :=
  match String.get (N.to_nat n) "0123456789abcdef" with
  | Some c => c
  | None => "0"%char
  end.

Definition hex_value (c : ascii) : option N :=
  let n := N_of_ascii c in
  if (48 <=? n)%N && (n <=? 57)%N then Some (n - 48)%N
  else if (97 <=? n)%N && (n <=? 102)%N then Some (n - 87)%N
  else if (65 <=? n)%N && (n <=? 70)%N then Some (n - 55)%N
  else None.

(** The short escapes of [ESCAPE_DCT], then [\u00XX]. *)
Definition escape_char (c : ascii) : string :=
  let n := N_of_ascii c in
  if Ascii.eqb c dquote then String bslash (String dquote "")
  else if Ascii.eqb c bslash then String bslash (String bslash "")
  else if (n =? 8)%N then String bslash "b"
  else if (n =? 12)%N then String bslash "f"
  else if (n =? 10)%N then String bslash "n"
  else if (n =? 13)%N then String bslash "r"
  else if (n =? 9)%N then String bslash "t"
  else if (32 <=? n)%N && (n <=? 126)%N then String c ""
  else String bslash
         (String "u" (String "0" (String "0"
            (String (hex_char (n / 16)) (String (hex_char (n mod 16)) ""))))).

Fixpoint escape (s : string) : string :=
  match s with
  | EmptyString => ""
  | String c s' => escape_char c +:+ escape s'
  end.

Definition dumps_string (s : string) : string :=
  String dquote (escape s +:+ String dquote "").

Definition dumps_value (v : value) : string :=
  match v with
  | Str s => dumps_string s
  | Int z => py_str_int z
  end.

Definition dumps_member (kv : string * value) : string :=
  dumps_string (fst kv) +:+ ": " +:+ dumps_value (snd kv).

Fixpoint dumps_members (d : dict value) : string :=
  match d with
  | [] => ""
  | [kv] => dumps_member kv
  | kv :: d' => dumps_member kv +:+ ", " +:+ dumps_members d'
  end.

Definition dumps (d : dict value) : string :=
  "{" +:+ dumps_members d +:+ "}".

(** *** Reading *)

Definition is_ws (c : ascii) : bool :=
  let n := N_of_ascii c in
  (n =? 32)%N || (n =? 9)%N || (n =? 10)%N || (n =? 13)%N.

Fixpoint skip_ws (s : string) : string :=
  match s with
  | EmptyString => ""
  | String c s' => if is_ws c then skip_ws s' else s
  end.

Definition unescape (e : ascii) : option ascii :=
  if Ascii.eqb e dquote then Some dquote
  else if Ascii.eqb e bslash then Some bslash
  else if Ascii.eqb e "/" then Some "/"%char
  else if Ascii.eqb e "b" then Some "008"%char
  else if Ascii.eqb e "f" then Some "012"%char
  else if Ascii.eqb e "n" then Some "010"%char
  else if Ascii.eqb e "r" then Some "013"%char
  else if Ascii.eqb e "t" then Some "009"%char
  else None.

Definition hex4 (h1 h2 h3 h4 : ascii) : option N :=
  a ← hex_value h1; b ← hex_value h2; c ← hex_value h3; d ← hex_value h4;
  Some (((a * 16 + b) * 16 + c) * 16 + d)%N.

(** The text after an opening quote: the string it spells, and what
    follows the closing quote. Control characters must be escaped; a
    [\uXXXX] beyond what a [string] holds is rejected. *)
Fixpoint scanstring (s : string) : option (string * string) :=
  match s with
  | EmptyString => None
  | String c s' =>
      if Ascii.eqb c dquote then Some ("", s')
      else if Ascii.eqb c bslash then
        match s' with
        | String e s'' =>
            if Ascii.eqb e "u" then
              match s'' with
              | String h1 (String h2 (String h3 (String h4 t))) =>
                  n ← hex4 h1 h2 h3 h4;
                  if (n <? 256)%N then
                    '(r, rest) ← scanstring t;
                    Some (String (ascii_of_N n) r, rest)
                  else None
              | _ => None
              end
            else
              ch ← unescape e;
              '(r, rest) ← scanstring s'';
              Some (String ch r, rest)
        | EmptyString => None
        end
      else if (N_of_ascii c <? 32)%N then None
      else
        '(r, rest) ← scanstring s';
        Some (String c r, rest)
  end.

Definition is_num_char (c : ascii) : bool :=
  let n := N_of_ascii c in
  (n =? 45)%N || ((48 <=? n)%N && (n <=? 57)%N).

Fixpoint span_num (s : string) : string * string :=
  match s with
  | EmptyString => ("", "")
  | String c s' =>
      if is_num_char c then
        let '(a, b) := span_num s' in (String c a, b)
      else ("", s)
  end.

Definition scannumber (s : string) : option (Z * string) :=
  let '(txt, rest) := span_num s in
  if String.eqb txt "" || String.eqb txt "-" then None
  else d ← NilEmpty.int_of_string txt; Some (Z.of_int d, rest).

Definition scanvalue (s : string) : option (value * string) :=
  match s with
  | EmptyString => None
  | String c s' =>
      if Ascii.eqb c dquote then
        '(v, r) ← scanstring s'; Some (Str v, r)
      else
        '(z, r) ← scannumber s; Some (Int z, r)
  end.

(** The members of an object, the text standing at the opening quote of a
    key. A repeated key keeps its last value. *)
Fixpoint scanmembers (fuel : nat) (s : string) (acc : dict value)
  : option (dict value) :=
  match fuel with
  | O => None
  | S fuel' =>
      match s with
      | String c s1 =>
          if Ascii.eqb c dquote then
            '(k, r1) ← scanstring s1;
            match skip_ws r1 with
            | String c2 r2 =>
                if Ascii.eqb c2 ":" then
                  '(v, r3) ← scanvalue (skip_ws r2);
                  let acc' := dict_set k v acc in
                  match skip_ws r3 with
                  | String c4 r4 =>
                      if Ascii.eqb c4 "," then scanmembers fuel' (skip_ws r4) acc'
                      else if Ascii.eqb c4 "}" then
                        match skip_ws r4 with
                        | EmptyString => Some acc'
                        | _ => None
                        end
                      else None
                  | EmptyString => None
                  end
                else None
            | EmptyString => None
            end
          else None
      | EmptyString => None
      end
  end.

Definition loads (s : string) : option (dict value) :=
  match skip_ws s with
  | String c r =>
      if Ascii.eqb c "{" then
        match skip_ws r with
        | String c' r' =>
            if Ascii.eqb c' "}" then
              match skip_ws r' with
              | EmptyString => Some []
              | _ => None
              end
            else scanmembers (String.length s) (String c' r') []
        | EmptyString => None
        end
      else None
  | EmptyString => None
  end.

(** What [loads] makes of the members read in turn. *)
Definition dict_update (acc d : dict value) : dict value :=
  fold_left (fun a kv => dict_set (fst kv) (snd kv) a) d acc.

(** Whether a text begins like a number. *)
Definition starts_num (s : string) : bool :=
  match s with
  | String c _ => is_num_char c
  | EmptyString => false
  end.

End Json.

(** ** Exceptions *)

Inductive exn : Type :=
| KeyError (key : string)
| IndexError
| ValueError (msg : string)
| TypeError
| AttributeError
| FileNotFoundError (path : string)
| JSONDecodeError
| BinasciiError
| MalformedPointError
| BlockDecodeError.

Inductive result (A : Type) : Type :=
| Ok (a : A)
| Raise (e : exn).

Arguments Ok {A} a.
Arguments Raise {A} e.

Definition result_bind {A B} (r : result A) (k : A -> result B) : result B :=
  match r with
  | Ok a => k a
  | Raise e => Raise e
  end.

Definition or_raise {A} (e : exn) (o : option A) : result A :=
  match o with
  | Some a => Ok a
  | None => Raise e
  end.

Definition is_raise {A} (r : result A) : bool :=
  match r with
  | Ok _ => false
  | Raise _ => true
  end.

Declare Scope result_scope.
Delimit Scope result_scope with result.
Notation "x <- r ;; k" := (result_bind r (fun x => k))
  (at level 100, r at next level, right associativity) : result_scope.

(** A method of an object of state [S]: the state is threaded through, and
    a raise keeps the state reached. *)
Definition M (S A : Type) : Type := S -> result A * S.

Definition ret {S A} (a : A) : M S A := fun s => (Ok a, s).
Definition raise {S A} (e : exn) : M S A := fun s => (Raise e, s).
Definition bind {S A B} (m : M S A) (k : A -> M S B) : M S B :=
  fun s =>
    match m s with
    | (Ok a, s') => k a s'
    | (Raise e, s') => (Raise e, s')
    end.
Definition gets {S A} (f : S -> A) : M S A := fun s => (Ok (f s), s).
Definition modify {S} (f : S -> S) : M S unit := fun s => (Ok tt, f s).
Definition lift {S A} (r : result A) : M S A := fun s => (r, s).

Declare Scope method_scope.
Delimit Scope method_scope with method.
Notation "x <- m ;; k" := (bind m (fun x => k))
  (at level 100, m at next level, right associativity) : method_scope.
Notation "m ;; k" := (bind m (fun _ => k))
  (at level 100, right associativity) : method_scope.

(** What a method leaves related.

    [steps R m]: the state [m] ends in, whether it returns or raises, is
    [R]-related to the state it started from. *)

Definition steps {S A} (R : relation S) (m : M S A) : Prop :=
  forall s, R s (snd (m s)).

(** [same f]: the part [f] of the state is unchanged. *)
Definition same {S X} (f : S -> X) : relation S := fun s s' => f s' = f s.

(** [for x in xs: body(x)] *)
Fixpoint for_each {S A} (xs : list A) (body : A -> M S unit) : M S unit :=
  match xs with
  | [] => ret tt
  | x :: xs' => bind (body x) (fun _ => for_each xs' body)
  end.

(** Reading a member of a parsed record. The embedding is typed: a member
    of the other JSON type is reported as [TypeError] where it is read. *)
Definition getitem (d : dict Json.value) (k : string) : result Json.value :=
  or_raise (KeyError k) (dict_get k d).

Definition as_str (v : Json.value) : result string :=
  match v with
  | Json.Str s => Ok s
  | Json.Int _ => Raise TypeError
  end.

Definition as_int (v : Json.value) : result Z :=
  match v with
  | Json.Int z => Ok z
  | Json.Str _ => Raise TypeError
  end.

Definition json_loads (s : string) : result (dict Json.value) :=
  or_raise JSONDecodeError (Json.loads s).

(** ** The cryptographic collaborators

    The [ecdsa] keys on NIST384p, [RIPEMD160] and [base58] are used through
    their interface. Key generation and signing draw from the system's
    entropy, which is an argument here. *)

Class Crypto : Type := {
  SigningKey : Type;
  VerifyingKey : Type;
  SigningKey_generate : list byte -> SigningKey;
  SigningKey_verifying_key : SigningKey -> VerifyingKey;
  SigningKey_to_string : SigningKey -> list byte;
  SigningKey_from_string : list byte -> option SigningKey;
  SigningKey_sign : SigningKey -> list byte -> list byte -> list byte;
  VerifyingKey_to_string : VerifyingKey -> list byte;
  VerifyingKey_from_string : list byte -> option VerifyingKey;
  RIPEMD160_digest : list byte -> list byte;
  b58encode : list byte -> list byte
}.

(** What the keys' own serialisation promises. *)
Class CryptoLaws (C : Crypto) : Prop := {
  SigningKey_from_to_string :
    forall k : SigningKey, SigningKey_from_string (SigningKey_to_string k) = Some k;
  VerifyingKey_from_to_string :
    forall k : VerifyingKey, VerifyingKey_from_string (VerifyingKey_to_string k) = Some k
}.

(** ** Values of mixed type in [Wallet.verify_address]

    [verify_address] passes the return value of a hash object's [update]
    on, so the values it handles are [None], [bytes] or [str]. *)

Inductive pyval : Type :=
| PyNone
| PyBytes (b : list byte)
| PyStr (s : string).

(** [hashlib]'s [m.update(x)] wants a bytes-like [x]; the object is the
    data fed so far. *)
Definition sha256_update (m : list byte) (x : pyval) : result (list byte) :=
  match x with
  | PyBytes b => Ok (m ++ b)
  | _ => Raise TypeError
  end.

(** [Crypto.Hash.RIPEMD160]'s [h.update(x)] feeds the object and returns
    [None]. *)
Definition ripemd160_update (h : list byte) (x : pyval)
  : result (list byte * pyval) :=
  match x with
  | PyBytes b => Ok (h ++ b, PyNone)
  | _ => Raise TypeError
  end.

Definition py_add (x y : pyval) : result pyval :=
  match x, y with
  | PyBytes a, PyBytes b => Ok (PyBytes (a ++ b))
  | PyStr a, PyStr b => Ok (PyStr (a +:+ b))
  | _, _ => Raise TypeError
  end.

Definition py_eq (x y : pyval) : bool :=
  match x, y with
  | PyNone, PyNone => true
  | PyBytes a, PyBytes b => bool_decide (a = b)
  | PyStr a, PyStr b => String.eqb a b
  | _, _ => false
  end.

(** ** Wallet.py: class [Wallet] *)

Module Wallet.
Section WithCrypto.
Context {C : Crypto}.

Record t : Type := mk {
  _name : string;
  _balance : Z;
  sk : SigningKey;
  vk : VerifyingKey;
  _address : string
}.

(** The properties. *)
Definition name (self : t) : string := _name self.
Definition balance (self : t) : Z := _balance self.
Definition signing_key (self : t) : SigningKey := sk self.
Definition verifying_key (self : t) : VerifyingKey := vk self.
Definition address (self : t) : string := _address self.

(** The setters, and the plain attribute assignments [wallet.sk = ...]
    and [wallet.vk = ...]. *)
Definition set_balance (self : t) (balance : Z) : t :=
  {| _name := _name self; _balance := balance; sk := sk self; vk := vk self;
     _address := _address self |}.
Definition set_sk (self : t) (k : SigningKey) : t :=
  {| _name := _name self; _balance := _balance self; sk := k; vk := vk self;
     _address := _address self |}.
Definition set_vk (self : t) (k : VerifyingKey) : t :=
  {| _name := _name self; _balance := _balance self; sk := sk self; vk := k;
     _address := _address self |}.
Definition set_address (self : t) (address : string) : t :=
  {| _name := _name self; _balance := _balance self; sk := sk self; vk := vk self;
     _address := address |}.

(** [_create_address]: the method reads only [self.verifying_key], which
    is its argument here. *)
Definition _create_address (self_verifying_key : VerifyingKey) : string :=
  let vk := Base64.b64encode (VerifyingKey_to_string self_verifying_key) in
  (* m.update(vk); h.update(m.digest()); key_hash = h.digest() *)
  let key_hash := RIPEMD160_digest (SHA256.digest vk) in
  (* the checksum: the SHA-256 of the SHA-256 of the key hash, in full *)
  let temp := SHA256.digest key_hash in
  let checksum := SHA256.digest temp in
  let addr := key_hash ++ checksum in
  bytes_decode (b58encode addr).

(** [Wallet(name, balance)]; [entropy] is what [SigningKey.generate]
    draws. *)
Definition __init__ (name : string) (balance : Z) (entropy : list byte) : t :=
  let sk := SigningKey_generate entropy in
  let vk := SigningKey_verifying_key sk in
  {| _name := name; _balance := balance; sk := sk; vk := vk;
     _address := _create_address vk |}.

Definition add_balance (self : t) (amount : Z) : t :=
  set_balance self (balance self + amount).

Definition sub_balance (self : t) (amount : Z) : t :=
  set_balance self (balance self - amount).

(** [verify_address]: [key_hash] is bound to what [h.update] returns. *)
Definition verify_address (wallet : t) : result bool :=
  (let m := [] in
   let h := [] in
   let vk := PyBytes (Base64.b64encode (VerifyingKey_to_string (verifying_key wallet))) in
   m <- sha256_update m vk ;;
   hk <- ripemd160_update h (PyBytes (SHA256.digest m)) ;;
   let key_hash := snd hk in
   let m := [] in
   m <- sha256_update m key_hash ;;
   let temp := SHA256.digest m in
   let m := [] in
   m <- sha256_update m (PyBytes temp) ;;
   let checksum := PyBytes (SHA256.digest m) in
   addr <- py_add key_hash checksum ;;
   Ok (py_eq addr (PyStr (address wallet))))%result.

Definition b64_text (bs : list byte) : string :=
  bytes_decode (Base64.b64encode bs).

Definition serialize (wallet : t) : string :=
  let d := [("name", Json.Str (name wallet));
            ("balance", Json.Int (balance wallet));
            ("sk", Json.Str (b64_text (SigningKey_to_string (signing_key wallet))));
            ("vk", Json.Str (b64_text (VerifyingKey_to_string (verifying_key wallet))));
            ("address", Json.Str (address wallet))] in
  Json.dumps d.

(** [base64.b64decode(text.encode())] *)
Definition b64_bytes (text : string) : result (list byte) :=
  or_raise BinasciiError (Base64.b64decode (str_encode text)).

Definition read_signing_key (v : Json.value) : result SigningKey :=
  (text <- as_str v ;;
   raw <- b64_bytes text ;;
   or_raise MalformedPointError (SigningKey_from_string raw))%result.

Definition read_verifying_key (v : Json.value) : result VerifyingKey :=
  (text <- as_str v ;;
   raw <- b64_bytes text ;;
   or_raise MalformedPointError (VerifyingKey_from_string raw))%result.

(** [deserialize]: the constructor runs first and draws a key of its own,
    which the stored keys and address then replace. *)
Definition deserialize (raw_data : string) (entropy : list byte) : result t :=
  (data <- json_loads raw_data ;;
   v_name <- getitem data "name" ;;
   v_balance <- getitem data "balance" ;;
   name <- as_str v_name ;;
   balance <- as_int v_balance ;;
   let wallet := __init__ name balance entropy in
   v_sk <- getitem data "sk" ;;
   k <- read_signing_key v_sk ;;
   let wallet := set_sk wallet k in
   v_vk <- getitem data "vk" ;;
   k <- read_verifying_key v_vk ;;
   let wallet := set_vk wallet k in
   v_address <- getitem data "address" ;;
   address <- as_str v_address ;;
   Ok (set_address wallet address))%result.

End WithCrypto.
End Wallet.

(** ** The block

    Modelled from the spec: the [Block] class (module [Block] is not among
    the sources). The spec gives a block its [height], [timestamp],
    [difficultyBits], [nonce], [transactions], [prevHash] and [hash]; the
    genesis block, built with a previous height of -1, is sealed at height
    0 and a later block, built from the tip's height, at that height plus
    one; sealing is the collaborator [seal(height, timestamp,
    difficultyBits, transactions, prevHash) -> (hash, nonce)], and the
    encoding of a block is opaque. The Merkle tree of a block is read by no
    operation embedded here and is left out. *)

Module Block.

Record t : Type := mk {
  height : Z;
  time : Z;
  bits : Z;
  nonce : Z;
  transactions : list string;
  prev_block_hash : string;
  hash : string
}.

Definition __init__ (prev_height time bits nonce : Z)
    (transactions : list string) (prev_block_hash : string) : t :=
  {| height := prev_height + 1; time := time; bits := bits; nonce := nonce;
     transactions := transactions; prev_block_hash := prev_block_hash;
     hash := "" |}.

Class Lib : Type := {
  seal : Z -> Z -> Z -> list string -> string -> string * Z;
  serialize : t -> string;
  deserialize : string -> option t
}.

Definition set_hash {L : Lib} (self : t) : t :=
  let '(h, n) := seal (height self) (time self) (bits self)
                      (transactions self) (prev_block_hash self) in
  {| height := height self; time := time self; bits := bits self; nonce := n;
     transactions := transactions self;
     prev_block_hash := prev_block_hash self; hash := h |}.

End Block.

(** An all-zero digest of the size of SHA-256, and a block whose previous
    hash is its base64 text. *)
Definition all_zero_digest : list byte := repeat x00 32.

Definition zero_placeholder (b : Block.t) : Prop :=
  Base64.b64decode (str_encode (Block.prev_block_hash b)) = Some all_zero_digest.

(** ** The system around the process: entropy and the clock, as the
    sequence of values the calls return. *)

Class System : Type := {
  os_urandom : nat -> list byte;
  time_time : nat -> Z
}.

(** ** Blockchain.py: class [Blockchain] *)

(** Modelled from the spec: the [Address] class (module [Address] is not
    among the sources). The spec's account is a name, a balance, a signing
    key, a verifying key and an address, created with a fresh key pair and
    the address derived from it. That is the [Wallet] class of Wallet.py,
    which the program's notes name as the replacement of [Address] and
    which has every member [Blockchain] uses. *)
Definition Address {C : Crypto} : Type := Wallet.t.

Module Blockchain.
Section WithCollaborators.
Context {C : Crypto} {L : Block.Lib} {Sy : System}.

(** A file object: the file it was opened on, and whether it is closed. *)
Inductive file : Type :=
| File (path : string) (closed : bool).

(** The object, and the part of the process it works in: [heap] holds the
    list objects that are passed around by reference ([transaction_pool] is
    the location of one), [disk] is the store directory ([None] when it
    does not exist), a file being the lines written to it, and [draws] and
    [ticks] count the calls to the entropy source and to the clock. The
    store directory is always the default one ([data_path]). *)
Record t : Type := mk {
  _blocks : list Block.t;
  bits : Z;
  subsidy : Z;
  address_pool : dict Address;
  transaction_pool : nat;
  balance_pool : list (string * string * Z);
  height : Z;
  count : Z;
  index : Z;
  threshold : Z;
  data_file : option file;
  address_file : option file;
  heap : list (list string);
  disk : option (gmap string (list string));
  draws : nat;
  ticks : nat
}.

Definition set__blocks (x : list Block.t) (self : t) : t :=
  {| _blocks := x; bits := bits self; subsidy := subsidy self; address_pool
     := address_pool self; transaction_pool := transaction_pool self;
     balance_pool := balance_pool self; height := height self; count :=
     count self; index := index self; threshold := threshold self; data_file
     := data_file self; address_file := address_file self; heap := heap
     self; disk := disk self; draws := draws self; ticks := ticks self |}.

Definition set_bits (x : Z) (self : t) : t :=
  {| _blocks := _blocks self; bits := x; subsidy := subsidy self;
     address_pool := address_pool self; transaction_pool := transaction_pool
     self; balance_pool := balance_pool self; height := height self; count
     := count self; index := index self; threshold := threshold self;
     data_file := data_file self; address_file := address_file self; heap :=
     heap self; disk := disk self; draws := draws self; ticks := ticks self
     |}.

Definition set_subsidy (x : Z) (self : t) : t :=
  {| _blocks := _blocks self; bits := bits self; subsidy := x; address_pool
     := address_pool self; transaction_pool := transaction_pool self;
     balance_pool := balance_pool self; height := height self; count :=
     count self; index := index self; threshold := threshold self; data_file
     := data_file self; address_file := address_file self; heap := heap
     self; disk := disk self; draws := draws self; ticks := ticks self |}.

Definition set_address_pool (x : dict Address) (self : t) : t :=
  {| _blocks := _blocks self; bits := bits self; subsidy := subsidy self;
     address_pool := x; transaction_pool := transaction_pool self;
     balance_pool := balance_pool self; height := height self; count :=
     count self; index := index self; threshold := threshold self; data_file
     := data_file self; address_file := address_file self; heap := heap
     self; disk := disk self; draws := draws self; ticks := ticks self |}.

Definition set_transaction_pool (x : nat) (self : t) : t :=
  {| _blocks := _blocks self; bits := bits self; subsidy := subsidy self;
     address_pool := address_pool self; transaction_pool := x; balance_pool
     := balance_pool self; height := height self; count := count self; index
     := index self; threshold := threshold self; data_file := data_file
     self; address_file := address_file self; heap := heap self; disk :=
     disk self; draws := draws self; ticks := ticks self |}.

Definition set_balance_pool (x : list (string * string * Z)) (self : t) : t :=
  {| _blocks := _blocks self; bits := bits self; subsidy := subsidy self;
     address_pool := address_pool self; transaction_pool := transaction_pool
     self; balance_pool := x; height := height self; count := count self;
     index := index self; threshold := threshold self; data_file :=
     data_file self; address_file := address_file self; heap := heap self;
     disk := disk self; draws := draws self; ticks := ticks self |}.

Definition set_height (x : Z) (self : t) : t :=
  {| _blocks := _blocks self; bits := bits self; subsidy := subsidy self;
     address_pool := address_pool self; transaction_pool := transaction_pool
     self; balance_pool := balance_pool self; height := x; count := count
     self; index := index self; threshold := threshold self; data_file :=
     data_file self; address_file := address_file self; heap := heap self;
     disk := disk self; draws := draws self; ticks := ticks self |}.

Definition set_count (x : Z) (self : t) : t :=
  {| _blocks := _blocks self; bits := bits self; subsidy := subsidy self;
     address_pool := address_pool self; transaction_pool := transaction_pool
     self; balance_pool := balance_pool self; height := height self; count
     := x; index := index self; threshold := threshold self; data_file :=
     data_file self; address_file := address_file self; heap := heap self;
     disk := disk self; draws := draws self; ticks := ticks self |}.

Definition set_index (x : Z) (self : t) : t :=
  {| _blocks := _blocks self; bits := bits self; subsidy := subsidy self;
     address_pool := address_pool self; transaction_pool := transaction_pool
     self; balance_pool := balance_pool self; height := height self; count
     := count self; index := x; threshold := threshold self; data_file :=
     data_file self; address_file := address_file self; heap := heap self;
     disk := disk self; draws := draws self; ticks := ticks self |}.

Definition set_threshold (x : Z) (self : t) : t :=
  {| _blocks := _blocks self; bits := bits self; subsidy := subsidy self;
     address_pool := address_pool self; transaction_pool := transaction_pool
     self; balance_pool := balance_pool self; height := height self; count
     := count self; index := index self; threshold := x; data_file :=
     data_file self; address_file := address_file self; heap := heap self;
     disk := disk self; draws := draws self; ticks := ticks self |}.

Definition set_data_file (x : option file) (self : t) : t :=
  {| _blocks := _blocks self; bits := bits self; subsidy := subsidy self;
     address_pool := address_pool self; transaction_pool := transaction_pool
     self; balance_pool := balance_pool self; height := height self; count
     := count self; index := index self; threshold := threshold self;
     data_file := x; address_file := address_file self; heap := heap self;
     disk := disk self; draws := draws self; ticks := ticks self |}.

Definition set_address_file (x : option file) (self : t) : t :=
  {| _blocks := _blocks self; bits := bits self; subsidy := subsidy self;
     address_pool := address_pool self; transaction_pool := transaction_pool
     self; balance_pool := balance_pool self; height := height self; count
     := count self; index := index self; threshold := threshold self;
     data_file := data_file self; address_file := x; heap := heap self; disk
     := disk self; draws := draws self; ticks := ticks self |}.

Definition set_heap (x : list (list string)) (self : t) : t :=
  {| _blocks := _blocks self; bits := bits self; subsidy := subsidy self;
     address_pool := address_pool self; transaction_pool := transaction_pool
     self; balance_pool := balance_pool self; height := height self; count
     := count self; index := index self; threshold := threshold self;
     data_file := data_file self; address_file := address_file self; heap :=
     x; disk := disk self; draws := draws self; ticks := ticks self |}.

Definition set_disk (x : option (gmap string (list string))) (self : t) : t :=
  {| _blocks := _blocks self; bits := bits self; subsidy := subsidy self;
     address_pool := address_pool self; transaction_pool := transaction_pool
     self; balance_pool := balance_pool self; height := height self; count
     := count self; index := index self; threshold := threshold self;
     data_file := data_file self; address_file := address_file self; heap :=
     heap self; disk := x; draws := draws self; ticks := ticks self |}.

Definition set_draws (x : nat) (self : t) : t :=
  {| _blocks := _blocks self; bits := bits self; subsidy := subsidy self;
     address_pool := address_pool self; transaction_pool := transaction_pool
     self; balance_pool := balance_pool self; height := height self; count
     := count self; index := index self; threshold := threshold self;
     data_file := data_file self; address_file := address_file self; heap :=
     heap self; disk := disk self; draws := x; ticks := ticks self |}.

Definition set_ticks (x : nat) (self : t) : t :=
  {| _blocks := _blocks self; bits := bits self; subsidy := subsidy self;
     address_pool := address_pool self; transaction_pool := transaction_pool
     self; balance_pool := balance_pool self; height := height self; count
     := count self; index := index self; threshold := threshold self;
     data_file := data_file self; address_file := address_file self; heap :=
     heap self; disk := disk self; draws := draws self; ticks := x |}.

Definition method (A : Type) : Type := M t A.

(** *** List objects *)

Definition list_new : method nat :=
  fun self => (Ok (length (heap self)), set_heap (heap self ++ [[]]) self).

Definition list_append (l : nat) (x : string) : method unit :=
  modify (fun self => set_heap (alter (fun xs => xs ++ [x]) l (heap self)) self).

Definition list_read (l : nat) : method (list string) :=
  gets (fun self => default [] (heap self !! l)).

(** *** Entropy and clock *)

Definition draw : method (list byte) :=
  fun self => (Ok (os_urandom (draws self)), set_draws (S (draws self)) self).

Definition now : method Z :=
  fun self => (Ok (time_time (ticks self)), set_ticks (S (ticks self)) self).

(** *** Files

    [open(path, 'w+')] empties the file, [open(path, 'a+')] creates it when
    missing; both need the directory. Writes reach the file at once. *)

Definition open_w (path : string) : method file :=
  fun self =>
    match disk self with
    | None => (Raise (FileNotFoundError path), self)
    | Some d => (Ok (File path false), set_disk (Some (<[path := []]> d)) self)
    end.

Definition open_a (path : string) : method file :=
  fun self =>
    match disk self with
    | None => (Raise (FileNotFoundError path), self)
    | Some d =>
        (Ok (File path false),
         set_disk (Some (<[path := default [] (d !! path)]> d)) self)
    end.

(** [open(path, 'r')] and the lines read from it. *)
Definition open_r (path : string) : method (list string) :=
  fun self =>
    match disk self with
    | None => (Raise (FileNotFoundError path), self)
    | Some d => (or_raise (FileNotFoundError path) (d !! path), self)
    end.

Definition file_write (path line : string) : method unit :=
  fun self =>
    match disk self with
    | None => (Raise (FileNotFoundError path), self)
    | Some d =>
        (Ok tt, set_disk (Some (<[path := default [] (d !! path) ++ [line]]> d)) self)
    end.

(** [f.write(line + '\n')] on an attribute that holds a file object, or
    [None]. *)
Definition handle_write (f : option file) (line : string) : method unit :=
  match f with
  | None => raise AttributeError
  | Some (File path true) => raise (ValueError "I/O operation on closed file.")
  | Some (File path false) => file_write path line
  end.

(** [f.close()] *)
Definition close_file (f : option file) : result (option file) :=
  match f with
  | None => Raise AttributeError
  | Some (File path _) => Ok (Some (File path true))
  end.

(** [f.read().strip('\n')] *)
Definition nl : string := String "010"%char "".

Definition read_strip (lines : list string) : string :=
  String.concat nl lines.

Definition mkdir_if_missing : method unit :=
  modify (fun self =>
            match disk self with
            | None => set_disk (Some ∅) self
            | Some _ => self
            end).

Definition listdir : method (list string) :=
  fun self =>
    match disk self with
    | None => (Raise (FileNotFoundError ""), self)
    | Some d => (Ok (map fst (map_to_list d)), self)
    end.

(** *** The object *)

(** [Blockchain()], in a process whose store directory is [d]. *)
Definition __init__ (d : option (gmap string (list string))) : t :=
  {| _blocks := []; bits := 15; subsidy := 50; address_pool := [];
     transaction_pool := 0%nat; balance_pool := []; height := 0; count := 0;
     index := 0; threshold := 100; data_file := None; address_file := None;
     heap := [[]]; disk := d; draws := 0%nat; ticks := 0%nat |}.

Local Open Scope method_scope.

(** [self.address_pool[name]] *)
Definition pool_get (name : string) : method Address :=
  fun self => (or_raise (KeyError name) (dict_get name (address_pool self)), self).

Definition have_balance (name : string) (amount : Z) : method bool :=
  addr <- pool_get name ;;
  if Wallet.balance addr >=? amount then ret true else ret false.

Definition increment_balance (name : string) (amount : Z) : method unit :=
  addr <- pool_get name ;;
  modify (fun self =>
            set_address_pool
              (dict_set name (Wallet.add_balance addr amount) (address_pool self)) self).

Definition decrement_balance (name : string) (amount : Z) : method unit :=
  addr <- pool_get name ;;
  modify (fun self =>
            set_address_pool
              (dict_set name (Wallet.sub_balance addr amount) (address_pool self)) self).

Definition move_balance (source dest : string) (amount : Z) : method unit :=
  decrement_balance source amount ;;
  increment_balance dest amount.

Definition sign_transaction (source tx_data : string) : method string :=
  addr <- pool_get source ;;
  let sk := Wallet.sk addr in
  entropy <- draw ;;
  let signature :=
    bytes_decode (b58encode (SigningKey_sign sk entropy (str_encode tx_data))) in
  let sign_data := tx_data +:+ "|" +:+ signature in
  ret sign_data.

(** *** Saving *)

Definition metadata_record (self : t) : dict Json.value :=
  [("bits", Json.Int (bits self)); ("subsidy", Json.Int (subsidy self));
   ("height", Json.Int (Z.of_nat (length (_blocks self))));
   ("count", Json.Int (count self)); ("index", Json.Int (index self))].

Definition save_metadata : method unit :=
  mkdir_if_missing ;;
  _ <- open_w "metadata" ;;
  d <- gets metadata_record ;;
  let data := Json.dumps d in
  file_write "metadata" data.

Definition address_record (name : string) (addr : Address) : dict Json.value :=
  [("name", Json.Str name); ("balance", Json.Int (Wallet.balance addr));
   ("sk", Json.Str (Wallet.b64_text (SigningKey_to_string (Wallet.sk addr))));
   ("vk", Json.Str (Wallet.b64_text (VerifyingKey_to_string (Wallet.vk addr))))].

Definition save_address_data (addr : Address) : method unit :=
  let d := address_record (Wallet.name addr) addr in
  let data := Json.dumps d in
  f <- gets address_file ;;
  handle_write f data.

Definition save_address_pool_data : method unit :=
  f <- gets address_file ;;
  f' <- lift (close_file f) ;;
  modify (set_address_file f') ;;
  _ <- open_w "address" ;;
  pool <- gets address_pool ;;
  for_each pool (fun item =>
    let d := address_record (fst item) (snd item) in
    let data := Json.dumps d in
    file_write "address" data).

Definition save_transaction_data : method unit :=
  _ <- open_w "transactions" ;;
  intents <- gets balance_pool ;;
  for_each intents (fun intent =>
    let '(source, dest, amount) := intent in
    let d := [("source", Json.Str source); ("dest", Json.Str dest);
              ("amount", Json.Int amount)] in
    let data := Json.dumps d in
    file_write "transactions" data).

Definition save_genesis_data : method unit :=
  _ <- open_w "genesis" ;;
  blocks <- gets _blocks ;;
  genesis <- lift (or_raise IndexError (head blocks)) ;;
  let data := Block.serialize genesis in
  file_write "genesis" data.

(** [f'data-{index}'] *)
Definition data_file_name (index : Z) : string := "data-" +:+ py_str_int index.

(** [threshold] is never zero: [__init__] sets it to 100 and nothing
    assigns it, so [//] and [%] are [Z.div] and [Z.modulo]. *)
Definition save_block_data (block : Block.t) : method unit :=
  let data := Block.serialize block in
  modify (fun self => set_index (count self / threshold self) self) ;;
  c <- gets count ;;
  th <- gets threshold ;;
  (if negb (c =? 0) && (c mod th =? 0) then
     f <- gets data_file ;;
     f' <- lift (close_file f) ;;
     modify (set_data_file f') ;;
     i <- gets index ;;
     f <- open_w (data_file_name i) ;;
     modify (set_data_file (Some f))
   else ret tt) ;;
  modify (fun self => set_count (count self + 1) self) ;;
  f <- gets data_file ;;
  handle_write f data ;;
  save_metadata.

(** *** Accounts and blocks *)

Definition create_user (name : string) : method unit :=
  pool <- gets address_pool ;;
  if negb (dict_mem name pool) then
    entropy <- draw ;;
    let addr := Wallet.__init__ name 0 entropy in
    modify (fun self => set_address_pool (dict_set name addr (address_pool self)) self) ;;
    save_address_data addr
  else
    (* print('User name exist! Please choose another name as your address!') *)
    ret tt.

Definition new_block (prev_height : Z) (transactions : list string)
    (prev_hash : string) : method Block.t :=
  time <- now ;;
  bits <- gets bits ;;
  let block := Block.__init__ prev_height time bits 0 transactions prev_hash in
  let block := Block.set_hash block in
  ret block.

Definition new_genesis_block (name : string) : method Block.t :=
  let miner_data := "This is the genesis block!!!" in
  sign_data <- sign_transaction name miner_data ;;
  (* hashlib.sha256().digest(): the digest of a hash object fed nothing *)
  let prev_hash := bytes_decode (Base64.b64encode (SHA256.digest [])) in
  new_block (-1) [sign_data] prev_hash.

(** [transactions] is a list object. *)
Definition add_block (transactions : nat) (name : string) : method unit :=
  blocks <- gets _blocks ;;
  prev_block <- lift (or_raise IndexError (last blocks)) ;;
  txs <- list_read transactions ;;
  new_block <- new_block (Block.height prev_block) txs (Block.hash prev_block) ;;
  modify (fun self => set__blocks (_blocks self ++ [new_block]) self).

Definition new_coinbase_tx_account (transactions : nat) (name : string)
  : method unit :=
  reward <- gets subsidy ;;
  let miner_data := "Reward $" +:+ py_str_int reward +:+ " to " +:+ name in
  sign_data <- sign_transaction name miner_data ;;
  list_append transactions sign_data ;;
  add_block transactions name ;;
  reward <- gets subsidy ;;
  increment_balance name reward ;;
  blocks <- gets _blocks ;;
  tip <- lift (or_raise IndexError (last blocks)) ;;
  save_block_data tip.

Definition no_balance (source : string) : exn :=
  ValueError (source +:+ " has no enough balance for transaction!!!").

Definition fire_intent (intent : string * string * Z) : method unit :=
  let '(source, dest, amount) := intent in
  enough <- have_balance source amount ;;
  if negb enough then raise (no_balance source)
  else move_balance source dest amount.

Definition fire_transactions (name : string) : method unit :=
  pool <- gets transaction_pool ;;
  new_coinbase_tx_account pool name ;;
  intents <- gets balance_pool ;;
  for_each intents fire_intent ;;
  save_address_pool_data ;;
  l <- list_new ;;
  modify (set_transaction_pool l) ;;
  modify (set_balance_pool []).

(** [f'from: {source} -- to: {dest} -- amount: {amount}'] *)
Definition tx_text (source dest : string) (amount : Z) : string :=
  "from: " +:+ source +:+ " -- to: " +:+ dest +:+ " -- amount: "
  +:+ py_str_int amount.

Definition add_transaction (source dest : string) (amount : Z) : method unit :=
  enough <- have_balance source amount ;;
  if negb enough then raise (no_balance source)
  else
    let tx_data := tx_text source dest amount in
    sign_data <- sign_transaction source tx_data ;;
    pool <- gets transaction_pool ;;
    list_append pool sign_data ;;
    modify (fun self =>
              set_balance_pool (balance_pool self ++ [(source, dest, amount)]) self).

Definition initialize (name : string) : method unit :=
  f <- open_w "address" ;;
  modify (set_address_file (Some f)) ;;
  f <- open_w "data-0" ;;
  modify (set_data_file (Some f)) ;;
  create_user name ;;
  increment_balance name 50 ;;
  genesis_block <- new_genesis_block name ;;
  modify (fun self => set__blocks (_blocks self ++ [genesis_block]) self) ;;
  save_block_data genesis_block ;;
  save_metadata ;;
  save_genesis_data.

(** *** Loading *)

Definition member_int (d : dict Json.value) (k : string) : method Z :=
  lift (v <- getitem d k ;; as_int v)%result.

Definition member_str (d : dict Json.value) (k : string) : method string :=
  lift (v <- getitem d k ;; as_str v)%result.

Definition read_metadata : method unit :=
  d <- gets disk ;;
  match d with
  | None => ret tt
  | Some _ =>
      lines <- open_r "metadata" ;;
      let raw_data := read_strip lines in
      metadata <- lift (json_loads raw_data) ;;
      v <- member_int metadata "bits" ;; modify (set_bits v) ;;
      v <- member_int metadata "subsidy" ;; modify (set_subsidy v) ;;
      v <- member_int metadata "height" ;; modify (set_height v) ;;
      v <- member_int metadata "count" ;; modify (set_count v) ;;
      v <- member_int metadata "index" ;; modify (set_index v)
  end.

Definition read_address (line : string) : method unit :=
  let raw_data := line in
  address <- lift (json_loads raw_data) ;;
  name <- member_str address "name" ;;
  balance <- member_int address "balance" ;;
  entropy <- draw ;;
  let addr := Wallet.__init__ name balance entropy in
  k <- lift (v <- getitem address "sk" ;; Wallet.read_signing_key v)%result ;;
  let addr := Wallet.set_sk addr k in
  k <- lift (v <- getitem address "vk" ;; Wallet.read_verifying_key v)%result ;;
  let addr := Wallet.set_vk addr k in
  modify (fun self => set_address_pool (dict_set name addr (address_pool self)) self).

Definition read_address_pool_data : method unit :=
  lines <- open_r "address" ;;
  for_each lines read_address.

Definition read_transaction (line : string) : method unit :=
  let raw_data := line in
  transaction <- lift (json_loads raw_data) ;;
  source <- member_str transaction "source" ;;
  dest <- member_str transaction "dest" ;;
  amount <- member_int transaction "amount" ;;
  let tx_data := tx_text source dest amount in
  pool <- gets transaction_pool ;;
  list_append pool tx_data ;;
  modify (fun self =>
            set_balance_pool (balance_pool self ++ [(source, dest, amount)]) self).

Definition read_transaction_data : method unit :=
  lines <- open_r "transactions" ;;
  for_each lines read_transaction ;;
  _ <- open_w "transactions" ;;
  ret tt.

Definition read_block (data : string) : method unit :=
  block <- lift (or_raise BlockDecodeError (Block.deserialize data)) ;;
  modify (fun self => set__blocks (_blocks self ++ [block]) self).

Definition read_genesis_data : method unit :=
  lines <- open_r "genesis" ;;
  let data := read_strip lines in
  read_block data.

(** [sorted(names)]: strings compare character by character. *)
Fixpoint sorted_insert (x : string) (l : list string) : list string :=
  match l with
  | [] => [x]
  | y :: l' => if String.leb x y then x :: l else y :: sorted_insert x l'
  end.

Definition sorted (l : list string) : list string :=
  fold_right sorted_insert [] l.

(** [l.remove(x)]: the first occurrence goes; [ValueError] without one. *)
Fixpoint list_remove (x : string) (l : list string) : result (list string) :=
  match l with
  | [] => Raise (ValueError "list.remove(x): x not in list")
  | y :: l' =>
      if String.eqb y x then Ok l'
      else result_bind (list_remove x l') (fun r => Ok (y :: r))
  end.

Definition read_segment (file : string) : method unit :=
  lines <- open_r file ;;
  for_each lines read_block.

Definition read_blocks_data : method unit :=
  names <- listdir ;;
  let sort_dir := sorted names in
  sort_dir <- lift (list_remove "genesis" sort_dir) ;;
  sort_dir <- lift (list_remove "metadata" sort_dir) ;;
  sort_dir <- lift (list_remove "address" sort_dir) ;;
  sort_dir <- lift (list_remove "transactions" sort_dir) ;;
  for_each sort_dir read_segment.

Definition read_blockchain : method unit :=
  read_metadata ;;
  read_address_pool_data ;;
  read_transaction_data ;;
  read_genesis_data ;;
  f <- open_a "address" ;;
  modify (set_address_file (Some f)) ;;
  i <- gets index ;;
  f <- open_a (data_file_name i) ;;
  modify (set_data_file (Some f)) ;;
  read_blocks_data.

(** *** Observations on the object *)

(** The pending signed transactions: the list object [transaction_pool]
    points to. *)
Definition pending (self : t) : list string :=
  default [] (heap self !! transaction_pool self).

(** The pool attribute refers to a list object that exists. *)
Definition pool_live (self : t) : Prop :=
  (transaction_pool self < length (heap self))%nat.

(** The books: the chain, the accounts, the reward and the intents. Files,
    clock and entropy leave them alone. *)
Definition books (self : t) :=
  (_blocks self, address_pool self, subsidy self, balance_pool self).

(** All of the ledger that lives in memory, list objects included. *)
Definition memory (self : t) :=
  (books self, heap self, transaction_pool self, bits self).

(** The sum of all account balances. *)
Definition total_balance (pool : dict Address) : Z :=
  fold_right (fun item acc => Wallet.balance (snd item) + acc) 0 pool.

(** The chain, the reward, the intents and the list objects: what a
    transfer leaves alone. *)
Definition but_accounts (self : t) :=
  (_blocks self, subsidy self, balance_pool self, heap self, transaction_pool self).

(** The run of a settlement up to an intent that fails the check: the
    coinbase step returned [after_coinbase], the intents before the failing
    one were applied in order and returned [at_failure], and there the
    source's balance does not cover the amount. *)
Definition intent_fails (name : string) (self : t) (source : string)
    (after_coinbase at_failure : t) : Prop :=
  exists (before after : list (string * string * Z)) (dest : string) (amount : Z),
    new_coinbase_tx_account (transaction_pool self) name self = (Ok tt, after_coinbase)
    /\ balance_pool self = before ++ (source, dest, amount) :: after
    /\ for_each before fire_intent after_coinbase = (Ok tt, at_failure)
    /\ have_balance source amount at_failure = (Ok false, at_failure).

(** Each block names the hash of the block before it. *)
Definition linked (blocks : list Block.t) : Prop :=
  forall (i : nat) (a b : Block.t),
    blocks !! i = Some a -> blocks !! Datatypes.S i = Some b ->
    Block.prev_block_hash b = Block.hash a.

(** The chain only grows at its end, and stays linked if it was. *)
Definition chain_grows : relation t := fun self self' =>
  _blocks self `prefix_of` _blocks self'
  /\ (linked (_blocks self) -> linked (_blocks self')).

(** The calls a client makes on an initialised ledger. A client that
    catches an error goes on with the object as the failed call left it. *)
Inductive call : Type :=
| Create_user (name : string)
| Add_transaction (source dest : string) (amount : Z)
| Fire_transactions (name : string).

Definition perform (c : call) : method unit :=
  match c with
  | Create_user name => create_user name
  | Add_transaction source dest amount => add_transaction source dest amount
  | Fire_transactions name => fire_transactions name
  end.

Fixpoint run (calls : list call) (self : t) : t :=
  match calls with
  | [] => self
  | c :: calls' => run calls' (snd (perform c self))
  end.

(** The two pools are in step: as many pending transactions as intents,
    in a list object that exists. *)
Definition aligned (self : t) : Prop :=
  pool_live self /\ length (pending self) = length (balance_pool self).


(** The data file follows the count: the directory exists, and the open
    data file is the segment of the last block written ([data-0] before
    the first). *)
Definition last_segment (self : t) : Z :=
  if count self =? 0 then 0 else (count self - 1) / threshold self.

Definition data_file_tracks (self : t) : Prop :=
  0 <= count self /\ 0 < threshold self
  /\ is_Some (disk self)
  /\ data_file self = Some (File (data_file_name (last_segment self)) false).

(** Whether [save_block_data] opens a new segment for the next block. *)
Definition rotates (self : t) : bool :=
  negb (count self =? 0) && (count self mod threshold self =? 0).

(** The line [save_transaction_data] writes for an intent. *)
Definition intent_line (intent : string * string * Z) : string :=
  let '(source, dest, amount) := intent in
  Json.dumps [("source", Json.Str source); ("dest", Json.Str dest);
              ("amount", Json.Int amount)].

(** The account [read_address_pool_data] builds from the record of [addr]
    stored under [name]: the stored balance and keys, under the address of
    the key the constructor drew. *)
Definition reloaded (name : string) (addr : Address) (entropy : list byte) : Address :=
  Wallet.mk name (Wallet.balance addr) (Wallet.sk addr) (Wallet.vk addr)
    (Wallet._create_address (SigningKey_verifying_key (SigningKey_generate entropy))).

Fixpoint reload_pool (n : nat) (pool : dict Address) : dict Address :=
  match pool with
  | [] => []
  | (name, addr) :: rest =>
      (name, reloaded name addr (os_urandom n)) :: reload_pool (S n) rest
  end.

(** The run of a settlement up to an intent whose destination has no
    account: the coinbase step returned [after_coinbase], the intents
    before it were applied in order and returned [at_failure], and there
    the source, [from], covers the amount while [dest] is not in the
    pool. *)
Definition intent_lost (name : string) (self : t) (source dest : string)
    (amount : Z) (from : Address) (after_coinbase at_failure : t) : Prop :=
  exists before after : list (string * string * Z),
    new_coinbase_tx_account (transaction_pool self) name self = (Ok tt, after_coinbase)
    /\ balance_pool self = before ++ (source, dest, amount) :: after
    /\ for_each before fire_intent after_coinbase = (Ok tt, at_failure)
    /\ dict_get source (address_pool at_failure) = Some from
    /\ amount <= Wallet.balance from
    /\ dict_get dest (address_pool at_failure) = None.

(** What a list of intents moves into an account, and out of it. *)
Definition inflow (account : string) (intents : list (string * string * Z)) : Z :=
  fold_right (fun intent acc =>
                let '(_, dest, amount) := intent in
                (if String.eqb dest account then amount else 0) + acc)
    0 intents.

Definition outflow (account : string) (intents : list (string * string * Z)) : Z :=
  fold_right (fun intent acc =>
                let '(source, _, amount) := intent in
                (if String.eqb source account then amount else 0) + acc)
    0 intents.

End WithCollaborators.
End Blockchain.

(** ** A small instance of the collaborators

    Enough to run the embedding on concrete inputs: a key is the bytes it
    is made from, a signature is a prefix of key, entropy and message, and
    a block is sealed with the SHA-256 of its previous hash and height. *)

Module Demo.

#[local] Instance crypto : Crypto := {|
  SigningKey := list byte;
  VerifyingKey := list byte;
  SigningKey_generate := fun entropy => entropy;
  SigningKey_verifying_key := fun k => rev k;
  SigningKey_to_string := fun k => k;
  SigningKey_from_string := fun raw => Some raw;
  SigningKey_sign := fun k entropy data => firstn 4 (k ++ entropy ++ data);
  VerifyingKey_to_string := fun k => k;
  VerifyingKey_from_string := fun raw => Some raw;
  RIPEMD160_digest := fun data => firstn 20 data;
  b58encode := fun data => data
|}.

#[local] Instance block_lib : Block.Lib := {|
  Block.seal := fun height time bits transactions prev_hash =>
    (Wallet.b64_text
       (firstn 6 (SHA256.digest (str_encode (prev_hash +:+ py_str_int height)))), 0);
  Block.serialize := fun b => Block.hash b;
  Block.deserialize := fun data =>
    Some {| Block.height := 0; Block.time := 0; Block.bits := 0; Block.nonce := 0;
            Block.transactions := []; Block.prev_block_hash := "";
            Block.hash := data |}
|}.

#[local] Instance system : System := {|
  os_urandom := fun n => [byte_of_Z (Z.of_nat n); x2a];
  time_time := fun n => 1600000000 + Z.of_nat n
|}.

(** Running a method for its final state. *)
Definition exec {A} (m : Blockchain.method A) (self : Blockchain.t) : Blockchain.t :=
  snd (m self).

(** An initialised ledger with the accounts [A] (balance 50) and [B]. *)
Definition ledger : Blockchain.t :=
  exec (Blockchain.create_user "B")
    (exec (Blockchain.initialize "A") (Blockchain.__init__ (Some ∅))).

(** [A] promises 30 twice out of a balance of 50. *)
Definition overdrawn : Blockchain.t :=
  exec (Blockchain.add_transaction "A" "B" 30)
    (exec (Blockchain.add_transaction "A" "B" 30) ledger).

(** The ledger right after initialisation. *)
Definition fresh : Blockchain.t :=
  exec (Blockchain.initialize "A") (Blockchain.__init__ (Some ∅)).

(** A store after 1001 blocks were saved, the genesis block first: the
    line of block [n] is [block-n], a hundred lines to a segment, and the
    last block alone in [data-10]. *)
Definition block_line (n : nat) : string := "block-" +:+ py_str_int (Z.of_nat n).

Definition segment (i len : nat) : list string :=
  map (fun k => block_line (100 * i + k)) (seq 0 len).

Definition segment_file (i : nat) : string * list string :=
  (Blockchain.data_file_name (Z.of_nat i),
   segment i (if Nat.eqb i 10 then 1 else 100)).

Definition store : gmap string (list string) :=
  list_to_map
    ([("metadata",
       [Json.dumps [("bits", Json.Int 15); ("subsidy", Json.Int 50);
                    ("height", Json.Int 1001); ("count", Json.Int 1001);
                    ("index", Json.Int 10)]]);
      ("address",
       [Json.dumps (Blockchain.address_record "A" (Wallet.__init__ "A" 50 [x00; x2a]))]);
      ("transactions", []);
      ("genesis", [block_line 0])]
     ++ map segment_file (seq 0 11)).

Definition loaded : Blockchain.t :=
  exec Blockchain.read_blockchain (Blockchain.__init__ (Some store)).

(** [A] promises 30 to [Z], who has no account. *)
Definition misdirected : Blockchain.t :=
  exec (Blockchain.add_transaction "A" "Z" 30) ledger.


(** [A] has promised 30 to [B]. *)
Definition queued : Blockchain.t :=
  exec (Blockchain.add_transaction "A" "B" 30) ledger.

End Demo.

(* ================================================================== *)
(** * Properties *)

(** ** Test vectors of the library models *)

Example sha256_constants :
  nth 0 SHA256.K 0 = 0x428a2f98 /\ nth 63 SHA256.K 0 = 0xc67178f2
  /\ nth 0 SHA256.H0 0 = 0x6a09e667 /\ nth 7 SHA256.H0 0 = 0x5be0cd19.
Proof. vm_compute. repeat split; reflexivity. Qed.

Example sha256_abc :
  hex_of_bytes (SHA256.digest (list_byte_of_string "abc")) =
  "ba7816bf8f01cfea414140de5dae2223b00361a396177a9cb410ff61f20015ad".
Proof. vm_compute. reflexivity. Qed.

Example sha256_two_blocks :
  hex_of_bytes (SHA256.digest (list_byte_of_string
    "abcdbcdecdefdefgefghfghighijhijkijkljklmklmnlmnomnopnopq")) =
  "248d6a61d20638b8e5c026930c3e6039a33ce45964ff2167f6ecedd419db06c1".
Proof. vm_compute. reflexivity. Qed.

Example b64_examples :
  bytes_decode (Base64.b64encode (list_byte_of_string "Man")) = "TWFu" /\
  bytes_decode (Base64.b64encode (list_byte_of_string "Ma")) = "TWE=" /\
  bytes_decode (Base64.b64encode (list_byte_of_string "M")) = "TQ==" /\
  Base64.b64decode (list_byte_of_string "TWE=") = Some (list_byte_of_string "Ma").
Proof. vm_compute. repeat split; reflexivity. Qed.

(** *** Round trip of base64 *)

Section Base64_facts.
Import Base64.

Ltac each_sextet s :=
  destruct s as [[[[[b5 b4] b3] b2] b1] b0];
  destruct b5, b4, b3, b2, b1, b0.

Lemma sextet_of_char_of_sextet (s : sextet) :
  sextet_of_char (char_of_sextet s) = Some s.
Proof. each_sextet s; reflexivity. Qed.

Lemma char_of_sextet_not_pad (s : sextet) :
  Byte.eqb (char_of_sextet s) pad_char = false.
Proof. each_sextet s; reflexivity. Qed.

Lemma char_of_sextet_ascii (s : sextet) :
  utf8_char (ascii_of_byte (char_of_sextet s)) = [char_of_sextet s].
Proof. each_sextet s; reflexivity. Qed.

Lemma byte_of_to_bits (a : byte) b0 b1 b2 b3 b4 b5 b6 b7 :
  Byte.to_bits a = (b0, (b1, (b2, (b3, (b4, (b5, (b6, b7))))))) ->
  byte_of_bits8 b7 b6 b5 b4 b3 b2 b1 b0 = a.
Proof.
  intros E. unfold byte_of_bits8. rewrite <- E. apply Byte.of_bits_to_bits.
Qed.

Lemma encode3_shape (a b c : byte) :
  exists s0 s1 s2 s3 : sextet,
    encode3 a b c =
      [char_of_sextet s0; char_of_sextet s1; char_of_sextet s2; char_of_sextet s3].
Proof.
  unfold encode3.
  destruct (Byte.to_bits a) as (a0 & a1 & a2 & a3 & a4 & a5 & a6 & a7).
  destruct (Byte.to_bits b) as (b0 & b1 & b2 & b3 & b4 & b5 & b6 & b7).
  destruct (Byte.to_bits c) as (c0 & c1 & c2 & c3 & c4 & c5 & c6 & c7).
  eauto 6.
Qed.

Lemma decode_group (a b c : byte) (tl : list byte) :
  b64decode (encode3 a b c ++ tl) =
    (fun r => a :: b :: c :: r) <$> b64decode tl.
Proof.
  unfold encode3.
  destruct (Byte.to_bits a) as (a0 & a1 & a2 & a3 & a4 & a5 & a6 & a7) eqn:Ea.
  destruct (Byte.to_bits b) as (b0 & b1 & b2 & b3 & b4 & b5 & b6 & b7) eqn:Eb.
  destruct (Byte.to_bits c) as (c0 & c1 & c2 & c3 & c4 & c5 & c6 & c7) eqn:Ec.
  cbn [app b64decode].
  rewrite !sextet_of_char_of_sextet. cbn [mbind option_bind].
  rewrite !char_of_sextet_not_pad. cbn [andb].
  rewrite (byte_of_to_bits _ _ _ _ _ _ _ _ _ Ea).
  rewrite (byte_of_to_bits _ _ _ _ _ _ _ _ _ Eb).
  rewrite (byte_of_to_bits _ _ _ _ _ _ _ _ _ Ec).
  reflexivity.
Qed.

Lemma decode_last1 (a : byte) :
  b64decode (firstn 2 (encode3 a x00 x00) ++ [pad_char; pad_char]) = Some [a].
Proof.
  unfold encode3.
  destruct (Byte.to_bits a) as (a0 & a1 & a2 & a3 & a4 & a5 & a6 & a7) eqn:Ea.
  cbn [Byte.to_bits firstn app b64decode].
  rewrite !sextet_of_char_of_sextet. cbn [mbind option_bind].
  cbn [Byte.eqb pad_char is_nil andb].
  replace (Byte.eqb "="%byte "="%byte) with true by reflexivity.
  cbn [andb]. now rewrite (byte_of_to_bits _ _ _ _ _ _ _ _ _ Ea).
Qed.

Lemma decode_last2 (a b : byte) :
  b64decode (firstn 3 (encode3 a b x00) ++ [pad_char]) = Some [a; b].
Proof.
  unfold encode3.
  destruct (Byte.to_bits a) as (a0 & a1 & a2 & a3 & a4 & a5 & a6 & a7) eqn:Ea.
  destruct (Byte.to_bits b) as (b0 & b1 & b2 & b3 & b4 & b5 & b6 & b7) eqn:Eb.
  cbn [Byte.to_bits firstn app b64decode].
  rewrite !sextet_of_char_of_sextet. cbn [mbind option_bind].
  rewrite char_of_sextet_not_pad. cbn [andb].
  replace (Byte.eqb pad_char pad_char) with true by reflexivity.
  cbn [is_nil andb].
  rewrite (byte_of_to_bits _ _ _ _ _ _ _ _ _ Ea).
  now rewrite (byte_of_to_bits _ _ _ _ _ _ _ _ _ Eb).
Qed.

(** Induction on a list of bytes three at a time, as the encoder reads it. *)
Lemma list_ind3 {A} (P : list A -> Prop) :
  P [] -> (forall a, P [a]) -> (forall a b, P [a; b]) ->
  (forall a b c l, P l -> P (a :: b :: c :: l)) ->
  forall l, P l.
Proof.
  intros H0 H1 H2 H3.
  assert (G : forall l, P l /\ (forall a, P (a :: l)) /\ (forall a b, P (a :: b :: l))).
  { induction l as [|x l (IH0 & IH1 & IH2)]; [now auto|].
    repeat split; auto. }
  intros l. apply G.
Qed.

Lemma b64decode_b64encode (bs : list byte) :
  b64decode (b64encode bs) = Some bs.
Proof.
  induction bs as [|a|a b|a b c l IH] using list_ind3.
  - reflexivity.
  - apply decode_last1.
  - apply decode_last2.
  - change (b64encode (a :: b :: c :: l)) with (encode3 a b c ++ b64encode l).
    rewrite decode_group, IH. reflexivity.
Qed.

(** The encoder writes ASCII only, so reading its text back as [str] and
    encoding that again gives the same bytes. *)
Lemma str_encode_decode_cons (c : byte) (l : list byte) :
  str_encode (bytes_decode (c :: l)) =
    utf8_char (ascii_of_byte c) ++ str_encode (bytes_decode l).
Proof. reflexivity. Qed.

Lemma str_encode_decode_sextets (cs tl : list byte) :
  Forall (fun c => exists s, c = char_of_sextet s) cs ->
  str_encode (bytes_decode (cs ++ tl)) = cs ++ str_encode (bytes_decode tl).
Proof.
  induction 1 as [|c cs [s ->] _ IH]; [reflexivity|].
  cbn [app]. rewrite str_encode_decode_cons, IH, char_of_sextet_ascii.
  reflexivity.
Qed.

Lemma encode3_sextets (a b c : byte) :
  Forall (fun x => exists s, x = char_of_sextet s) (encode3 a b c).
Proof.
  destruct (encode3_shape a b c) as (s0 & s1 & s2 & s3 & ->).
  repeat constructor; eauto.
Qed.

Lemma str_encode_b64 (bs : list byte) :
  str_encode (bytes_decode (b64encode bs)) = b64encode bs.
Proof.
  induction bs as [|a|a b|a b c l IH] using list_ind3.
  - reflexivity.
  - cbn [b64encode]. rewrite str_encode_decode_sextets.
    + reflexivity.
    + apply Forall_take, encode3_sextets.
  - cbn [b64encode]. rewrite str_encode_decode_sextets.
    + reflexivity.
    + apply Forall_take, encode3_sextets.
  - change (b64encode (a :: b :: c :: l)) with (encode3 a b c ++ b64encode l).
    rewrite str_encode_decode_sextets by apply encode3_sextets.
    now rewrite IH.
Qed.

End Base64_facts.

Example json_examples :
  Json.dumps [("name", Json.Str "Eric Chen"); ("balance", Json.Int (-50))]
    = String "{" (String Json.dquote ("name" +:+ String Json.dquote
        (": " +:+ String Json.dquote ("Eric Chen" +:+ String Json.dquote
        (", " +:+ String Json.dquote ("balance" +:+ String Json.dquote ": -50}"))))))
  /\ Json.loads (Json.dumps [("name", Json.Str "Eric Chen"); ("balance", Json.Int (-50))])
     = Some [("name", Json.Str "Eric Chen"); ("balance", Json.Int (-50))]
  /\ Json.loads (Json.dumps [("k", Json.Str (String "010"%char (String "200"%char "x")))])
     = Some [("k", Json.Str (String "010"%char (String "200"%char "x")))]
  /\ Json.escape (String "010"%char (String "200"%char "x"))
     = String Json.bslash ("n" +:+ String Json.bslash "u00c8x").
Proof. vm_compute. repeat split; reflexivity. Qed.

(** ** Strings *)

Lemma string_app_nil (b : string) : "" +:+ b = b.
Proof. reflexivity. Qed.

Lemma string_app_cons (x : ascii) (a b : string) :
  String x a +:+ b = String x (a +:+ b).
Proof. reflexivity. Qed.

Lemma string_app_assoc (a b c : string) : (a +:+ b) +:+ c = a +:+ (b +:+ c).
Proof.
  induction a as [|x a IH]; [reflexivity|].
  now rewrite !string_app_cons, IH.
Qed.

Lemma string_length_app (a b : string) :
  String.length (a +:+ b) = (String.length a + String.length b)%nat.
Proof.
  induction a as [|x a IH]; [reflexivity|].
  rewrite string_app_cons. cbn [String.length]. now rewrite IH.
Qed.

Ltac norm_app :=
  repeat (rewrite string_app_assoc || rewrite string_app_cons
          || rewrite string_app_nil).

(** ** Round trip of the JSON model *)

Section Json_facts.
Import Json.


Lemma scanstring_escape_char (c : ascii) (tl : string) :
  scanstring (escape_char c +:+ tl) =
    '(r, rest) ← scanstring tl; Some (String c r, rest).
Proof. destruct c as [[] [] [] [] [] [] [] []]; reflexivity. Qed.

Lemma scanstring_escape (s rest : string) :
  scanstring (escape s +:+ String dquote rest) = Some (s, rest).
Proof.
  induction s as [|c s IH]; [reflexivity|].
  cbn [escape]. rewrite string_app_assoc, scanstring_escape_char, IH.
  reflexivity.
Qed.

Lemma scanstring_dumps_string (s rest : string) :
  scanstring (escape s +:+ String dquote "" +:+ rest) = Some (s, rest).
Proof. apply scanstring_escape. Qed.

Lemma span_num_uint (d : uint) (rest : string) :
  starts_num rest = false ->
  span_num (NilEmpty.string_of_uint d +:+ rest) = (NilEmpty.string_of_uint d, rest).
Proof.
  intros Hr.
  induction d; cbn [NilEmpty.string_of_uint];
    rewrite ?string_app_cons, ?string_app_nil; cbn [span_num];
    try (rewrite IHd; reflexivity).
  destruct rest as [|c rest]; [reflexivity|].
  change (is_num_char c = false) in Hr. cbn [span_num]. now rewrite Hr.
Qed.

Lemma span_num_int (d : int) (rest : string) :
  starts_num rest = false ->
  span_num (NilEmpty.string_of_int d +:+ rest) = (NilEmpty.string_of_int d, rest).
Proof.
  intros Hr. destruct d as [d|d]; cbn [NilEmpty.string_of_int].
  - now apply span_num_uint.
  - rewrite string_app_cons. cbn [span_num].
    rewrite span_num_uint by assumption. reflexivity.
Qed.

Lemma string_of_uint_nonempty (d : uint) :
  d <> Nil -> NilEmpty.string_of_uint d <> "".
Proof. destruct d; [congruence | discriminate ..]. Qed.

Lemma py_str_int_shape (z : Z) :
  exists c s, py_str_int z = String c s /\ is_num_char c = true
              /\ String.eqb (py_str_int z) "-" = false.
Proof.
  unfold py_str_int.
  destruct z as [|p|p]; cbn [Z.to_int NilEmpty.string_of_int].
  - exists "0"%char, "". repeat split.
  - pose proof (Unsigned.to_uint_nonnil p) as Hn.
    destruct (Pos.to_uint p) as [|u|u|u|u|u|u|u|u|u|u]; [congruence|..];
      eexists _, _; repeat split.
  - pose proof (Unsigned.to_uint_nonnil p) as Hn.
    destruct (Pos.to_uint p) as [|u|u|u|u|u|u|u|u|u|u]; [congruence|..];
      eexists _, _; repeat split.
Qed.

Lemma scannumber_py_str_int (z : Z) (rest : string) :
  starts_num rest = false ->
  scannumber (py_str_int z +:+ rest) = Some (z, rest).
Proof.
  intros Hr. unfold scannumber.
  unfold py_str_int at 1. rewrite span_num_int by assumption.
  fold (py_str_int z).
  destruct (py_str_int_shape z) as (c & s & E & _ & Hd).
  rewrite Hd. rewrite E at 1. cbn [String.eqb orb].
  unfold py_str_int. rewrite NilEmpty.isi. cbn.
  now rewrite DecimalZ.of_to.
Qed.

Lemma scanvalue_dumps_value (v : value) (rest : string) :
  starts_num rest = false ->
  scanvalue (dumps_value v +:+ rest) = Some (v, rest).
Proof.
  intros Hr. destruct v as [s|z]; cbn [dumps_value].
  - unfold dumps_string. rewrite string_app_cons. cbn [scanvalue].
    replace (Ascii.eqb dquote dquote) with true by reflexivity.
    rewrite string_app_assoc, string_app_cons, string_app_nil.
    now rewrite scanstring_escape.
  - destruct (py_str_int_shape z) as (c & s & E & Hc & _).
    unfold scanvalue.
    destruct (py_str_int z +:+ rest) as [|c' s'] eqn:E'.
    + rewrite E in E'. discriminate.
    + assert (c' = c) as -> by (rewrite E, string_app_cons in E'; congruence).
      assert (Ascii.eqb c dquote = false) as ->.
      { apply Ascii.eqb_neq. intros ->. discriminate. }
      rewrite <- E', scannumber_py_str_int by assumption. reflexivity.
Qed.
Lemma skip_ws_cons (c : ascii) (r : string) :
  is_ws c = false -> skip_ws (String c r) = String c r.
Proof. intros H. cbn [skip_ws]. now rewrite H. Qed.

Lemma dumps_member_head (kv : string * value) :
  exists r, dumps_member kv = String dquote r.
Proof. unfold dumps_member, dumps_string. rewrite string_app_cons. eauto. Qed.

Lemma dumps_members_head (kv : string * value) (d : dict value) :
  exists r, dumps_members (kv :: d) = String dquote r.
Proof.
  destruct (dumps_member_head kv) as [r E].
  destruct d as [|kv' d]; cbn [dumps_members]; rewrite E; [eauto|].
  rewrite string_app_cons. eauto.
Qed.

Lemma skip_ws_dumps_value (v : value) (r : string) :
  skip_ws (dumps_value v +:+ r) = dumps_value v +:+ r.
Proof.
  destruct v as [s|z]; cbn [dumps_value].
  - unfold dumps_string. rewrite string_app_cons. now apply skip_ws_cons.
  - destruct (py_str_int_shape z) as (c & s & E & Hc & _).
    rewrite E, string_app_cons. apply skip_ws_cons.
    unfold is_num_char in Hc. unfold is_ws.
    destruct (N_of_ascii c) as [|p]; [discriminate|].
    repeat (destruct p as [p|p|]; try discriminate; try reflexivity).
Qed.

(** One member: the key, the colon, the value, and the decision on what
    follows. *)
Lemma scanmembers_member (fuel : nat) (k : string) (v : value)
    (rest : string) (acc : dict value) :
  starts_num rest = false ->
  scanmembers (S fuel) (dumps_member (k, v) +:+ rest) acc =
    match skip_ws rest with
    | String c4 r4 =>
        if Ascii.eqb c4 "," then scanmembers fuel (skip_ws r4) (dict_set k v acc)
        else if Ascii.eqb c4 "}" then
          match skip_ws r4 with
          | EmptyString => Some (dict_set k v acc)
          | _ => None
          end
        else None
    | EmptyString => None
    end.
Proof.
  intros Hr. unfold dumps_member, dumps_string. cbn [fst snd].
  rewrite !string_app_assoc, !string_app_cons, !string_app_nil.
  cbn [scanmembers].
  replace (Ascii.eqb dquote dquote) with true by reflexivity.
  norm_app. rewrite scanstring_escape. cbn [mbind option_bind].
  rewrite skip_ws_cons by reflexivity.
  replace (Ascii.eqb ":" ":") with true by reflexivity.
  cbn [skip_ws]. replace (is_ws " ") with true by reflexivity.
  rewrite skip_ws_dumps_value, scanvalue_dumps_value by assumption.
  reflexivity.
Qed.

Lemma scanmembers_dumps_members (d : dict value) :
  forall (fuel : nat) (acc : dict value),
    d <> [] -> (length d <= fuel)%nat ->
    scanmembers fuel (dumps_members d +:+ "}") acc = Some (dict_update acc d).
Proof.
  induction d as [|[k v] d IH]; intros fuel acc Hne Hf; [congruence|].
  destruct fuel as [|fuel]; [cbn in Hf; lia|].
  destruct d as [|kv' d].
  - cbn [dumps_members]. rewrite scanmembers_member by reflexivity.
    reflexivity.
  - change (dumps_members ((k, v) :: kv' :: d))
      with (dumps_member (k, v) +:+ ", " +:+ dumps_members (kv' :: d)).
    rewrite !string_app_assoc.
    rewrite scanmembers_member by reflexivity.
    rewrite string_app_cons, skip_ws_cons by reflexivity.
    replace (Ascii.eqb "," ",") with true by reflexivity.
    rewrite string_app_cons, string_app_nil. cbn [skip_ws].
    replace (is_ws " ") with true by reflexivity.
    destruct (dumps_members_head kv' d) as [r E].
    rewrite E, string_app_cons, skip_ws_cons by reflexivity.
    rewrite <- string_app_cons, <- E.
    rewrite IH; [reflexivity | discriminate | cbn in Hf |- *; lia].
Qed.

Lemma dumps_members_length (d : dict value) :
  (length d <= String.length (dumps_members d))%nat.
Proof.
  induction d as [|kv d IH]; [cbn; lia|].
  destruct (dumps_member_head kv) as [r E].
  destruct d as [|kv' d].
  - cbn [dumps_members]. rewrite E. cbn. lia.
  - change (dumps_members (kv :: kv' :: d))
      with (dumps_member kv +:+ ", " +:+ dumps_members (kv' :: d)).
    rewrite !string_length_app, E. cbn [String.length length] in *. lia.
Qed.

Lemma loads_dumps_update (d : dict value) :
  loads (dumps d) = Some (dict_update [] d).
Proof.
  unfold loads, dumps.
  rewrite string_app_cons, string_app_nil, skip_ws_cons by reflexivity.
  replace (Ascii.eqb "{" "{") with true by reflexivity.
  destruct d as [|kv d]; [reflexivity|].
  destruct (dumps_members_head kv d) as [r E].
  pose proof (dumps_members_length (kv :: d)) as Hl.
  rewrite E in *. rewrite string_app_cons, skip_ws_cons by reflexivity.
  replace (Ascii.eqb dquote "}") with false by reflexivity.
  rewrite <- string_app_cons, <- E.
  apply scanmembers_dumps_members; [discriminate|].
  rewrite <- E in Hl. cbn [String.length].
  rewrite string_length_app. lia.
Qed.

(** With distinct keys the object read back is the object written. *)
Lemma dict_get_app_None {V} (k : string) (a b : dict V) :
  dict_get k (a ++ b) = None <-> dict_get k a = None /\ dict_get k b = None.
Proof.
  induction a as [|[k' v'] a IH]; cbn [app dict_get]; [tauto|].
  destruct (String.eqb k k'); [split; [discriminate | tauto] | exact IH].
Qed.

Lemma dict_set_fresh {V} (k : string) (v : V) (d : dict V) :
  dict_get k d = None -> dict_set k v d = d ++ [(k, v)].
Proof.
  induction d as [|[k' v'] d IH]; cbn [dict_get dict_set app]; [reflexivity|].
  destruct (String.eqb k k'); [discriminate|].
  intros H. now rewrite IH.
Qed.

Lemma dict_update_fresh (d acc : dict value) :
  distinct_keys d -> (forall k v, In (k, v) d -> dict_get k acc = None) ->
  dict_update acc d = acc ++ d.
Proof.
  revert acc. induction d as [|[k v] d IH]; intros acc Hd Ha.
  - cbn. now rewrite app_nil_r.
  - destruct Hd as [Hk Hd]. unfold dict_update. cbn [fold_left fst snd].
    fold (dict_update (dict_set k v acc) d).
    rewrite dict_set_fresh by (eapply Ha; left; reflexivity).
    rewrite IH; [now rewrite <- app_assoc | assumption |].
    intros k' v' Hin. apply dict_get_app_None. split.
    + eapply Ha. right. eassumption.
    + cbn [dict_get]. destruct (String.eqb_spec k' k) as [->|]; [|reflexivity].
      exfalso. clear -Hk Hin.
      induction d as [|[k2 v2] d IHd]; [easy|].
      cbn [dict_get] in Hk. destruct (String.eqb_spec k k2) as [|Hne]; [discriminate|].
      destruct Hin as [[= -> ->]|Hin]; [congruence | auto].
Qed.

Lemma loads_dumps (d : dict value) :
  distinct_keys d -> loads (dumps d) = Some d.
Proof.
  intros Hd. rewrite loads_dumps_update, dict_update_fresh; auto.
Qed.

End Json_facts.

(** ** The method monad *)

Section Method_facts.
Context {S A B : Type}.

Lemma bind_ok (m : M S A) (k : A -> M S B) (s s' : S) (a : A) :
  m s = (Ok a, s') -> bind m k s = k a s'.
Proof. intros E. unfold bind. now rewrite E. Qed.

Lemma bind_raise (m : M S A) (k : A -> M S B) (s s' : S) (e : exn) :
  m s = (Raise e, s') -> bind m k s = (Raise e, s').
Proof. intros E. unfold bind. now rewrite E. Qed.

(** A bind that returns went through both of its parts. *)
Lemma bind_inv_ok (m : M S A) (k : A -> M S B) (s s2 : S) (b : B) :
  bind m k s = (Ok b, s2) ->
  exists a s1, m s = (Ok a, s1) /\ k a s1 = (Ok b, s2).
Proof.
  unfold bind. destruct (m s) as [[a|e] s1]; [eauto | discriminate].
Qed.

End Method_facts.


#[global] Instance same_refl {S X} (f : S -> X) : Reflexive (same f).
Proof. now intros s. Qed.

#[global] Instance same_trans {S X} (f : S -> X) : Transitive (same f).
Proof. unfold same. intros s1 s2 s3 H1 H2. congruence. Qed.

Section Steps.
Context {S : Type} (R : relation S) `{!Reflexive R} `{!Transitive R}.

Lemma steps_ret {A} (a : A) : steps R (ret a).
Proof. intros s. reflexivity. Qed.

Lemma steps_raise {A} (e : exn) : steps R (@raise S A e).
Proof. intros s. reflexivity. Qed.

Lemma steps_gets {A} (f : S -> A) : steps R (gets f).
Proof. intros s. reflexivity. Qed.

Lemma steps_lift {A} (r : result A) : steps R (@lift S A r).
Proof. intros s. reflexivity. Qed.

Lemma steps_modify (f : S -> S) : (forall s, R s (f s)) -> steps R (modify f).
Proof. intros H s. apply H. Qed.

Lemma steps_bind {A B} (m : M S A) (k : A -> M S B) :
  steps R m -> (forall a, steps R (k a)) -> steps R (bind m k).
Proof.
  intros Hm Hk s. unfold bind. specialize (Hm s).
  destruct (m s) as [[a|e] s1]; cbn in *; [|assumption].
  etransitivity; [exact Hm | apply Hk].
Qed.

Lemma steps_for_each {A} (xs : list A) (body : A -> M S unit) :
  (forall x, steps R (body x)) -> steps R (for_each xs body).
Proof.
  intros Hb. induction xs as [|x xs IH]; cbn [for_each].
  - apply steps_ret.
  - apply steps_bind; auto.
Qed.

End Steps.

(** Following a run that returns. *)
Lemma steps_ok {S A} (R : relation S) (m : M S A) (s s' : S) (a : A) :
  steps R m -> m s = (Ok a, s') -> R s s'.
Proof. intros H E. specialize (H s). now rewrite E in H. Qed.

Lemma for_each_app {S A} (xs ys : list A) (body : A -> M S unit) (s s' : S) :
  for_each xs body s = (Ok tt, s') ->
  for_each (xs ++ ys) body s = for_each ys body s'.
Proof.
  revert s. induction xs as [|x xs IH]; intros s E; cbn [for_each app] in *.
  - unfold ret in E. congruence.
  - apply bind_inv_ok in E as ([] & s1 & E1 & E2).
    rewrite (bind_ok _ _ _ _ _ E1). now apply IH.
Qed.

(** ** Wallet.verify_address *)

Section Wallet_facts.
Context {C : Crypto}.

(** C4. [verify_address] never answers: on every wallet, and so on the one
    [Wallet(name)] has just built, the SHA-256 object is fed the [None]
    that [h.update] returned, and the call ends in [TypeError] instead of
    returning [True]. *)
Theorem verify_address_of_new_wallet_raises (name : string) (entropy : list byte) :
  Wallet.verify_address (Wallet.__init__ name 0 entropy) = Raise TypeError
  /\ (forall wallet : Wallet.t, Wallet.verify_address wallet = Raise TypeError).
Proof. split; reflexivity. Qed.

End Wallet_facts.

(** ** Wallet.serialize and Wallet.deserialize *)

Section Wallet_round_trip.
Context {C : Crypto} {Laws : CryptoLaws C}.

Lemma b64_bytes_b64_text (bs : list byte) :
  Wallet.b64_bytes (Wallet.b64_text bs) = Ok bs.
Proof.
  unfold Wallet.b64_bytes, Wallet.b64_text.
  now rewrite str_encode_b64, b64decode_b64encode.
Qed.

Lemma read_signing_key_text (k : SigningKey) :
  Wallet.read_signing_key (Json.Str (Wallet.b64_text (SigningKey_to_string k))) = Ok k.
Proof.
  unfold Wallet.read_signing_key. cbn [as_str result_bind].
  rewrite b64_bytes_b64_text. cbn [result_bind].
  now rewrite SigningKey_from_to_string.
Qed.

Lemma read_verifying_key_text (k : VerifyingKey) :
  Wallet.read_verifying_key (Json.Str (Wallet.b64_text (VerifyingKey_to_string k))) = Ok k.
Proof.
  unfold Wallet.read_verifying_key. cbn [as_str result_bind].
  rewrite b64_bytes_b64_text. cbn [result_bind].
  now rewrite VerifyingKey_from_to_string.
Qed.

(** C9. Reading back what [serialize] wrote gives the wallet again: name,
    balance, signing key, verifying key and address are those of the
    original, whatever key the constructor drew on the way. *)
Theorem deserialize_serialize (wallet : Wallet.t) (entropy : list byte) :
  Wallet.deserialize (Wallet.serialize wallet) entropy = Ok wallet.
Proof.
  unfold Wallet.deserialize, Wallet.serialize, json_loads.
  rewrite loads_dumps by (cbn; repeat split; reflexivity).
  cbn [or_raise result_bind].
  change (getitem _ "name") with (Ok (Json.Str (Wallet.name wallet))).
  change (getitem _ "balance") with (Ok (Json.Int (Wallet.balance wallet))).
  cbn [result_bind as_str as_int].
  change (getitem _ "sk")
    with (Ok (Json.Str (Wallet.b64_text (SigningKey_to_string (Wallet.signing_key wallet))))).
  cbn [result_bind]. rewrite read_signing_key_text. cbn [result_bind].
  change (getitem _ "vk")
    with (Ok (Json.Str (Wallet.b64_text (VerifyingKey_to_string (Wallet.verifying_key wallet))))).
  cbn [result_bind]. rewrite read_verifying_key_text. cbn [result_bind].
  change (getitem _ "address") with (Ok (Json.Str (Wallet.address wallet))).
  cbn [result_bind as_str].
  now destruct wallet.
Qed.

End Wallet_round_trip.

(** ** The ledger *)

(** Proving [steps]: [prim] settles a primitive by cases, [walk] follows the
    structure of a method. *)

Create HintDb ledger.

Ltac prim :=
  let s := fresh "s" in
  intros s; unfold same;
  cbv [Blockchain.open_w Blockchain.open_a Blockchain.open_r
       Blockchain.file_write Blockchain.handle_write
       Blockchain.mkdir_if_missing Blockchain.listdir Blockchain.draw
       Blockchain.now Blockchain.list_new Blockchain.list_append
       Blockchain.list_read Blockchain.pool_get modify gets ret raise lift
       or_raise];
  repeat match goal with
         | |- context [match ?x with _ => _ end] => destruct x
         end;
  reflexivity.

Ltac walk :=
  repeat first
    [ solve [auto with ledger]
    | apply steps_ret | apply steps_raise | apply steps_gets | apply steps_lift
    | apply steps_bind; try exact _; [| intro]
    | apply steps_for_each; try exact _; intro
    | match goal with
      | |- steps _ (if ?b then _ else _) => destruct b
      | |- steps _ (match ?x with _ => _ end) => destruct x
      | |- steps _ (let '(_, _) := ?x in _) => destruct x
      end
    | solve [prim] ].

(** [state_simpl] reads the fields of a state written with the setters. *)
Ltac state_simpl :=
  cbn [Blockchain._blocks Blockchain.bits Blockchain.subsidy
       Blockchain.address_pool Blockchain.transaction_pool
       Blockchain.balance_pool Blockchain.height Blockchain.count
       Blockchain.index Blockchain.threshold Blockchain.data_file
       Blockchain.address_file Blockchain.heap Blockchain.disk
       Blockchain.draws Blockchain.ticks
       Blockchain.set__blocks Blockchain.set_bits Blockchain.set_subsidy
       Blockchain.set_address_pool Blockchain.set_transaction_pool
       Blockchain.set_balance_pool Blockchain.set_height Blockchain.set_count
       Blockchain.set_index Blockchain.set_threshold Blockchain.set_data_file
       Blockchain.set_address_file Blockchain.set_heap Blockchain.set_disk
       Blockchain.set_draws Blockchain.set_ticks Blockchain.__init__
       Blockchain.open_w modify gets ret Blockchain.now
       Blockchain.draw dict_mem dict_get app].

Section Ledger_facts.
Context {C : Crypto} {L : Block.Lib} {Sy : System}.
Import Blockchain.

Lemma pool_get_some (name : string) (addr : Address) (self : t) :
  dict_get name (address_pool self) = Some addr ->
  pool_get name self = (Ok addr, self).
Proof. intros E. unfold pool_get. now rewrite E. Qed.

Lemma have_balance_some (name : string) (amount : Z) (addr : Address) (self : t) :
  dict_get name (address_pool self) = Some addr ->
  have_balance name amount self = (Ok (Wallet.balance addr >=? amount), self).
Proof.
  intros E. unfold have_balance.
  rewrite (bind_ok _ _ _ _ _ (pool_get_some _ _ _ E)).
  now destruct (Wallet.balance addr >=? amount).
Qed.

Lemma sign_transaction_some (source tx_data : string) (addr : Address) (self : t) :
  dict_get source (address_pool self) = Some addr ->
  exists signature,
    sign_transaction source tx_data self =
      (Ok (tx_data +:+ "|" +:+ signature), set_draws (Datatypes.S (draws self)) self).
Proof.
  intros E. unfold sign_transaction.
  rewrite (bind_ok _ _ _ _ _ (pool_get_some _ _ _ E)).
  eexists. reflexivity.
Qed.

Lemma pending_list_append (x : string) (self : t) :
  pool_live self ->
  pending (snd (list_append (transaction_pool self) x self)) = pending self ++ [x].
Proof.
  unfold pool_live, pending, list_append, modify. cbn. intros Hl.
  destruct (lookup_lt_is_Some_2 _ _ Hl) as [xs E].
  rewrite list_lookup_alter_eq, E. reflexivity.
Qed.


(** *** Which parts of the object a method touches *)

Lemma memory_books (self self' : t) : same memory self self' -> same books self self'.
Proof. unfold same, memory. congruence. Qed.

Lemma same_memory_inv (self self' : t) :
  same memory self self' ->
  _blocks self' = _blocks self /\ address_pool self' = address_pool self
  /\ subsidy self' = subsidy self /\ balance_pool self' = balance_pool self
  /\ heap self' = heap self /\ transaction_pool self' = transaction_pool self
  /\ bits self' = bits self.
Proof. unfold same, memory, books. intros [= ? ? ? ? ? ? ?]. auto 10. Qed.

Lemma steps_memory_books {A} (m : method A) :
  steps (same memory) m -> steps (same books) m.
Proof. intros H s. apply memory_books, H. Qed.

Lemma save_metadata_memory : steps (same memory) save_metadata.
Proof. unfold save_metadata. walk. Qed.

#[local] Hint Resolve save_metadata_memory : ledger.

Lemma save_block_data_memory block : steps (same memory) (save_block_data block).
Proof. unfold save_block_data. walk. Qed.

Lemma save_address_data_memory addr : steps (same memory) (save_address_data addr).
Proof. unfold save_address_data. walk. Qed.

Lemma save_address_pool_data_memory : steps (same memory) save_address_pool_data.
Proof. unfold save_address_pool_data. walk. Qed.

Lemma save_genesis_data_memory : steps (same memory) save_genesis_data.
Proof. unfold save_genesis_data. walk. Qed.

Lemma sign_transaction_memory source tx_data :
  steps (same memory) (sign_transaction source tx_data).
Proof. unfold sign_transaction. walk. Qed.

Lemma have_balance_state name amount (self : t) :
  snd (have_balance name amount self) = self.
Proof.
  unfold have_balance, bind, pool_get.
  destruct (dict_get name (address_pool self)) as [addr|]; cbn; [|reflexivity].
  now destruct (Wallet.balance addr >=? amount).
Qed.


#[local] Hint Resolve save_block_data_memory save_address_data_memory
  save_address_pool_data_memory save_genesis_data_memory
  sign_transaction_memory : ledger.

(** *** Balances *)

Lemma total_balance_dict_set (name : string) (old new : Address) (pool : dict Address) :
  dict_get name pool = Some old ->
  total_balance (dict_set name new pool)
    = total_balance pool - Wallet.balance old + Wallet.balance new.
Proof.
  unfold total_balance.
  induction pool as [|[k v] pool IH]; cbn [dict_get dict_set]; [discriminate|].
  destruct (String.eqb name k).
  - intros [= ->]. cbn [fold_right snd]. lia.
  - intros E. cbn [fold_right snd]. rewrite (IH E). lia.
Qed.

Lemma dict_get_dict_set_eq {V} (name : string) (v : V) (pool : dict V) :
  dict_get name (dict_set name v pool) = Some v.
Proof.
  induction pool as [|[k w] pool IH]; cbn [dict_get dict_set].
  - now rewrite String.eqb_refl.
  - destruct (String.eqb name k) eqn:E; cbn [dict_get]; now rewrite E.
Qed.

Lemma dict_get_dict_set_ne {V} (k k' : string) (v : V) (pool : dict V) :
  k <> k' -> dict_get k (dict_set k' v pool) = dict_get k pool.
Proof.
  intros Hne. induction pool as [|[k2 w] pool IH]; cbn [dict_get dict_set].
  - destruct (String.eqb_spec k k'); [contradiction | reflexivity].
  - destruct (String.eqb_spec k' k2) as [->|Hk]; cbn [dict_get].
    + destruct (String.eqb_spec k k2); [contradiction | reflexivity].
    + now rewrite IH.
Qed.

(** A credit or a debit that returns changed one balance by the amount
    and nothing else in memory. *)
Lemma increment_balance_ok (name : string) (amount : Z) (self self' : t) :
  increment_balance name amount self = (Ok tt, self') ->
  exists addr,
    dict_get name (address_pool self) = Some addr
    /\ self' = set_address_pool
                 (dict_set name (Wallet.add_balance addr amount) (address_pool self)) self.
Proof.
  unfold increment_balance, bind, pool_get, modify.
  destruct (dict_get name (address_pool self)) as [addr|]; cbn; [|discriminate].
  intros [= <-]. eauto.
Qed.

Lemma decrement_balance_ok (name : string) (amount : Z) (self self' : t) :
  decrement_balance name amount self = (Ok tt, self') ->
  exists addr,
    dict_get name (address_pool self) = Some addr
    /\ self' = set_address_pool
                 (dict_set name (Wallet.sub_balance addr amount) (address_pool self)) self.
Proof.
  unfold decrement_balance, bind, pool_get, modify.
  destruct (dict_get name (address_pool self)) as [addr|]; cbn; [|discriminate].
  intros [= <-]. eauto.
Qed.

Lemma move_balance_ok (source dest : string) (amount : Z) (self self' : t) :
  move_balance source dest amount self = (Ok tt, self') ->
  total_balance (address_pool self') = total_balance (address_pool self)
  /\ but_accounts self' = but_accounts self.
Proof.
  unfold move_balance. intros E.
  apply bind_inv_ok in E as ([] & s1 & E1 & E2).
  apply decrement_balance_ok in E1 as (a1 & G1 & ->).
  apply increment_balance_ok in E2 as (a2 & G2 & ->).
  cbn [address_pool set_address_pool] in *. split; [|reflexivity].
  rewrite (total_balance_dict_set _ _ _ _ G2), (total_balance_dict_set _ _ _ _ G1).
  unfold Wallet.add_balance, Wallet.sub_balance, Wallet.balance. cbn. lia.
Qed.

Lemma fire_intent_ok (intent : string * string * Z) (self self' : t) :
  fire_intent intent self = (Ok tt, self') ->
  total_balance (address_pool self') = total_balance (address_pool self)
  /\ but_accounts self' = but_accounts self.
Proof.
  destruct intent as [[source dest] amount]. unfold fire_intent. intros E.
  apply bind_inv_ok in E as (enough & s1 & E1 & E2).
  pose proof (have_balance_state source amount self) as Hs.
  rewrite E1 in Hs. cbn in Hs. subst s1.
  destruct enough; cbn [negb] in E2; [|discriminate].
  now apply move_balance_ok in E2.
Qed.

Lemma for_each_fire_intent_ok (intents : list (string * string * Z)) (self self' : t) :
  for_each intents fire_intent self = (Ok tt, self') ->
  total_balance (address_pool self') = total_balance (address_pool self)
  /\ but_accounts self' = but_accounts self.
Proof.
  revert self. induction intents as [|i intents IH]; intros self E; cbn [for_each] in E.
  - injection E as <-. auto.
  - apply bind_inv_ok in E as ([] & s1 & E1 & E2).
    apply fire_intent_ok in E1 as [T1 B1]. apply IH in E2 as [T2 B2]. split; congruence.
Qed.

(** *** The coinbase step *)

Lemma set_hash_prev_block_hash (b : Block.t) :
  Block.prev_block_hash (Block.set_hash b) = Block.prev_block_hash b.
Proof. unfold Block.set_hash. now destruct (Block.seal _ _ _ _ _). Qed.

Lemma set_hash_height (b : Block.t) :
  Block.height (Block.set_hash b) = Block.height b.
Proof. unfold Block.set_hash. now destruct (Block.seal _ _ _ _ _). Qed.

Lemma add_block_ok (transactions : nat) (name : string) (self self' : t) :
  add_block transactions name self = (Ok tt, self') ->
  exists tip block,
    last (_blocks self) = Some tip
    /\ Block.prev_block_hash block = Block.hash tip
    /\ Block.height block = Block.height tip + 1
    /\ _blocks self' = _blocks self ++ [block]
    /\ address_pool self' = address_pool self
    /\ subsidy self' = subsidy self
    /\ balance_pool self' = balance_pool self
    /\ heap self' = heap self
    /\ transaction_pool self' = transaction_pool self.
Proof.
  unfold add_block, bind, gets, lift, list_read, new_block, now, modify, ret.
  destruct (last (_blocks self)) as [tip|]; cbn; [|discriminate].
  intros [= <-]. exists tip.
  exists (Block.set_hash
            (Block.__init__ (Block.height tip) (time_time (ticks self)) (bits self) 0
               (default [] (heap self !! transactions)) (Block.hash tip))).
  rewrite set_hash_prev_block_hash, set_hash_height. repeat split.
Qed.

(** A coinbase step that returns has appended one block to the chain,
    one signed reward to the list object it was given, and the reward to
    the miner's balance. *)
Lemma new_coinbase_tx_account_ok (transactions : nat) (name : string) (self self' : t) :
  new_coinbase_tx_account transactions name self = (Ok tt, self') ->
  exists miner tip block signature,
    dict_get name (address_pool self) = Some miner
    /\ address_pool self'
       = dict_set name (Wallet.add_balance miner (subsidy self)) (address_pool self)
    /\ last (_blocks self) = Some tip
    /\ Block.prev_block_hash block = Block.hash tip
    /\ _blocks self' = _blocks self ++ [block]
    /\ heap self' = alter (fun xs => xs ++ [signature]) transactions (heap self)
    /\ transaction_pool self' = transaction_pool self
    /\ subsidy self' = subsidy self
    /\ balance_pool self' = balance_pool self.
Proof.
  unfold new_coinbase_tx_account. intros E.
  apply bind_inv_ok in E as (reward & s0 & E0 & E). injection E0 as <- <-.
  apply bind_inv_ok in E as (sign_data & s1 & E1 & E).
  assert (exists miner, dict_get name (address_pool self) = Some miner) as [miner Hm].
  { unfold sign_transaction, bind, pool_get in E1.
    destruct (dict_get name (address_pool self)); [eauto | discriminate]. }
  pose proof (steps_ok _ _ _ _ _ (sign_transaction_memory _ _) E1) as M1.
  apply bind_inv_ok in E as ([] & s2 & E2 & E). injection E2 as <-.
  apply bind_inv_ok in E as ([] & s3 & E3 & E).
  apply add_block_ok in E3 as (tip & block & Ht & Hp & _ & Hb & Ha & Hs & Hi & Hh & Htp).
  apply bind_inv_ok in E as (reward & s4 & E4 & E). injection E4 as <- <-.
  apply bind_inv_ok in E as ([] & s5 & E5 & E).
  apply increment_balance_ok in E5 as (addr & Hg & ->).
  apply bind_inv_ok in E as (blocks & s6 & E6 & E). injection E6 as <- <-.
  apply bind_inv_ok in E as (tip' & s7 & E7 & E).
  assert (s7 = set_address_pool
                 (dict_set name (Wallet.add_balance addr (subsidy s3)) (address_pool s3)) s3)
    as -> by (unfold lift in E7; congruence).
  pose proof (steps_ok _ _ _ _ _ (save_block_data_memory _) E) as M7.
  apply same_memory_inv in M1 as (Qb & Qa & Qs & Qi & Qh & Qt & _).
  apply same_memory_inv in M7 as (Rb & Ra & Rs & Ri & Rh & Rt & _).
  cbn in *.
  rewrite Ha, Qa in Hg. assert (addr = miner) as -> by congruence.
  exists miner, tip, block, sign_data.
  rewrite Ra, Rb, Rh, Rt, Rs, Ri, Hb, Ha, Hs, Hi, Hh, Htp, Qa, Qb, Qh, Qt, Qs, Qi in *.
  repeat split; assumption.
Qed.

(** A call that fails the check raises at once. *)
Lemma add_transaction_short (source dest : string) (amount : Z)
    (addr : Address) (self : t) :
  dict_get source (address_pool self) = Some addr ->
  Wallet.balance addr < amount ->
  add_transaction source dest amount self = (Raise (no_balance source), self).
Proof.
  intros E Hlt. unfold add_transaction.
  rewrite (bind_ok _ _ _ _ _ (have_balance_some _ amount _ _ E)).
  destruct (Z.geb_spec (Wallet.balance addr) amount) as [Hge|_]; [lia|].
  reflexivity.
Qed.

(** C6. When the source's balance is below the amount, [add_transaction]
    raises the insufficient-balance error and leaves the object as it was:
    both pools are what they were before the call. *)
Theorem add_transaction_insufficient (source dest : string) (amount : Z)
    (addr : Address) (self : t) :
  dict_get source (address_pool self) = Some addr ->
  Wallet.balance addr < amount ->
  add_transaction source dest amount self = (Raise (no_balance source), self)
  /\ pending (snd (add_transaction source dest amount self)) = pending self
  /\ balance_pool (snd (add_transaction source dest amount self)) = balance_pool self.
Proof.
  intros E Hlt.
  assert (R : add_transaction source dest amount self
              = (Raise (no_balance source), self)).
  { unfold add_transaction.
    rewrite (bind_ok _ _ _ _ _ (have_balance_some _ amount _ _ E)).
    destruct (Z.geb_spec (Wallet.balance addr) amount) as [Hge|_]; [lia|].
    reflexivity. }
  rewrite R. auto.
Qed.

(** What a call that passes the check does. *)
Lemma add_transaction_sufficient (source dest : string) (amount : Z)
    (addr : Address) (self : t) :
  dict_get source (address_pool self) = Some addr ->
  amount <= Wallet.balance addr ->
  pool_live self ->
  exists signature self',
    add_transaction source dest amount self = (Ok tt, self')
    /\ pending self' = pending self ++ [tx_text source dest amount +:+ "|" +:+ signature]
    /\ balance_pool self' = balance_pool self ++ [(source, dest, amount)]
    /\ address_pool self' = address_pool self
    /\ _blocks self' = _blocks self.
Proof.
  intros E Hle Hl. unfold add_transaction.
  rewrite (bind_ok _ _ _ _ _ (have_balance_some _ amount _ _ E)).
  destruct (Z.geb_spec (Wallet.balance addr) amount) as [_|Hlt]; [|lia].
  cbn [negb].
  destruct (sign_transaction_some source (tx_text source dest amount) addr self E)
    as [signature Es].
  rewrite (bind_ok _ _ _ _ _ Es).
  exists signature. eexists. split; [reflexivity|].
  repeat split.
  unfold pending. cbn.
  destruct (lookup_lt_is_Some_2 _ _ Hl) as [xs Ex].
  rewrite list_lookup_alter_eq, Ex. reflexivity.
Qed.

(** Signing: the text, a bar, and the base58 text of the signature that the
    source's signing key gives over the encoded text. *)
Lemma sign_transaction_run (source tx_data : string) (addr : Address) (self : t) :
  dict_get source (address_pool self) = Some addr ->
  sign_transaction source tx_data self
  = (Ok (tx_data +:+ "|"
         +:+ bytes_decode
               (b58encode
                  (SigningKey_sign (Wallet.sk addr) (os_urandom (draws self))
                     (str_encode tx_data)))),
     set_draws (Datatypes.S (draws self)) self).
Proof.
  intros E. unfold sign_transaction.
  rewrite (bind_ok _ _ _ _ _ (pool_get_some _ _ _ E)).
  reflexivity.
Qed.

(** A source without an account: the look-up raises first. *)
Lemma add_transaction_no_account (source dest : string) (amount : Z) (self : t) :
  dict_get source (address_pool self) = None ->
  add_transaction source dest amount self = (Raise (KeyError source), self).
Proof.
  intros E. unfold add_transaction, have_balance.
  apply bind_raise, bind_raise. unfold pool_get. now rewrite E.
Qed.

(** A call that passes the check signs the text with the source's key and
    appends to both pools. *)
Lemma add_transaction_covered (source dest : string) (amount : Z)
    (addr : Address) (self : t) :
  dict_get source (address_pool self) = Some addr ->
  amount <= Wallet.balance addr ->
  pool_live self ->
  exists self' : t,
    add_transaction source dest amount self = (Ok tt, self')
    /\ pending self'
       = pending self
         ++ [tx_text source dest amount +:+ "|"
             +:+ bytes_decode
                   (b58encode
                      (SigningKey_sign (Wallet.sk addr) (os_urandom (draws self))
                         (str_encode (tx_text source dest amount))))]
    /\ balance_pool self' = balance_pool self ++ [(source, dest, amount)].
Proof.
  intros E Hle Hl. unfold add_transaction.
  rewrite (bind_ok _ _ _ _ _ (have_balance_some _ amount _ _ E)).
  destruct (Z.geb_spec (Wallet.balance addr) amount) as [_|Hlt]; [|lia].
  cbn [negb].
  rewrite (bind_ok _ _ _ _ _
             (sign_transaction_run source (tx_text source dest amount) addr self E)).
  eexists. split; [reflexivity|].
  split; [|reflexivity].
  unfold pending. cbn.
  destruct (lookup_lt_is_Some_2 _ _ Hl) as [xs Ex].
  rewrite list_lookup_alter_eq, Ex. reflexivity.
Qed.

(** C10, as the code has it. [add_transaction] raises exactly when the
    source has no account or its balance is below the amount: [KeyError]
    for the first, the insufficient-balance [ValueError] for the second,
    and in both cases the object is as it was. Nothing asks the amount to
    be positive: every amount the balance covers, zero and negative ones
    included, is accepted; the transaction text is signed with the
    source's signing key and the signed text is appended to the pending
    transactions, the intent to [balance_pool]. *)
Theorem add_transaction_raises_iff (source dest : string) (amount : Z) (self : t) :
  pool_live self ->
  (is_raise (fst (add_transaction source dest amount self)) = true
   <-> match dict_get source (address_pool self) with
       | Some addr => Wallet.balance addr < amount
       | None => True
       end)
  /\ (dict_get source (address_pool self) = None ->
      add_transaction source dest amount self = (Raise (KeyError source), self))
  /\ forall addr : Address,
       dict_get source (address_pool self) = Some addr ->
       (Wallet.balance addr < amount ->
        add_transaction source dest amount self = (Raise (no_balance source), self))
       /\ (amount <= Wallet.balance addr ->
           exists self' : t,
             add_transaction source dest amount self = (Ok tt, self')
             /\ pending self'
                = pending self
                  ++ [tx_text source dest amount +:+ "|"
                      +:+ bytes_decode
                            (b58encode
                               (SigningKey_sign (Wallet.sk addr)
                                  (os_urandom (draws self))
                                  (str_encode (tx_text source dest amount))))]
             /\ balance_pool self' = balance_pool self ++ [(source, dest, amount)]).
Proof.
  intros Hl. split; [|split].
  - destruct (dict_get source (address_pool self)) as [addr|] eqn:E.
    + destruct (Z.lt_ge_cases (Wallet.balance addr) amount) as [Hlt|Hge].
      * rewrite (add_transaction_short source dest amount addr self E Hlt).
        cbn. tauto.
      * destruct (add_transaction_covered source dest amount addr self E Hge Hl)
          as (self' & -> & _). cbn. split; [discriminate | lia].
    + rewrite (add_transaction_no_account source dest amount self E). cbn. tauto.
  - apply add_transaction_no_account.
  - intros addr E. split.
    + now apply add_transaction_short.
    + intros Hge. now apply add_transaction_covered.
Qed.


(** A transfer that returns took the amount from the source's balance and
    put it on the destination's; every other account kept its balance. *)
Lemma move_balance_account (source dest : string) (amount : Z) (self self' : t) :
  move_balance source dest amount self = (Ok tt, self') ->
  forall (account : string) (addr : Address),
    dict_get account (address_pool self) = Some addr ->
    exists addr' : Address,
      dict_get account (address_pool self') = Some addr'
      /\ Wallet.balance addr'
         = Wallet.balance addr
           - (if String.eqb source account then amount else 0)
           + (if String.eqb dest account then amount else 0).
Proof.
  unfold move_balance. intros E account addr Ha.
  apply bind_inv_ok in E as ([] & s1 & E1 & E2).
  apply decrement_balance_ok in E1 as (a1 & G1 & ->).
  apply increment_balance_ok in E2 as (a2 & G2 & ->).
  cbn [address_pool set_address_pool] in *.
  destruct (String.eqb_spec dest account) as [->|Hd].
  - rewrite dict_get_dict_set_eq. eexists. split; [reflexivity|].
    destruct (String.eqb_spec source account) as [->|Hs].
    + rewrite dict_get_dict_set_eq in G2. injection G2 as <-.
      assert (a1 = addr) as -> by congruence.
      unfold Wallet.add_balance, Wallet.sub_balance, Wallet.balance. cbn. lia.
    + rewrite dict_get_dict_set_ne in G2 by congruence.
      assert (a2 = addr) as -> by congruence.
      unfold Wallet.add_balance, Wallet.balance. cbn. lia.
  - rewrite dict_get_dict_set_ne by congruence.
    destruct (String.eqb_spec source account) as [->|Hs].
    + rewrite dict_get_dict_set_eq. eexists. split; [reflexivity|].
      assert (a1 = addr) as -> by congruence.
      unfold Wallet.sub_balance, Wallet.balance. cbn. lia.
    + rewrite dict_get_dict_set_ne by congruence.
      exists addr. split; [assumption | lia].
Qed.

Lemma for_each_fire_intent_account (intents : list (string * string * Z))
    (self self' : t) :
  for_each intents fire_intent self = (Ok tt, self') ->
  forall (account : string) (addr : Address),
    dict_get account (address_pool self) = Some addr ->
    exists addr' : Address,
      dict_get account (address_pool self') = Some addr'
      /\ Wallet.balance addr'
         = Wallet.balance addr + inflow account intents - outflow account intents.
Proof.
  revert self. induction intents as [|[[source dest] amount] intents IH];
    intros self E account addr Ha; cbn [for_each] in E.
  - injection E as <-. exists addr. split; [assumption|]. cbn. lia.
  - apply bind_inv_ok in E as ([] & s1 & E1 & E2).
    unfold fire_intent in E1.
    apply bind_inv_ok in E1 as (enough & s0 & E0 & E1).
    pose proof (have_balance_state source amount self) as Hs.
    rewrite E0 in Hs. cbn in Hs. subst s0.
    destruct enough; cbn [negb] in E1; [|discriminate].
    destruct (move_balance_account _ _ _ _ _ E1 account addr Ha) as (a1 & G1 & B1).
    destruct (IH _ E2 account a1 G1) as (a2 & G2 & B2).
    exists a2. split; [assumption|].
    cbn [inflow outflow fold_right]. fold (inflow account intents).
    fold (outflow account intents). lia.
Qed.

(** C7. A settlement that returns leaves the sum of all balances greater by
    exactly the reward, and it does so account by account: every account
    ends with its balance before the call, plus the reward if it is the
    miner's, plus the amounts of the intents that name it as destination,
    minus the amounts of the intents that name it as source. Each intent
    has moved its amount from its source to its destination, and only the
    miner's credit has added any. *)
Theorem fire_transactions_total (name : string) (self self' : t) :
  fire_transactions name self = (Ok tt, self') ->
  total_balance (address_pool self')
    = total_balance (address_pool self) + subsidy self
  /\ forall (account : string) (addr : Address),
       dict_get account (address_pool self) = Some addr ->
       exists addr' : Address,
         dict_get account (address_pool self') = Some addr'
         /\ Wallet.balance addr'
            = Wallet.balance addr
              + (if String.eqb account name then subsidy self else 0)
              + inflow account (balance_pool self)
              - outflow account (balance_pool self).
Proof.
  unfold fire_transactions. intros E.
  apply bind_inv_ok in E as (pool & s0 & E0 & E). injection E0 as <- <-.
  apply bind_inv_ok in E as ([] & s1 & E1 & E).
  apply new_coinbase_tx_account_ok in E1
    as (miner & tip & block & sg & Hm & Ha & _ & _ & _ & _ & _ & _ & Hi).
  apply bind_inv_ok in E as (intents & s2 & E2 & E). injection E2 as <- <-.
  apply bind_inv_ok in E as ([] & s3 & E3 & E).
  pose proof (for_each_fire_intent_ok _ _ _ E3) as [T3 _].
  pose proof (for_each_fire_intent_account _ _ _ E3) as K3.
  apply bind_inv_ok in E as ([] & s4 & E4 & E).
  pose proof (steps_ok _ _ _ _ _ save_address_pool_data_memory E4) as M4.
  apply same_memory_inv in M4 as (_ & A4 & _).
  apply bind_inv_ok in E as (l & s5 & E5 & E). injection E5 as <- <-.
  apply bind_inv_ok in E as ([] & s6 & E6 & E). injection E6 as <-.
  injection E as <-.
  cbn [address_pool set_balance_pool set_transaction_pool set_heap].
  rewrite A4. split.
  - rewrite T3, Ha, (total_balance_dict_set _ _ _ _ Hm).
    unfold Wallet.add_balance, Wallet.balance. cbn. lia.
  - intros account addr Hg. rewrite Hi in K3.
    destruct (String.eqb_spec account name) as [->|Hne].
    + assert (addr = miner) as -> by congruence.
      destruct (K3 name (Wallet.add_balance miner (subsidy self))) as (a' & G & B).
      { rewrite Ha. apply dict_get_dict_set_eq. }
      exists a'. split; [assumption|]. rewrite B.
      unfold Wallet.add_balance, Wallet.balance. cbn. lia.
    + destruct (K3 account addr) as (a' & G & B).
      { rewrite Ha. now rewrite dict_get_dict_set_ne. }
      exists a'. split; [assumption|]. rewrite B. lia.
Qed.

(** C3. When an intent fails the check as it is applied, the settlement
    raises the insufficient-balance error, and it does so with the new
    block already on the chain (one block more than before the call) and
    the miner already credited the reward: the sum of the balances at the
    failure is the sum before the call plus the reward. *)
Theorem fire_transactions_fails_after_commit (name source : string)
    (self after_coinbase at_failure : t) :
  intent_fails name self source after_coinbase at_failure ->
  fire_transactions name self = (Raise (no_balance source), at_failure)
  /\ length (_blocks at_failure) = Datatypes.S (length (_blocks self))
  /\ (exists miner,
        dict_get name (address_pool self) = Some miner
        /\ dict_get name (address_pool after_coinbase)
           = Some (Wallet.add_balance miner (subsidy self)))
  /\ total_balance (address_pool at_failure)
     = total_balance (address_pool self) + subsidy self.
Proof.
  intros (before & after & dest & amount & E1 & Hp & E3 & E4).
  pose proof (new_coinbase_tx_account_ok _ _ _ _ E1)
    as (miner & tip & block & sg & Hm & Ha & _ & _ & Hb & _ & _ & _ & Hi).
  pose proof (for_each_fire_intent_ok _ _ _ E3) as [T3 B3].
  unfold but_accounts in B3. injection B3 as B3 _ _ _ _.
  split; [|split; [|split]].
  - unfold fire_transactions.
    rewrite (bind_ok _ _ self self (transaction_pool self)) by reflexivity.
    rewrite (bind_ok _ _ _ _ _ E1).
    rewrite (bind_ok _ _ after_coinbase after_coinbase (balance_pool after_coinbase))
      by reflexivity.
    apply bind_raise. rewrite Hi, Hp, (for_each_app _ _ _ _ _ E3).
    cbn [for_each]. apply bind_raise. unfold fire_intent.
    now rewrite (bind_ok _ _ _ _ _ E4).
  - rewrite B3, Hb, length_app. cbn. lia.
  - exists miner. split; [assumption|]. rewrite Ha. apply dict_get_dict_set_eq.
  - rewrite T3, Ha, (total_balance_dict_set _ _ _ _ Hm).
    unfold Wallet.add_balance, Wallet.balance. cbn. lia.
Qed.

(** The same run leaves the two pools out of step: the signed reward was
    appended to the pending transactions, and nothing removed it. *)
Lemma fire_transactions_failure_pools (name source : string)
    (self after_coinbase at_failure : t) :
  pool_live self ->
  intent_fails name self source after_coinbase at_failure ->
  length (pending at_failure) = Datatypes.S (length (pending self))
  /\ balance_pool at_failure = balance_pool self.
Proof.
  intros Hl (before & after & dest & amount & E1 & Hp & E3 & E4).
  pose proof (new_coinbase_tx_account_ok _ _ _ _ E1)
    as (miner & tip & block & sg & _ & _ & _ & _ & _ & Hh & Ht & _ & Hi).
  pose proof (for_each_fire_intent_ok _ _ _ E3) as [_ B3].
  unfold but_accounts in B3. injection B3 as _ _ Bi Bh Bt.
  split; [|congruence].
  unfold pending. rewrite Bh, Bt, Hh, Ht, list_lookup_alter_eq.
  destruct (lookup_lt_is_Some_2 _ _ Hl) as [xs Ex]. rewrite Ex. cbn.
  rewrite length_app. cbn. lia.
Qed.

(** A settlement that returns empties both pools. *)
Lemma fire_transactions_ok_pools (name : string) (self self' : t) :
  fire_transactions name self = (Ok tt, self') ->
  pending self' = [] /\ balance_pool self' = [] /\ pool_live self'.
Proof.
  unfold fire_transactions. intros E.
  apply bind_inv_ok in E as (pool & s0 & E0 & E). injection E0 as <- <-.
  apply bind_inv_ok in E as ([] & s1 & _ & E).
  apply bind_inv_ok in E as (intents & s2 & E2 & E). injection E2 as <- <-.
  apply bind_inv_ok in E as ([] & s3 & _ & E).
  apply bind_inv_ok in E as ([] & s4 & _ & E).
  apply bind_inv_ok in E as (l & s5 & E5 & E). injection E5 as <- <-.
  apply bind_inv_ok in E as ([] & s6 & E6 & E). injection E6 as <-.
  injection E as <-. unfold pending, pool_live. cbn.
  rewrite lookup_app_r, Nat.sub_diag, length_app by lia. cbn. repeat split. lia.
Qed.

(** *** The chain *)

#[local] Instance chain_grows_refl : Reflexive chain_grows.
Proof. intros s. split; [reflexivity | auto]. Qed.

#[local] Instance chain_grows_trans : Transitive chain_grows.
Proof.
  intros s1 s2 s3 [P1 L1] [P2 L2]. split; [etransitivity; eassumption | auto].
Qed.

Lemma same_blocks_chain_grows (self self' : t) :
  same _blocks self self' -> chain_grows self self'.
Proof. unfold same, chain_grows. intros ->. split; [reflexivity | auto]. Qed.

Lemma steps_same_blocks {A} (m : method A) :
  steps (same _blocks) m -> steps chain_grows m.
Proof. intros H s. apply same_blocks_chain_grows, H. Qed.

Lemma steps_memory_blocks {A} (m : method A) :
  steps (same memory) m -> steps (same _blocks) m.
Proof. intros H s. specialize (H s). apply same_memory_inv in H. apply H. Qed.

Lemma linked_snoc (blocks : list Block.t) (tip block : Block.t) :
  linked blocks -> last blocks = Some tip ->
  Block.prev_block_hash block = Block.hash tip ->
  linked (blocks ++ [block]).
Proof.
  intros Hl Ht Hp i a b Ha Hb.
  destruct (decide (Datatypes.S i < length blocks)%nat) as [Hlt|Hge].
  - rewrite lookup_app_l in Ha, Hb by lia. eauto.
  - assert (Datatypes.S i = length blocks) as Hi.
    { apply lookup_lt_Some in Hb. rewrite length_app in Hb. cbn in Hb. lia. }
    rewrite lookup_app_r in Hb by lia. rewrite Hi, Nat.sub_diag in Hb.
    injection Hb as <-.
    rewrite lookup_app_l in Ha by lia.
    rewrite last_lookup in Ht. replace (pred (length blocks)) with i in Ht by lia.
    congruence.
Qed.

Lemma add_block_chain_grows (transactions : nat) (name : string) :
  steps chain_grows (add_block transactions name).
Proof.
  intros s. destruct (add_block transactions name s) as [[[]|e] s'] eqn:E; cbn.
  - apply add_block_ok in E as (tip & block & Ht & Hp & _ & Hb & _).
    split; rewrite Hb.
    + now apply prefix_app_r.
    + intros Hl. eapply linked_snoc; eassumption.
  - apply same_blocks_chain_grows. unfold same.
    revert E. unfold add_block, bind, gets, lift, list_read, new_block, now, modify, ret.
    destruct (last (_blocks s)); cbn; [discriminate | now intros [= _ <-]].
Qed.

Lemma increment_balance_blocks name amount :
  steps (same _blocks) (increment_balance name amount).
Proof. unfold increment_balance. walk. Qed.

Lemma decrement_balance_blocks name amount :
  steps (same _blocks) (decrement_balance name amount).
Proof. unfold decrement_balance. walk. Qed.

#[local] Hint Resolve increment_balance_blocks decrement_balance_blocks : ledger.

Lemma fire_intent_blocks intent : steps (same _blocks) (fire_intent intent).
Proof.
  destruct intent as [[source dest] amount].
  unfold fire_intent, move_balance, have_balance. walk.
Qed.

Lemma sign_transaction_blocks source tx_data :
  steps (same _blocks) (sign_transaction source tx_data).
Proof. apply steps_memory_blocks, sign_transaction_memory. Qed.

Lemma save_block_data_blocks block : steps (same _blocks) (save_block_data block).
Proof. apply steps_memory_blocks, save_block_data_memory. Qed.

Lemma save_address_data_blocks addr : steps (same _blocks) (save_address_data addr).
Proof. apply steps_memory_blocks, save_address_data_memory. Qed.

Lemma save_address_pool_data_blocks : steps (same _blocks) save_address_pool_data.
Proof. apply steps_memory_blocks, save_address_pool_data_memory. Qed.

#[local] Hint Resolve fire_intent_blocks sign_transaction_blocks
  save_block_data_blocks save_address_data_blocks
  save_address_pool_data_blocks : ledger.

Lemma create_user_blocks name : steps (same _blocks) (create_user name).
Proof. unfold create_user. walk. Qed.

Lemma add_transaction_blocks source dest amount :
  steps (same _blocks) (add_transaction source dest amount).
Proof. unfold add_transaction, have_balance. walk. Qed.

#[local] Hint Resolve add_block_chain_grows : ledger.
#[local] Hint Extern 5 (steps chain_grows _) =>
  apply steps_same_blocks; solve [prim | auto with ledger] : ledger.

Lemma new_coinbase_tx_account_chain_grows transactions name :
  steps chain_grows (new_coinbase_tx_account transactions name).
Proof. unfold new_coinbase_tx_account. walk. Qed.

#[local] Hint Resolve new_coinbase_tx_account_chain_grows : ledger.

Lemma fire_transactions_chain_grows name :
  steps chain_grows (fire_transactions name).
Proof. unfold fire_transactions. walk. Qed.

Lemma perform_chain_grows (c : call) : steps chain_grows (perform c).
Proof.
  destruct c; cbn [perform].
  - apply steps_same_blocks, create_user_blocks.
  - apply steps_same_blocks, add_transaction_blocks.
  - apply fire_transactions_chain_grows.
Qed.

Lemma run_chain_grows (calls : list call) (self : t) :
  chain_grows self (run calls self).
Proof.
  revert self. induction calls as [|c calls IH]; intros self; cbn [run].
  - reflexivity.
  - etransitivity; [apply perform_chain_grows | apply IH].
Qed.

(** *** Initialisation *)

Lemma increment_balance_some (name : string) (amount : Z) (addr : Address) (self : t) :
  dict_get name (address_pool self) = Some addr ->
  increment_balance name amount self
    = (Ok tt, set_address_pool
                (dict_set name (Wallet.add_balance addr amount) (address_pool self)) self).
Proof.
  intros E. unfold increment_balance.
  now rewrite (bind_ok _ _ _ _ _ (pool_get_some _ _ _ E)).
Qed.

(** What [create_user] does with a name. *)
Lemma create_user_run (name : string) (self : t) :
  let addr := Wallet.__init__ name 0 (os_urandom (draws self)) in
  create_user name self =
    if dict_mem name (address_pool self) then (Ok tt, self)
    else save_address_data addr
           (set_address_pool (address_pool self ++ [(name, addr)])
              (set_draws (Datatypes.S (draws self)) self)).
Proof.
  unfold create_user, bind, gets, draw, modify, dict_mem.
  destruct (dict_get name (address_pool self)) as [old|] eqn:E; cbn; [reflexivity|].
  now rewrite dict_set_fresh.
Qed.

Lemma save_address_data_open (addr : Address) (path : string)
    (d : gmap string (list string)) (self : t) :
  address_file self = Some (File path false) -> disk self = Some d ->
  save_address_data addr self =
    (Ok tt,
     set_disk
       (Some (<[path := default [] (d !! path)
                        ++ [Json.dumps (address_record (Wallet.name addr) addr)]]> d))
       self).
Proof.
  intros Hf Hd. unfold save_address_data, bind, gets, handle_write.
  rewrite Hf. unfold file_write. now rewrite Hd.
Qed.

(** With the directory in place [save_metadata] returns, and only the
    directory has changed. *)
Lemma save_metadata_returns (d : gmap string (list string)) (self : t) :
  disk self = Some d ->
  exists d', save_metadata self = (Ok tt, set_disk (Some d') self).
Proof.
  intros Hd. unfold save_metadata, bind, mkdir_if_missing, modify, open_w, gets,
    file_write.
  rewrite Hd. cbn. rewrite Hd. cbn. destruct self; cbn in *. eauto.
Qed.

(** The first block written goes to the open data file. *)
Lemma save_block_data_first (block : Block.t) (path : string)
    (d : gmap string (list string)) (self : t) :
  data_file self = Some (File path false) -> disk self = Some d -> count self = 0 ->
  exists d',
    save_block_data block self
    = (Ok tt, set_disk (Some d') (set_count 1 (set_index (0 / threshold self) self))).
Proof.
  intros Hf Hd Hc.
  unfold save_block_data, bind at 1, modify. unfold bind at 1.
  cbn [gets]. unfold bind at 1. cbn [gets].
  cbn [count set_index]. rewrite Hc. cbn [Z.eqb negb andb].
  unfold bind at 1. cbn [ret]. unfold bind at 1. cbn [modify].
  unfold bind at 1. cbn [gets data_file set_count set_index]. rewrite Hf.
  unfold bind at 1. cbn [handle_write]. unfold file_write.
  cbn [disk set_count set_index]. rewrite Hd.
  edestruct (save_metadata_returns
               (<[path:=default [] (d !! path) ++ [Block.serialize block]]> d))
    as [d' ->]; [reflexivity|].
  exists d'. destruct self; cbn in *. subst. reflexivity.
Qed.

Lemma save_genesis_data_returns (genesis : Block.t) (later : list Block.t)
    (d : gmap string (list string)) (self : t) :
  disk self = Some d -> _blocks self = genesis :: later ->
  exists d', save_genesis_data self = (Ok tt, set_disk (Some d') self).
Proof.
  intros Hd Hb. unfold save_genesis_data, bind, open_w, gets, lift, file_write.
  rewrite Hd. cbn. rewrite Hb. cbn. destruct self; cbn in *. eauto.
Qed.

(** On a fresh object whose store directory exists, [initialize] returns,
    and the chain is the genesis block alone. *)
Lemma initialize_fresh (d : gmap string (list string)) (name : string) :
  exists (self : t) (signature : string),
    initialize name (__init__ (Some d)) = (Ok tt, self)
    /\ _blocks self =
       [Block.set_hash
          (Block.__init__ (-1) (time_time 0) 15 0
             ["This is the genesis block!!!" +:+ "|" +:+ signature]
             (bytes_decode (Base64.b64encode (SHA256.digest []))))].
Proof.
  unfold initialize.
  unfold bind at 1. state_simpl.
  unfold bind at 1. state_simpl.
  unfold bind at 1. state_simpl.
  unfold bind at 1. state_simpl.
  unfold bind at 1. rewrite create_user_run. state_simpl.
  erewrite save_address_data_open; [|reflexivity|reflexivity]. state_simpl.
  unfold bind at 1.
  erewrite increment_balance_some
    by (state_simpl; cbn [dict_get]; now rewrite String.eqb_refl).
  state_simpl. cbn [dict_set]. rewrite String.eqb_refl.
  unfold bind at 1. unfold new_genesis_block.
  unfold bind at 1.
  edestruct (sign_transaction_some name "This is the genesis block!!!")
    as [signature ->].
  { state_simpl. cbn [dict_get]. now rewrite String.eqb_refl. }
  unfold new_block. unfold bind at 1. state_simpl.
  unfold bind at 1. state_simpl.
  unfold bind at 1. state_simpl.
  unfold bind at 1.
  edestruct save_block_data_first as [d1 ->]; [reflexivity | reflexivity | reflexivity |].
  unfold bind at 1.
  edestruct save_metadata_returns as [d2 ->]; [reflexivity|].
  edestruct save_genesis_data_returns as [d3 ->]; [reflexivity | reflexivity |].
  eexists _, signature. split; reflexivity.
Qed.

(** *** Accounts *)

(** C8, as the code has it. For a name already in the pool [create_user]
    raises nothing: it returns, and the object is as it was. For a new
    name, with the address file open, it draws a key, builds the account
    with balance 0 and the address derived from the key, puts it at the end
    of the pool and appends its record to the address file. The pool
    changes only when the name was not yet there. *)
Theorem create_user_spec (name : string) (self : t) :
  let addr := Wallet.__init__ name 0 (os_urandom (draws self)) in
  (dict_mem name (address_pool self) = true ->
   create_user name self = (Ok tt, self))
  /\ (dict_mem name (address_pool self) = false ->
      forall (path : string) (d : gmap string (list string)),
        address_file self = Some (File path false) -> disk self = Some d ->
        create_user name self =
          (Ok tt,
           set_disk
             (Some (<[path := default [] (d !! path)
                              ++ [Json.dumps (address_record name addr)]]> d))
             (set_address_pool (address_pool self ++ [(name, addr)])
                (set_draws (Datatypes.S (draws self)) self)))
        /\ Wallet.balance addr = 0
        /\ Wallet.sk addr = SigningKey_generate (os_urandom (draws self))
        /\ Wallet.vk addr = SigningKey_verifying_key (Wallet.sk addr)
        /\ Wallet.address addr = Wallet._create_address (Wallet.vk addr))
  /\ (address_pool (snd (create_user name self)) <> address_pool self ->
      dict_mem name (address_pool self) = false).
Proof.
  intros addr. pose proof (create_user_run name self) as R. cbn zeta in R.
  fold addr in R. split; [|split].
  - intros Hm. now rewrite R, Hm.
  - intros Hm path d Hf Hd. rewrite R, Hm.
    erewrite save_address_data_open; [|exact Hf|exact Hd].
    repeat split.
  - intros Hne. destruct (dict_mem name (address_pool self)) eqn:Hm; [|reflexivity].
    rewrite R in Hne. now elim Hne.
Qed.

(** *** The genesis block and the chain *)

Lemma genesis_prev_hash_text :
  bytes_decode (Base64.b64encode (SHA256.digest []))
  = "47DEQpj8HBSa+/TImW+5JCeuQeRkm5NMpJWZG3hSuFU=".
Proof. vm_compute. reflexivity. Qed.

Lemma linked_lookup (blocks : list Block.t) (i : nat) (b : Block.t) :
  linked blocks -> blocks !! Datatypes.S i = Some b ->
  exists a, blocks !! i = Some a /\ Block.prev_block_hash b = Block.hash a.
Proof.
  intros Hl Hb.
  destruct (lookup_lt_is_Some_2 blocks i) as [a Ha].
  { apply lookup_lt_Some in Hb. lia. }
  eauto.
Qed.

(** C5, as the code has it. On a fresh object with its store directory in
    place, [initialize] returns with the genesis block alone on the chain:
    it is sealed at height 0 and its previous hash is the base64 text of
    the SHA-256 digest of the empty message. Whatever accounts are created,
    transfers queued and settlements run afterwards, whether they return or
    raise, the chain still begins with that block and every later block
    names the hash of the block before it, so the genesis block is the only
    one without a predecessor. *)
Theorem genesis_block_and_chain (d : gmap string (list string)) (name : string)
    (calls : list call) :
  exists (self : t) (genesis : Block.t),
    initialize name (__init__ (Some d)) = (Ok tt, self)
    /\ _blocks self = [genesis]
    /\ Block.height genesis = 0
    /\ Block.prev_block_hash genesis
       = bytes_decode (Base64.b64encode (SHA256.digest []))
    /\ Block.prev_block_hash genesis = "47DEQpj8HBSa+/TImW+5JCeuQeRkm5NMpJWZG3hSuFU="
    /\ exists later : list Block.t,
         _blocks (run calls self) = genesis :: later
         /\ forall (i : nat) (b : Block.t),
              (genesis :: later) !! Datatypes.S i = Some b ->
              exists a, (genesis :: later) !! i = Some a
                        /\ Block.prev_block_hash b = Block.hash a.
Proof.
  destruct (initialize_fresh d name) as (self & signature & E & Hb).
  exists self. eexists. split; [exact E|]. split; [exact Hb|].
  rewrite set_hash_height, set_hash_prev_block_hash. cbn [Block.__init__ Block.height
    Block.prev_block_hash].
  split; [reflexivity|]. split; [reflexivity|]. split; [apply genesis_prev_hash_text|].
  destruct (run_chain_grows calls self) as [[later Hp] Hl].
  rewrite Hb in Hp. cbn [app] in Hp. exists later. split; [exact Hp|].
  intros i b Hi. apply linked_lookup; [|exact Hi].
  rewrite <- Hp. apply Hl. rewrite Hb. intros j a b' Ha Hb'.
  destruct j; cbn in Hb'; discriminate.
Qed.

End Ledger_facts.

(** ** Runs on the small instance *)

Section Runs.
Import Blockchain Demo.
#[local] Existing Instance Demo.crypto.
#[local] Existing Instance Demo.block_lib.
#[local] Existing Instance Demo.system.

(** C1. A settlement that fails leaves the pools out of step. [A] has 50
    and has queued two transfers of 30; both pools hold two entries. The
    settlement mined by [B] appends the signed reward to the pending
    transactions, applies the first transfer and raises on the second: the
    pending transactions are then three and the intents two. *)
Theorem failed_settlement_breaks_alignment :
  length (pending overdrawn) = 2%nat
  /\ length (balance_pool overdrawn) = 2%nat
  /\ fst (fire_transactions "B" overdrawn) = Raise (no_balance "A")
  /\ length (pending (exec (fire_transactions "B") overdrawn)) = 3%nat
  /\ length (balance_pool (exec (fire_transactions "B") overdrawn)) = 2%nat.
Proof. vm_compute. repeat split; reflexivity. Qed.

(** C2. Segments are read in the order of their names as strings. Loading
    the store of 1001 blocks returns, and the chain has the block of
    [data-10] right after the last block of [data-1] and before the first
    block of [data-2]. *)
Theorem segments_read_in_string_order :
  fst (read_blockchain (__init__ (Some store))) = Ok tt
  /\ map Block.hash (_blocks loaded)
     = block_line 0
       :: segment 0 100 ++ segment 1 100 ++ segment 10 1 ++ segment 2 100
       ++ segment 3 100 ++ segment 4 100 ++ segment 5 100 ++ segment 6 100
       ++ segment 7 100 ++ segment 8 100 ++ segment 9 100
  /\ Block.hash <$> _blocks loaded !! 200%nat = Some "block-199"
  /\ Block.hash <$> _blocks loaded !! 201%nat = Some "block-1000"
  /\ Block.hash <$> _blocks loaded !! 202%nat = Some "block-200".
Proof. vm_compute. repeat split; reflexivity. Qed.

(** C5, the claim as stated fails: the previous hash of the genesis block
    that [initialize] builds is not the all-zero digest. *)
Lemma genesis_placeholder_not_zero :
  exists genesis : Block.t,
    _blocks fresh = [genesis] /\ ~ zero_placeholder genesis.
Proof.
  eexists. split; [vm_compute; reflexivity|].
  unfold zero_placeholder. vm_compute. discriminate.
Qed.

(** C8, the claim as stated fails: [A] is in the pool, and creating it
    again raises no error. *)
Lemma create_user_duplicate_not_raised :
  dict_mem "A" (address_pool ledger) = true
  /\ is_raise (fst (create_user "A" ledger)) = false.
Proof. vm_compute. split; reflexivity. Qed.

(** C10, the claim as stated fails: [Z] has no account, so no balance of
    its is below the amount, and the call raises all the same, for an
    amount below zero too. *)
Lemma add_transaction_raises_without_balance :
  dict_get "Z" (address_pool ledger) = None
  /\ fst (add_transaction "Z" "B" (-5) ledger) = Raise (KeyError "Z")
  /\ fst (add_transaction "Z" "B" 5 ledger) = Raise (KeyError "Z").
Proof. vm_compute. repeat split; reflexivity. Qed.

(** The settlement of one queued transfer: 30 have gone from [A] to [B],
    and [B], the miner, has the reward on top. *)
Example settlement_balances :
  balance_pool queued = [("A", "B", 30)]
  /\ map (fun item => (fst item, Wallet.balance (snd item))) (address_pool queued)
     = [("A", 50); ("B", 0)]
  /\ fst (fire_transactions "B" queued) = Ok tt
  /\ map (fun item => (fst item, Wallet.balance (snd item)))
       (address_pool (exec (fire_transactions "B") queued))
     = [("A", 20); ("B", 80)].
Proof. vm_compute. repeat split; reflexivity. Qed.

(** *** The theorems at concrete inputs *)

Lemma add_transaction_insufficient_witness :
  add_transaction "A" "B" 80 ledger = (Raise (no_balance "A"), ledger)
  /\ pending (snd (add_transaction "A" "B" 80 ledger)) = pending ledger
  /\ balance_pool (snd (add_transaction "A" "B" 80 ledger)) = balance_pool ledger.
Proof.
  eapply (add_transaction_insufficient "A" "B" 80 _ ledger).
  - vm_compute. reflexivity.
  - vm_compute. reflexivity.
Defined.

Lemma add_transaction_raises_iff_witness :
  exists (addr : Address) (self' : t),
    dict_get "A" (address_pool ledger) = Some addr
    /\ add_transaction "A" "B" (-5) ledger = (Ok tt, self')
    /\ pending self'
       = pending ledger
         ++ [tx_text "A" "B" (-5) +:+ "|"
             +:+ bytes_decode
                   (b58encode
                      (SigningKey_sign (Wallet.sk addr) (os_urandom (draws ledger))
                         (str_encode (tx_text "A" "B" (-5)))))]
    /\ balance_pool self' = balance_pool ledger ++ [("A", "B", -5)].
Proof.
  assert (Hl : pool_live ledger) by (unfold pool_live; vm_compute; lia).
  assert (Ha : dict_get "A" (address_pool ledger)
               = Some (Wallet.add_balance (Wallet.__init__ "A" 0 (os_urandom 0)) 50))
    by (vm_compute; reflexivity).
  destruct (add_transaction_raises_iff "A" "B" (-5) ledger Hl) as (_ & _ & H).
  destruct (H _ Ha) as [_ Hok].
  destruct Hok as (self' & E & Hp & Hb); [vm_compute; discriminate|].
  exists (Wallet.add_balance (Wallet.__init__ "A" 0 (os_urandom 0)) 50), self'.
  repeat split; assumption.
Defined.

Lemma fire_transactions_total_witness :
  total_balance (address_pool (exec (fire_transactions "B") queued))
  = total_balance (address_pool queued) + subsidy queued
  /\ forall (account : string) (addr : Address),
       dict_get account (address_pool queued) = Some addr ->
       exists addr' : Address,
         dict_get account (address_pool (exec (fire_transactions "B") queued)) = Some addr'
         /\ Wallet.balance addr'
            = Wallet.balance addr
              + (if String.eqb account "B" then subsidy queued else 0)
              + inflow account (balance_pool queued)
              - outflow account (balance_pool queued).
Proof.
  apply (fire_transactions_total "B" queued (exec (fire_transactions "B") queued)).
  vm_compute. reflexivity.
Defined.

Lemma fire_transactions_fails_after_commit_witness :
  fire_transactions "B" overdrawn
  = (Raise (no_balance "A"),
     exec (for_each [("A", "B", 30)] fire_intent)
       (exec (new_coinbase_tx_account (transaction_pool overdrawn) "B") overdrawn))
  /\ length (_blocks
               (exec (for_each [("A", "B", 30)] fire_intent)
                  (exec (new_coinbase_tx_account (transaction_pool overdrawn) "B")
                     overdrawn)))
     = Datatypes.S (length (_blocks overdrawn)).
Proof.
  pose proof (fire_transactions_fails_after_commit "B" "A" overdrawn
                (exec (new_coinbase_tx_account (transaction_pool overdrawn) "B") overdrawn)
                (exec (for_each [("A", "B", 30)] fire_intent)
                   (exec (new_coinbase_tx_account (transaction_pool overdrawn) "B")
                      overdrawn))) as H.
  assert (I : intent_fails "B" overdrawn "A"
                (exec (new_coinbase_tx_account (transaction_pool overdrawn) "B") overdrawn)
                (exec (for_each [("A", "B", 30)] fire_intent)
                   (exec (new_coinbase_tx_account (transaction_pool overdrawn) "B")
                      overdrawn))).
  { exists [("A", "B", 30)], [], "B", 30.
    vm_compute. repeat split; reflexivity. }
  destruct (H I) as (R & Hlen & _). split; assumption.
Defined.

Lemma create_user_spec_witness :
  create_user "C" ledger =
    (Ok tt,
     set_disk
       (Some (<["address" := default [] (default ∅ (disk ledger) !! "address")
                  ++ [Json.dumps
                        (address_record "C"
                           (Wallet.__init__ "C" 0 (os_urandom (draws ledger))))]]>
                (default ∅ (disk ledger))))
       (set_address_pool
          (address_pool ledger
           ++ [("C", Wallet.__init__ "C" 0 (os_urandom (draws ledger)))])
          (set_draws (Datatypes.S (draws ledger)) ledger))).
Proof.
  assert (Hm : dict_mem "C" (address_pool ledger) = false) by (vm_compute; reflexivity).
  assert (Hf : address_file ledger = Some (File "address" false))
    by (vm_compute; reflexivity).
  assert (Hd : disk ledger = Some (default ∅ (disk ledger))).
  { assert (B : match disk ledger with Some _ => true | None => false end = true)
      by (vm_compute; reflexivity).
    destruct (disk ledger); [reflexivity | discriminate B]. }
  destruct (create_user_spec "C" ledger) as (_ & Hnew & _).
  exact (proj1 (Hnew Hm "address" (default ∅ (disk ledger)) Hf Hd)).
Defined.

Lemma deserialize_serialize_witness :
  Wallet.deserialize (Wallet.serialize (Wallet.__init__ "A" 50 [x00; x2a])) [x07]
  = Ok (Wallet.__init__ "A" 50 [x00; x2a]).
Proof.
  apply (@deserialize_serialize Demo.crypto).
  split; intros k; reflexivity.
Defined.

End Runs.

(** * Further properties of the ledger *)

Section Ledger_edges.
Context {C : Crypto} {L : Block.Lib} {Sy : System}.
Import Blockchain.

Lemma dict_set_same {V} (k : string) (v : V) (pool : dict V) :
  dict_get k pool = Some v -> dict_set k v pool = pool.
Proof.
  induction pool as [|[k2 w] pool IH]; cbn [dict_get dict_set]; [discriminate|].
  destruct (String.eqb k k2); [now intros [= ->] | intros E; now rewrite IH].
Qed.

Lemma dict_set_dict_set {V} (k : string) (v w : V) (pool : dict V) :
  dict_set k w (dict_set k v pool) = dict_set k w pool.
Proof.
  induction pool as [|[k2 u] pool IH]; cbn [dict_set].
  - now rewrite String.eqb_refl.
  - destruct (String.eqb k k2) eqn:E; cbn [dict_set]; rewrite E; [reflexivity|].
    now rewrite IH.
Qed.

Lemma pool_get_none (name : string) (self : t) :
  dict_get name (address_pool self) = None ->
  pool_get name self = (Raise (KeyError name), self).
Proof. intros E. unfold pool_get. now rewrite E. Qed.

Lemma set_address_pool_same (self : t) :
  set_address_pool (address_pool self) self = self.
Proof. now destruct self. Qed.

(** X1. [add_transaction] for a source that has no account: [have_balance]
    looks the name up first, so the call ends in [KeyError] and nothing has
    changed. *)
Theorem add_transaction_unknown_source (source dest : string) (amount : Z) (self : t) :
  dict_get source (address_pool self) = None ->
  add_transaction source dest amount self = (Raise (KeyError source), self).
Proof.
  intros E. unfold add_transaction, have_balance.
  apply bind_raise, bind_raise. now apply pool_get_none.
Qed.

(** X2. A settlement asked for by a miner that has no account: signing the
    reward looks the miner up first, so the call ends in [KeyError] before
    anything is appended, sealed or credited. *)
Theorem fire_transactions_unknown_miner (name : string) (self : t) :
  dict_get name (address_pool self) = None ->
  fire_transactions name self = (Raise (KeyError name), self).
Proof.
  intros E. unfold fire_transactions.
  rewrite (bind_ok _ _ self self (transaction_pool self)) by reflexivity.
  apply bind_raise. unfold new_coinbase_tx_account.
  rewrite (bind_ok _ _ self self (subsidy self)) by reflexivity.
  apply bind_raise. unfold sign_transaction. apply bind_raise.
  now apply pool_get_none.
Qed.

(** X3. [move_balance] to a name that has no account: the source is debited
    first and the credit then raises [KeyError]; nothing puts the amount
    back, so the sum of the balances has dropped by the amount. *)
Theorem move_balance_unknown_dest (source dest : string) (amount : Z)
    (from : Address) (self : t) :
  dict_get source (address_pool self) = Some from ->
  dict_get dest (address_pool self) = None ->
  move_balance source dest amount self =
    (Raise (KeyError dest),
     set_address_pool
       (dict_set source (Wallet.sub_balance from amount) (address_pool self)) self)
  /\ total_balance (address_pool (snd (move_balance source dest amount self)))
     = total_balance (address_pool self) - amount.
Proof.
  intros Es Ed.
  assert (Hne : dest <> source) by congruence.
  assert (R : move_balance source dest amount self =
              (Raise (KeyError dest),
               set_address_pool
                 (dict_set source (Wallet.sub_balance from amount) (address_pool self))
                 self)).
  { unfold move_balance, decrement_balance, increment_balance.
    rewrite (bind_ok _ _ _ _ _
               (bind_ok _ _ _ _ _ (pool_get_some _ _ _ Es))).
    cbn [modify]. apply bind_raise. apply pool_get_none.
    cbn [address_pool set_address_pool].
    now rewrite dict_get_dict_set_ne. }
  rewrite R. split; [reflexivity|].
  cbn [snd address_pool set_address_pool].
  rewrite (total_balance_dict_set _ _ _ _ Es).
  unfold Wallet.sub_balance, Wallet.balance. cbn. lia.
Qed.

(** X4. [move_balance] from an account to itself returns and changes
    nothing: the debit and the credit meet on the same entry. *)
Theorem move_balance_to_self (name : string) (amount : Z) (addr : Address) (self : t) :
  dict_get name (address_pool self) = Some addr ->
  move_balance name name amount self = (Ok tt, self).
Proof.
  intros E. unfold move_balance, decrement_balance, increment_balance.
  rewrite (bind_ok _ _ _ _ _ (bind_ok _ _ _ _ _ (pool_get_some _ _ _ E))).
  cbn [modify].
  set (s1 := set_address_pool
                (dict_set name (Wallet.sub_balance addr amount) (address_pool self)) self).
  assert (E1 : dict_get name (address_pool s1) = Some (Wallet.sub_balance addr amount))
    by apply dict_get_dict_set_eq.
  rewrite (bind_ok _ _ _ _ _ (pool_get_some _ _ _ E1)). subst s1.
  unfold modify. cbn [address_pool set_address_pool]. f_equal.
  rewrite dict_set_dict_set.
  replace (Wallet.add_balance (Wallet.sub_balance addr amount) amount) with addr.
  - pose proof (dict_set_same _ _ _ E) as Q. unfold Address in *.
    rewrite Q. now destruct self.
  - destruct addr as [n b s v a]. unfold Wallet.add_balance, Wallet.sub_balance,
      Wallet.set_balance, Wallet.balance. cbn. f_equal. lia.
Qed.


End Ledger_edges.

Section Ledger_settlement.
Context {C : Crypto} {L : Block.Lib} {Sy : System}.
Import Blockchain.

#[local] Hint Resolve save_metadata_memory save_block_data_memory
  save_address_data_memory save_address_pool_data_memory
  save_genesis_data_memory sign_transaction_memory : ledger.





(** *** The address file after a settlement *)

Lemma save_address_pool_data_closes (self self' : t) :
  save_address_pool_data self = (Ok tt, self') ->
  exists path, address_file self' = Some (File path true).
Proof.
  unfold save_address_pool_data. intros E.
  apply bind_inv_ok in E as (f & s0 & E0 & E). injection E0 as <- <-.
  apply bind_inv_ok in E as (f' & s1 & E1 & E).
  unfold lift in E1. injection E1 as E1 <-.
  apply bind_inv_ok in E as ([] & s2 & E2 & E). injection E2 as <-.
  assert (K : steps (same address_file)
                (bind (open_w "address")
                   (fun _ => bind (gets address_pool)
                      (fun pool => for_each pool (fun item =>
                         file_write "address"
                           (Json.dumps (address_record (fst item) (snd item)))))))).
  { walk. }
  apply (steps_ok _ _ _ _ _ K) in E. unfold same in E. rewrite E.
  cbn [address_file set_address_file].
  destruct (address_file self) as [[path closed]|]; cbn in E1; [|discriminate].
  injection E1 as <-. eauto.
Qed.

(** X7. After a settlement that returns, the object's address file is closed
    and nothing reopens it: creating a new account then puts the account
    in the pool and raises on writing its record, so the account exists in
    memory but not in the store. *)
Theorem create_user_after_settlement (miner name : string) (self self' : t) :
  fire_transactions miner self = (Ok tt, self') ->
  dict_mem name (address_pool self') = false ->
  create_user name self' =
    (Raise (ValueError "I/O operation on closed file."),
     set_address_pool
       (address_pool self'
        ++ [(name, Wallet.__init__ name 0 (os_urandom (draws self')))])
       (set_draws (Datatypes.S (draws self')) self')).
Proof.
  intros E Hm.
  assert (exists path, address_file self' = Some (File path true)) as [path Hf].
  { unfold fire_transactions in E.
    apply bind_inv_ok in E as (pool & s0 & E0 & E).
    apply bind_inv_ok in E as ([] & s1 & E1 & E).
    apply bind_inv_ok in E as (intents & s2 & E2 & E).
    apply bind_inv_ok in E as ([] & s3 & E3 & E).
    apply bind_inv_ok in E as ([] & s4 & E4 & E).
    apply save_address_pool_data_closes in E4 as [path Hf].
    apply bind_inv_ok in E as (l & s5 & E5 & E). injection E5 as <- <-.
    apply bind_inv_ok in E as ([] & s6 & E6 & E). injection E6 as <-.
    injection E as <-. exists path. exact Hf. }
  rewrite create_user_run, Hm.
  unfold save_address_data, bind, gets.
  cbn [address_file set_address_pool set_draws]. rewrite Hf. reflexivity.
Qed.

(** *** The pools stay in step *)

Lemma create_user_pools name :
  steps (same (fun self => (heap self, transaction_pool self, balance_pool self)))
    (create_user name).
Proof.
  unfold create_user, save_address_data. walk.
Qed.

(** X8. Creating an account, queuing a transfer, and a settlement that returns
    all keep the two pools in step. (A settlement that raises on an intent
    does not: see [failed_settlement_breaks_alignment].) *)
Theorem aligned_preserved (c : call) (self : t) :
  aligned self ->
  match c with
  | Fire_transactions _ => fst (perform c self) = Ok tt
  | _ => True
  end ->
  aligned (snd (perform c self)).
Proof.
  intros [Hl Ha] Hc. destruct c as [name|source dest amount|name]; cbn [perform] in *.
  - pose proof (create_user_pools name self) as K. unfold same in K.
    injection K as Kh Kt Kb. unfold aligned, pool_live, pending.
    rewrite Kh, Kt, Kb. split; assumption.
  - destruct (dict_get source (address_pool self)) as [addr|] eqn:E.
    + destruct (Z.lt_ge_cases (Wallet.balance addr) amount) as [Hlt|Hge].
      * rewrite (add_transaction_short source dest amount addr self E Hlt).
        split; assumption.
      * destruct (add_transaction_sufficient source dest amount addr self E Hge Hl)
          as (sg & s1 & -> & P1 & B1 & _). cbn [snd]. split.
        -- unfold pool_live. unfold pending in P1.
           destruct (heap s1 !! transaction_pool s1) as [xs|] eqn:Ex.
           ++ now apply lookup_lt_Some in Ex.
           ++ cbn in P1.
              destruct (default [] (heap self !! transaction_pool self)); discriminate P1.
        -- rewrite P1, B1, !length_app. cbn [length]. lia.
    + unfold add_transaction, have_balance.
      rewrite (bind_raise _ _ _ _ _ (bind_raise _ _ _ _ _ (pool_get_none _ _ E))).
      split; assumption.
  - destruct (fire_transactions name self) as [[[]|e] s1] eqn:E; cbn in Hc; [|discriminate].
    destruct (fire_transactions_ok_pools _ _ _ E) as (Hp & Hb & Hl1).
    cbn [snd]. split; [assumption|]. now rewrite Hp, Hb.
Qed.

End Ledger_settlement.

(** * The store *)

Section Store_facts.
Context {C : Crypto} {L : Block.Lib} {Sy : System}.
Import Blockchain.

Lemma save_metadata_run (d : gmap string (list string)) (self : t) :
  disk self = Some d ->
  save_metadata self =
    (Ok tt, set_disk (Some (<["metadata" := [Json.dumps (metadata_record self)]]> d)) self).
Proof.
  intros Hd. unfold save_metadata, bind, mkdir_if_missing, modify, open_w, gets,
    file_write.
  rewrite Hd. cbn. rewrite Hd. cbn.
  rewrite lookup_insert_eq, insert_insert_eq. cbn.
  destruct self; reflexivity.
Qed.

Lemma data_file_name_not_metadata (i : Z) : data_file_name i <> "metadata".
Proof. unfold data_file_name. rewrite string_app_cons. discriminate. Qed.

Lemma div_pred_same (c th : Z) :
  0 < th -> 0 < c -> c mod th <> 0 -> (c - 1) / th = c / th.
Proof.
  intros Hth Hc Hm.
  pose proof (Z.div_mod c th ltac:(lia)) as E.
  pose proof (Z.mod_pos_bound c th Hth) as B.
  symmetry. apply (Z.div_unique (c - 1) th (c / th) (c mod th - 1)); lia.
Qed.

(** X9. Where a block is written. With the data file following the count,
    [save_block_data] returns; the block's line is the new last line of
    segment [count // threshold], which starts empty when the count has
    reached a multiple of the threshold; the count grows by one, [index] is
    that segment, the data file still follows the count, and the ledger in
    memory is untouched. *)
Theorem save_block_data_segment (block : Block.t) (self : t) :
  data_file_tracks self ->
  exists (d d' : gmap string (list string)) (self' : t),
    disk self = Some d
    /\ save_block_data block self = (Ok tt, self')
    /\ disk self' = Some d'
    /\ d' !! data_file_name (count self / threshold self)
       = Some ((if rotates self then []
                else default [] (d !! data_file_name (count self / threshold self)))
               ++ [Block.serialize block])
    /\ count self' = count self + 1
    /\ index self' = count self / threshold self
    /\ data_file_tracks self'
    /\ memory self' = memory self.
Proof.
  intros (Hc & Hth & [d Hd] & Hf).
  assert (Hseg : rotates self = false ->
                 last_segment self = count self / threshold self).
  { unfold rotates, last_segment. destruct (Z.eqb_spec (count self) 0) as [->|Hne].
    - intros _. now rewrite Z.div_0_l by lia.
    - cbn [negb andb]. intros Hm. apply Z.eqb_neq in Hm.
      apply div_pred_same; lia. }
  exists d.
  unfold save_block_data, bind at 1, modify. unfold bind at 1.
  cbn [gets]. unfold bind at 1. cbn [gets].
  cbn [count threshold set_index].
  fold (rotates self).
  destruct (rotates self) eqn:Hr.
  - (* a new segment *)
    unfold bind at 1. unfold bind at 1. cbn [gets data_file set_index]. rewrite Hf.
    unfold bind at 1. cbn [lift close_file]. unfold bind at 1. cbn [modify].
    unfold bind at 1. cbn [gets index set_data_file set_index].
    unfold bind at 1. unfold open_w at 1. cbn [disk set_data_file set_index].
    rewrite Hd. cbn [modify]. unfold bind at 1. cbn [modify].
    unfold bind at 1. cbn [gets data_file set_count set_data_file].
    unfold bind at 1. cbn [handle_write]. unfold file_write.
    cbn [disk set_count set_data_file set_disk]. 
    erewrite save_metadata_run by reflexivity.
    eexists _, _. split; [reflexivity|]. split; [reflexivity|]. split; [reflexivity|].
    refine (conj _ (conj _ (conj _ (conj _ _)))).
    + cbn [disk set_disk].
      rewrite lookup_insert_ne by (apply not_eq_sym, data_file_name_not_metadata).
      now rewrite !lookup_insert_eq.
    + reflexivity.
    + reflexivity.
    + unfold data_file_tracks, last_segment.
      cbn [count threshold disk data_file set_disk set_count set_data_file set_index].
      destruct (Z.eqb_spec (count self + 1) 0); [lia|].
      replace (count self + 1 - 1) with (count self) by lia.
      split; [lia|]. split; [lia|]. split; [eexists; reflexivity | reflexivity].
    + reflexivity.
  - (* the open segment *)
    unfold bind at 1. cbn [ret]. unfold bind at 1. cbn [modify].
    unfold bind at 1. cbn [gets data_file set_count set_index]. rewrite Hf.
    unfold bind at 1. cbn [handle_write]. unfold file_write.
    cbn [disk set_count set_index]. rewrite Hd.
    erewrite save_metadata_run by reflexivity.
    eexists _, _. split; [reflexivity|]. split; [reflexivity|]. split; [reflexivity|].
    refine (conj _ (conj _ (conj _ (conj _ _)))).
    + cbn [disk set_disk].
      rewrite lookup_insert_ne by (apply not_eq_sym, data_file_name_not_metadata).
      now rewrite (Hseg eq_refl), lookup_insert_eq.
    + reflexivity.
    + reflexivity.
    + unfold data_file_tracks.
      cbn [count threshold disk data_file set_disk set_count set_index].
      split; [lia|]. split; [lia|]. split; [eexists; reflexivity |].
      rewrite Hf, (Hseg eq_refl). do 3 f_equal.
      unfold last_segment. cbn [count threshold set_disk set_count set_index].
      destruct (Z.eqb_spec (count self + 1) 0); [lia|].
      now replace (count self + 1 - 1) with (count self) by lia.
    + reflexivity.
Qed.

End Store_facts.

(** ** Saving and loading *)

Section Round_trips.
Context {C : Crypto} {Laws : CryptoLaws C} {L : Block.Lib} {Sy : System}.
Import Blockchain.

Lemma set_disk_same (self : t) : set_disk (disk self) self = self.
Proof. now destruct self. Qed.

Lemma set_disk_set_disk (d d' : option (gmap string (list string))) (self : t) :
  set_disk d (set_disk d' self) = set_disk d self.
Proof. reflexivity. Qed.

Lemma for_each_ext {S A} (xs : list A) (f g : A -> M S unit) :
  (forall x, f x = g x) -> for_each xs f = for_each xs g.
Proof.
  intros E. induction xs as [|x xs IH]; cbn [for_each]; [reflexivity|].
  now rewrite E, IH.
Qed.

(** Writing a list of lines to a file of the store. *)
Lemma for_each_file_write {A} (g : A -> string) (p : string) (xs : list A)
    (l : list string) (d : gmap string (list string)) (self : t) :
  disk self = Some d -> d !! p = Some l ->
  for_each xs (fun x => file_write p (g x)) self
  = (Ok tt, set_disk (Some (<[p := l ++ map g xs]> d)) self).
Proof.
  revert l d self. induction xs as [|x xs IH]; intros l d self Hd Hp.
  - cbn [for_each map]. rewrite app_nil_r, insert_id by assumption.
    unfold ret. now rewrite <- Hd, set_disk_same.
  - cbn [for_each map]. unfold bind, file_write at 1. rewrite Hd, Hp. cbn [default].
    erewrite IH; [|reflexivity|apply lookup_insert_eq].
    now rewrite insert_insert_eq, <- app_assoc, set_disk_set_disk.
Qed.

Lemma save_metadata_any (self : t) :
  save_metadata self =
    (Ok tt,
     set_disk (Some (<["metadata" := [Json.dumps (metadata_record self)]]>
                       (default ∅ (disk self)))) self).
Proof.
  destruct (disk self) as [d|] eqn:Hd.
  - now apply save_metadata_run.
  - unfold save_metadata, bind, mkdir_if_missing, modify, open_w, gets, file_write.
    rewrite Hd. cbn. rewrite lookup_insert_eq, insert_insert_eq. cbn.
    destruct self; reflexivity.
Qed.

(** X10. What [save_metadata] wrote, [read_metadata] reads back into any object
    of a process that sees the store: [bits], [subsidy], [count] and
    [index] are those of the saved object, and [height] is the number of
    its blocks. *)
Theorem read_metadata_save_metadata (self other : t) :
  read_metadata (set_disk (disk (snd (save_metadata self))) other)
  = (Ok tt,
     set_index (index self)
       (set_count (count self)
          (set_height (Z.of_nat (length (_blocks self)))
             (set_subsidy (subsidy self)
                (set_bits (bits self)
                   (set_disk (disk (snd (save_metadata self))) other)))))).
Proof.
  rewrite save_metadata_any. cbn [snd disk set_disk].
  unfold read_metadata. unfold bind at 1. cbn [gets disk set_disk].
  unfold bind at 1. unfold open_r. cbn [disk set_disk].
  rewrite lookup_insert_eq. cbn [or_raise read_strip String.concat].
  unfold bind at 1. unfold json_loads.
  rewrite loads_dumps by (cbn; repeat split; reflexivity).
  cbn [lift or_raise].
  reflexivity.
Qed.

(** *** Pending transfers *)

Lemma save_transaction_data_run (d : gmap string (list string)) (self : t) :
  disk self = Some d ->
  save_transaction_data self
  = (Ok tt, set_disk (Some (<["transactions" := map intent_line (balance_pool self)]> d)) self).
Proof.
  intros Hd. unfold save_transaction_data, bind at 1, open_w. rewrite Hd.
  unfold bind at 1. cbn [gets balance_pool set_disk].
  rewrite (for_each_ext _ _ (fun x => file_write "transactions" (intent_line x)))
    by (now intros [[source dest] amount]).
  erewrite for_each_file_write; [|reflexivity|apply lookup_insert_eq].
  now rewrite insert_insert_eq, set_disk_set_disk.
Qed.

Lemma read_transaction_line (source dest : string) (amount : Z) (self : t) :
  read_transaction (intent_line (source, dest, amount)) self
  = (Ok tt,
     set_balance_pool (balance_pool self ++ [(source, dest, amount)])
       (snd (list_append (transaction_pool self) (tx_text source dest amount) self))).
Proof.
  unfold read_transaction, intent_line. unfold bind at 1. unfold json_loads.
  rewrite loads_dumps by (cbn; repeat split; reflexivity).
  reflexivity.
Qed.

Lemma for_each_read_transaction (intents : list (string * string * Z)) (self : t) :
  pool_live self ->
  exists self' : t,
    for_each (map intent_line intents) read_transaction self = (Ok tt, self')
    /\ balance_pool self' = balance_pool self ++ intents
    /\ pending self' =
       pending self ++ map (fun '(source, dest, amount) => tx_text source dest amount) intents
    /\ pool_live self'
    /\ disk self' = disk self
    /\ (_blocks self', address_pool self', data_file self', address_file self')
       = (_blocks self, address_pool self, data_file self, address_file self).
Proof.
  revert self. induction intents as [|[[source dest] amount] intents IH]; intros self Hl.
  - exists self. cbn [for_each map]. now rewrite !app_nil_r.
  - cbn [for_each map]. unfold bind at 1. rewrite read_transaction_line.
    set (self1 := set_balance_pool _ _).
    assert (Hp : pending self1 = pending self ++ [tx_text source dest amount]).
    { now rewrite <- (pending_list_append _ _ Hl). }
    assert (Hl1 : pool_live self1).
    { unfold pool_live in *. subst self1. cbn. now rewrite length_alter. }
    destruct (IH self1 Hl1) as (self' & E & Hb & Hq & Hl' & Hd & Hrest).
    exists self'. split; [exact E|]. rewrite Hb, Hq, Hp, Hd, Hrest.
    subst self1. cbn. now rewrite <- !app_assoc.
Qed.

(** X11. What [save_transaction_data] wrote, [read_transaction_data] replays
    into an object that sees the store: the saved intents join
    [balance_pool] in order, the pending list gains for each of them the
    transaction text without a signature, and the file is left empty. *)
Theorem read_transaction_data_saved (d : gmap string (list string)) (self other : t) :
  disk self = Some d ->
  pool_live other ->
  disk other = disk (snd (save_transaction_data self)) ->
  exists other' : t,
    read_transaction_data other = (Ok tt, other')
    /\ balance_pool other' = balance_pool other ++ balance_pool self
    /\ pending other' =
       pending other
       ++ map (fun '(source, dest, amount) => tx_text source dest amount) (balance_pool self)
    /\ disk other' = Some (<["transactions" := []]> d).
Proof.
  intros Hd Hl Ho. rewrite (save_transaction_data_run d) in Ho by assumption.
  cbn [snd disk set_disk] in Ho.
  unfold read_transaction_data. unfold bind at 1, open_r. rewrite Ho.
  rewrite lookup_insert_eq. cbn [or_raise].
  destruct (for_each_read_transaction (balance_pool self) other Hl)
    as (other' & E & Hb & Hq & _ & Hd' & _).
  unfold bind at 1. rewrite E.
  unfold bind at 1, open_w. rewrite Hd', Ho. cbn [ret].
  eexists. split; [reflexivity|].
  cbn [balance_pool set_disk disk]. rewrite insert_insert_eq.
  unfold pending in *. cbn [heap transaction_pool set_disk]. auto.
Qed.

(** *** Accounts *)

Lemma save_address_pool_data_run (d : gmap string (list string)) (path : string)
    (closed : bool) (self : t) :
  disk self = Some d ->
  address_file self = Some (File path closed) ->
  save_address_pool_data self
  = (Ok tt,
     set_disk
       (Some (<["address" :=
                 map (fun item => Json.dumps (address_record (fst item) (snd item)))
                   (address_pool self)]> d))
       (set_address_file (Some (File path true)) self)).
Proof.
  intros Hd Hf. unfold save_address_pool_data. unfold bind at 1. cbn [gets]. rewrite Hf.
  unfold bind at 1. cbn [lift close_file]. unfold bind at 1. cbn [modify].
  unfold bind at 1, open_w. cbn [disk set_address_file]. rewrite Hd.
  unfold bind at 1. cbn [gets address_pool set_disk set_address_file].
  erewrite for_each_file_write; [|reflexivity|apply lookup_insert_eq].
  now rewrite insert_insert_eq, set_disk_set_disk.
Qed.

Lemma read_address_line (name : string) (addr : Address) (self : t) :
  read_address (Json.dumps (address_record name addr)) self
  = (Ok tt,
     set_address_pool
       (dict_set name (reloaded name addr (os_urandom (draws self))) (address_pool self))
       (set_draws (S (draws self)) self)).
Proof.
  unfold read_address, address_record. unfold bind at 1. unfold json_loads.
  rewrite loads_dumps by (cbn; repeat split; reflexivity).
  cbn [lift or_raise].
  unfold bind at 1, member_str.
  change (getitem _ "name") with (Ok (Json.Str name)). cbn [result_bind as_str lift].
  unfold bind at 1, member_int.
  change (getitem _ "balance") with (Ok (Json.Int (Wallet.balance addr))).
  cbn [result_bind as_int lift].
  unfold bind at 1, draw.
  unfold bind at 1.
  change (getitem _ "sk")
    with (Ok (Json.Str (Wallet.b64_text (SigningKey_to_string (Wallet.sk addr))))).
  cbn [result_bind]. rewrite read_signing_key_text. cbn [lift].
  unfold bind at 1.
  change (getitem _ "vk")
    with (Ok (Json.Str (Wallet.b64_text (VerifyingKey_to_string (Wallet.vk addr))))).
  cbn [result_bind]. rewrite read_verifying_key_text. cbn [lift].
  reflexivity.
Qed.

Lemma dict_get_In {V} (k : string) (v : V) (d : dict V) :
  In (k, v) d -> dict_get k d <> None.
Proof.
  induction d as [|[k' v'] d IH]; cbn [In dict_get]; [tauto|].
  intros [E|H].
  - injection E as -> ->. now rewrite String.eqb_refl.
  - destruct (String.eqb k k'); [discriminate | auto].
Qed.

Lemma for_each_read_address (pool : dict Address) (self : t) :
  distinct_keys pool ->
  (forall k v, In (k, v) pool -> dict_get k (address_pool self) = None) ->
  for_each (map (fun item => Json.dumps (address_record (fst item) (snd item))) pool)
    read_address self
  = (Ok tt,
     set_address_pool (address_pool self ++ reload_pool (draws self) pool)
       (set_draws (draws self + length pool)%nat self)).
Proof.
  revert self. induction pool as [|[name addr] pool IH]; intros self Hd Ha.
  - cbn [for_each map reload_pool length]. rewrite app_nil_r, Nat.add_0_r.
    now destruct self.
  - destruct Hd as [Hk Hd]. cbn [for_each map fst snd]. unfold bind at 1.
    rewrite read_address_line.
    rewrite dict_set_fresh by (eapply Ha; left; reflexivity).
    rewrite IH; [| assumption |].
    + cbn [address_pool draws set_address_pool set_draws reload_pool length].
      rewrite <- app_assoc. cbn [app].
      replace (S (draws self) + length pool)%nat
        with (draws self + S (length pool))%nat by lia.
      reflexivity.
    + intros k v Hin. cbn [address_pool set_address_pool set_draws].
      apply dict_get_app_None. split; [eapply Ha; right; exact Hin|].
      cbn [dict_get]. destruct (String.eqb_spec k name) as [->|]; [|reflexivity].
      now apply dict_get_In in Hin.
Qed.

Lemma total_balance_reload_pool (n : nat) (pool : dict Address) :
  total_balance (reload_pool n pool) = total_balance pool.
Proof.
  revert n. induction pool as [|[name addr] pool IH]; intros n; [reflexivity|].
  cbn [reload_pool total_balance fold_right snd].
  unfold total_balance in IH. now rewrite IH.
Qed.

(** X12. What [save_address_pool_data] wrote, [read_address_pool_data] reads
    back into an object without accounts that sees the store: every
    account returns under its name, in order, with its balance and both
    keys, but with the address of a key drawn while loading; the sum of
    the balances is the saved one. *)
Theorem read_address_pool_data_saved (d : gmap string (list string)) (path : string)
    (closed : bool) (self other : t) :
  disk self = Some d ->
  address_file self = Some (File path closed) ->
  distinct_keys (address_pool self) ->
  address_pool other = [] ->
  disk other = disk (snd (save_address_pool_data self)) ->
  exists other' : t,
    read_address_pool_data other = (Ok tt, other')
    /\ address_pool other' = reload_pool (draws other) (address_pool self)
    /\ total_balance (address_pool other') = total_balance (address_pool self).
Proof.
  intros Hd Hf Hk He Ho.
  rewrite (save_address_pool_data_run d path closed) in Ho by assumption.
  cbn [snd disk set_disk] in Ho.
  unfold read_address_pool_data. unfold bind at 1, open_r. rewrite Ho.
  rewrite lookup_insert_eq. cbn [or_raise].
  rewrite for_each_read_address; [|assumption|now intros; rewrite He].
  eexists. split; [reflexivity|].
  cbn [address_pool set_address_pool]. rewrite He. cbn [app].
  split; [reflexivity | apply total_balance_reload_pool].
Qed.

(** X13. The records of the address file are not wallets to [Wallet.deserialize]:
    they carry no address, and reading one raises [KeyError] after both
    keys have been read. *)
Theorem deserialize_address_record (name : string) (addr : Address)
    (entropy : list byte) :
  Wallet.deserialize (Json.dumps (address_record name addr)) entropy
  = Raise (KeyError "address").
Proof.
  unfold Wallet.deserialize, address_record, json_loads.
  rewrite loads_dumps by (cbn; repeat split; reflexivity).
  cbn [or_raise result_bind].
  change (getitem _ "name") with (Ok (Json.Str name)).
  change (getitem _ "balance") with (Ok (Json.Int (Wallet.balance addr))).
  cbn [result_bind as_str as_int].
  change (getitem _ "sk")
    with (Ok (Json.Str (Wallet.b64_text (SigningKey_to_string (Wallet.sk addr))))).
  cbn [result_bind]. rewrite read_signing_key_text. cbn [result_bind].
  change (getitem _ "vk")
    with (Ok (Json.Str (Wallet.b64_text (VerifyingKey_to_string (Wallet.vk addr))))).
  cbn [result_bind]. rewrite read_verifying_key_text. cbn [result_bind].
  reflexivity.
Qed.

End Round_trips.

(** ** Loading from a store that is not complete *)

Section Loading_edges.
Context {C : Crypto} {L : Block.Lib} {Sy : System}.
Import Blockchain.

Lemma In_sorted_insert (x y : string) (l : list string) :
  In y (sorted_insert x l) <-> y = x \/ In y l.
Proof.
  induction l as [|z l IH]; cbn [sorted_insert In]; [intuition|].
  destruct (String.leb x z); cbn [In]; rewrite ?IH; intuition.
Qed.

Lemma In_sorted (y : string) (l : list string) : In y (sorted l) <-> In y l.
Proof.
  unfold sorted. induction l as [|x l IH]; cbn [fold_right In]; [tauto|].
  rewrite In_sorted_insert, IH. intuition.
Qed.

Lemma list_remove_absent (x : string) (l : list string) :
  ~ In x l -> list_remove x l = Raise (ValueError "list.remove(x): x not in list").
Proof.
  induction l as [|y l IH]; cbn [list_remove In]; [reflexivity|].
  intros H. destruct (String.eqb_spec y x) as [->|]; [tauto|].
  rewrite IH by tauto. reflexivity.
Qed.

Lemma list_remove_other (x k : string) (l : list string) :
  ~ In k l ->
  match list_remove x l with
  | Ok r => ~ In k r
  | Raise e => e = ValueError "list.remove(x): x not in list"
  end.
Proof.
  induction l as [|y l IH]; cbn [list_remove In]; [reflexivity|].
  intros H. destruct (String.eqb y x); [tauto|].
  destruct (list_remove x l) as [r|e]; cbn [result_bind In]; tauto.
Qed.

Lemma listdir_absent (k : string) (d : gmap string (list string)) :
  d !! k = None -> ~ In k (map fst (map_to_list d)).
Proof.
  intros Hk Hin. apply in_map_iff in Hin as ([k' v] & <- & Hin).
  apply list_elem_of_In, elem_of_map_to_list in Hin. cbn in Hk. congruence.
Qed.

(** X14. [read_blocks_data] needs all four files of the ledger in the
    directory: when [genesis], [metadata], [address] or [transactions] is
    missing, it raises the [ValueError] of [list.remove] and reads no
    block. *)
Theorem read_blocks_data_reserved_missing (k : string)
    (d : gmap string (list string)) (self : t) :
  disk self = Some d ->
  In k ["genesis"; "metadata"; "address"; "transactions"] ->
  d !! k = None ->
  read_blocks_data self
  = (Raise (ValueError "list.remove(x): x not in list"), self).
Proof.
  intros Hd Hk Hm.
  pose proof (listdir_absent k d Hm) as Ha. rewrite <- In_sorted in Ha.
  unfold read_blocks_data. unfold bind at 1, listdir. rewrite Hd.
  set (names := sorted _) in *.
  assert (step : forall x l (rest : list string -> method unit),
             ~ In k l ->
             (x = k \/
              forall r, ~ In k r ->
                rest r self = (Raise (ValueError "list.remove(x): x not in list"), self)) ->
             bind (lift (list_remove x l)) rest self
             = (Raise (ValueError "list.remove(x): x not in list"), self)).
  { intros x l rest Hl [->|Hr].
    - unfold bind, lift. now rewrite list_remove_absent.
    - unfold bind, lift. pose proof (list_remove_other x k l Hl) as Hx.
      destruct (list_remove x l) as [r|e]; [now apply Hr | now subst]. }
  cbn [In] in Hk.
  apply step; [assumption|].
  destruct Hk as [<-|Hk]; [now left | right; intros r1 H1].
  apply step; [assumption|].
  destruct Hk as [<-|Hk]; [now left | right; intros r2 H2].
  apply step; [assumption|].
  destruct Hk as [<-|Hk]; [now left | right; intros r3 H3].
  apply step; [assumption|].
  destruct Hk as [<-|[]]. now left.
Qed.

(** X15. Without the store directory [read_metadata] returns at once and
    leaves the defaults, and the next step fails on the address file:
    [read_blockchain] raises and the object is as it was. *)
Theorem read_blockchain_no_directory (self : t) :
  disk self = None ->
  read_metadata self = (Ok tt, self)
  /\ read_blockchain self = (Raise (FileNotFoundError "address"), self).
Proof.
  intros Hd.
  assert (E : read_metadata self = (Ok tt, self)).
  { unfold read_metadata, bind, gets. now rewrite Hd. }
  split; [exact E|].
  unfold read_blockchain. unfold bind at 1. rewrite E.
  unfold bind at 1. unfold read_address_pool_data, bind at 1, open_r. now rewrite Hd.
Qed.

End Loading_edges.

(** ** The further properties at concrete inputs *)

Section Runs_more.
Import Blockchain Demo.
#[local] Existing Instance Demo.crypto.
#[local] Existing Instance Demo.block_lib.
#[local] Existing Instance Demo.system.

Lemma demo_crypto_laws : CryptoLaws Demo.crypto.
Proof. split; intros k; reflexivity. Defined.

Lemma ledger_disk : disk ledger = Some (default ∅ (disk ledger)).
Proof.
  assert (B : match disk ledger with Some _ => true | None => false end = true)
    by (vm_compute; reflexivity).
  destruct (disk ledger); [reflexivity | discriminate B].
Defined.

Lemma overdrawn_disk : disk overdrawn = Some (default ∅ (disk overdrawn)).
Proof.
  assert (B : match disk overdrawn with Some _ => true | None => false end = true)
    by (vm_compute; reflexivity).
  destruct (disk overdrawn); [reflexivity | discriminate B].
Defined.

Lemma ledger_pool_live : pool_live ledger.
Proof. unfold pool_live. vm_compute. lia. Defined.

Lemma add_transaction_unknown_source_witness :
  add_transaction "Z" "B" 5 ledger = (Raise (KeyError "Z"), ledger).
Proof.
  apply (add_transaction_unknown_source "Z" "B" 5 ledger).
  vm_compute. reflexivity.
Defined.

Lemma fire_transactions_unknown_miner_witness :
  fire_transactions "Z" ledger = (Raise (KeyError "Z"), ledger).
Proof.
  apply (fire_transactions_unknown_miner "Z" ledger).
  vm_compute. reflexivity.
Defined.

Lemma move_balance_unknown_dest_witness :
  total_balance (address_pool (snd (move_balance "A" "Z" 5 ledger)))
  = total_balance (address_pool ledger) - 5.
Proof.
  eapply proj2, (move_balance_unknown_dest "A" "Z" 5 _ ledger).
  - vm_compute. reflexivity.
  - vm_compute. reflexivity.
Defined.

Lemma move_balance_to_self_witness :
  move_balance "A" "A" 5 ledger = (Ok tt, ledger).
Proof.
  eapply (move_balance_to_self "A" 5 _ ledger).
  vm_compute. reflexivity.
Defined.



Lemma create_user_after_settlement_witness :
  create_user "C" (exec (fire_transactions "B") ledger)
  = (Raise (ValueError "I/O operation on closed file."),
     set_address_pool
       (address_pool (exec (fire_transactions "B") ledger)
        ++ [("C", Wallet.__init__ "C" 0
                    (os_urandom (draws (exec (fire_transactions "B") ledger))))])
       (set_draws (S (draws (exec (fire_transactions "B") ledger)))
          (exec (fire_transactions "B") ledger))).
Proof.
  apply (create_user_after_settlement "B" "C" ledger (exec (fire_transactions "B") ledger)).
  - vm_compute. reflexivity.
  - vm_compute. reflexivity.
Defined.

Lemma aligned_preserved_witness :
  aligned (snd (perform (Fire_transactions "B") ledger)).
Proof.
  apply (aligned_preserved (Fire_transactions "B") ledger).
  - split; [exact ledger_pool_live | vm_compute; reflexivity].
  - vm_compute. reflexivity.
Defined.

Lemma save_block_data_segment_witness :
  exists (d d' : gmap string (list string)) (self' : t),
    disk ledger = Some d
    /\ save_block_data (Block.__init__ 0 0 15 0 [] "") ledger = (Ok tt, self')
    /\ disk self' = Some d'
    /\ d' !! data_file_name (count ledger / threshold ledger)
       = Some ((if rotates ledger then []
                else default [] (d !! data_file_name (count ledger / threshold ledger)))
               ++ [Block.serialize (Block.__init__ 0 0 15 0 [] "")])
    /\ count self' = count ledger + 1
    /\ index self' = count ledger / threshold ledger
    /\ data_file_tracks self'
    /\ memory self' = memory ledger.
Proof.
  apply (save_block_data_segment (Block.__init__ 0 0 15 0 [] "") ledger).
  split; [vm_compute; discriminate|]. split; [vm_compute; reflexivity|].
  split; [rewrite ledger_disk; eexists; reflexivity|].
  vm_compute. reflexivity.
Defined.

Lemma disk_init (d : option (gmap string (list string))) : disk (__init__ d) = d.
Proof. reflexivity. Qed.

Lemma read_transaction_data_saved_witness :
  exists other' : t,
    read_transaction_data (__init__ (disk (snd (save_transaction_data overdrawn))))
    = (Ok tt, other')
    /\ balance_pool other'
       = balance_pool (__init__ (disk (snd (save_transaction_data overdrawn))))
         ++ balance_pool overdrawn
    /\ pending other'
       = pending (__init__ (disk (snd (save_transaction_data overdrawn))))
         ++ map (fun '(source, dest, amount) => tx_text source dest amount)
              (balance_pool overdrawn)
    /\ disk other' = Some (<["transactions" := []]> (default ∅ (disk overdrawn))).
Proof.
  assert (Hl : pool_live (__init__ (disk (snd (save_transaction_data overdrawn)))))
    by (unfold pool_live; cbn [heap transaction_pool __init__ length]; lia).
  exact (read_transaction_data_saved (default ∅ (disk overdrawn)) overdrawn
           (__init__ (disk (snd (save_transaction_data overdrawn))))
           overdrawn_disk Hl (disk_init _)).
Defined.

Lemma read_address_pool_data_saved_witness :
  exists other' : t,
    read_address_pool_data (__init__ (disk (snd (save_address_pool_data ledger))))
    = (Ok tt, other')
    /\ address_pool other'
       = reload_pool (draws (__init__ (disk (snd (save_address_pool_data ledger)))))
           (address_pool ledger)
    /\ total_balance (address_pool other') = total_balance (address_pool ledger).
Proof.
  assert (Hf : address_file ledger = Some (File "address" false))
    by (vm_compute; reflexivity).
  assert (Hk : distinct_keys (address_pool ledger))
    by (vm_compute; repeat split; reflexivity).
  exact (@read_address_pool_data_saved Demo.crypto demo_crypto_laws Demo.system
           (default ∅ (disk ledger)) "address" false ledger
           (__init__ (disk (snd (save_address_pool_data ledger))))
           ledger_disk Hf Hk eq_refl (disk_init _)).
Defined.

Lemma deserialize_address_record_witness :
  Wallet.deserialize
    (Json.dumps (address_record "A" (Wallet.__init__ "A" 50 [x00; x2a]))) [x07]
  = Raise (KeyError "address").
Proof.
  apply (@deserialize_address_record Demo.crypto demo_crypto_laws).
Defined.

Lemma read_blocks_data_reserved_missing_witness :
  read_blocks_data ledger
  = (Raise (ValueError "list.remove(x): x not in list"), ledger).
Proof.
  apply (read_blocks_data_reserved_missing "transactions" (default ∅ (disk ledger)) ledger).
  - exact ledger_disk.
  - cbn. tauto.
  - vm_compute. reflexivity.
Defined.

Lemma read_blockchain_no_directory_witness :
  read_metadata (__init__ None) = (Ok tt, __init__ None)
  /\ read_blockchain (__init__ None) = (Raise (FileNotFoundError "address"), __init__ None).
Proof.
  apply (read_blockchain_no_directory (__init__ None)). reflexivity.
Defined.

End Runs_more.

(** ** Settlements that stop half way *)

Section Settlement_edges.
Context {C : Crypto} {L : Block.Lib} {Sy : System}.
Import Blockchain.

(** X16. A queued transfer to a name without an account is lost at the
    settlement: [add_transaction] never looks at the destination, and
    [move_balance] debits the source before the credit fails. The
    settlement raises [KeyError] for the destination with the source
    debited, and the sum of the balances is the sum before the call plus
    the reward minus the amount. *)
Theorem fire_transactions_unknown_dest (name source dest : string) (amount : Z)
    (from : Address) (self after_coinbase at_failure : t) :
  intent_lost name self source dest amount from after_coinbase at_failure ->
  fire_transactions name self
  = (Raise (KeyError dest),
     set_address_pool
       (dict_set source (Wallet.sub_balance from amount) (address_pool at_failure))
       at_failure)
  /\ total_balance (address_pool (snd (fire_transactions name self)))
     = total_balance (address_pool self) + subsidy self - amount.
Proof.
  intros (before & after & E1 & Hp & E3 & Hs & Hle & Hd).
  pose proof (new_coinbase_tx_account_ok _ _ _ _ E1)
    as (miner & tip & block & sg & Hm & Ha & _ & _ & Hb & _ & _ & _ & Hi).
  pose proof (for_each_fire_intent_ok _ _ _ E3) as [T3 _].
  assert (R : fire_transactions name self
              = (Raise (KeyError dest),
                 set_address_pool
                   (dict_set source (Wallet.sub_balance from amount)
                      (address_pool at_failure)) at_failure)).
  { unfold fire_transactions.
    rewrite (bind_ok _ _ self self (transaction_pool self)) by reflexivity.
    rewrite (bind_ok _ _ _ _ _ E1).
    rewrite (bind_ok _ _ after_coinbase after_coinbase (balance_pool after_coinbase))
      by reflexivity.
    apply bind_raise. rewrite Hi, Hp, (for_each_app _ _ _ _ _ E3).
    cbn [for_each]. apply bind_raise. unfold fire_intent.
    rewrite (bind_ok _ _ _ _ _ (have_balance_some _ amount _ _ Hs)).
    replace (Wallet.balance from >=? amount) with true by (symmetry; apply Z.geb_le; lia).
    cbn [negb].
    unfold move_balance, decrement_balance, increment_balance.
    rewrite (bind_ok _ _ _ _ _
               (bind_ok _ _ _ _ _ (pool_get_some _ _ _ Hs))).
    cbn [modify]. apply bind_raise. apply pool_get_none.
    cbn [address_pool set_address_pool].
    rewrite dict_get_dict_set_ne by congruence. exact Hd. }
  split; [exact R|]. rewrite R. cbn [snd address_pool set_address_pool].
  rewrite (total_balance_dict_set _ _ _ _ Hs), T3, Ha,
    (total_balance_dict_set _ _ _ _ Hm).
  unfold Wallet.sub_balance, Wallet.add_balance, Wallet.balance. cbn. lia.
Qed.


End Settlement_edges.

(** ** The store after initialisation *)

Section Initial_store.
Context {C : Crypto} {Laws : CryptoLaws C} {L : Block.Lib} {Sy : System}.
Import Blockchain.

Lemma save_block_data_open (block : Block.t) (path : string)
    (d : gmap string (list string)) (self : t) :
  data_file self = Some (File path false) -> disk self = Some d ->
  rotates self = false ->
  save_block_data block self
  = (Ok tt,
     set_disk
       (Some (<["metadata" :=
                 [Json.dumps
                    (metadata_record
                       (set_count (count self + 1)
                          (set_index (count self / threshold self) self)))]]>
                (<[path := default [] (d !! path) ++ [Block.serialize block]]> d)))
       (set_count (count self + 1) (set_index (count self / threshold self) self))).
Proof.
  intros Hf Hd Hr.
  unfold save_block_data, bind at 1, modify. unfold bind at 1.
  cbn [gets]. unfold bind at 1. cbn [gets].
  cbn [count threshold set_index]. fold (rotates self). rewrite Hr.
  unfold bind at 1. cbn [ret]. unfold bind at 1. cbn [modify].
  unfold bind at 1. cbn [gets data_file set_count set_index]. rewrite Hf.
  unfold bind at 1. cbn [handle_write]. unfold file_write.
  cbn [disk set_count set_index]. rewrite Hd.
  erewrite save_metadata_run by reflexivity. reflexivity.
Qed.

Lemma save_genesis_data_run (genesis : Block.t) (later : list Block.t)
    (d : gmap string (list string)) (self : t) :
  disk self = Some d -> _blocks self = genesis :: later ->
  save_genesis_data self
  = (Ok tt, set_disk (Some (<["genesis" := [Block.serialize genesis]]> d)) self).
Proof.
  intros Hd Hb. unfold save_genesis_data, bind, open_w, gets, lift, file_write.
  rewrite Hd. cbn. rewrite Hb. cbn.
  rewrite lookup_insert_eq, insert_insert_eq. now destruct self.
Qed.

(** The run of [initialize] on a fresh object, step by step. *)
Ltac run_initialize name :=
  unfold initialize;
  do 4 (unfold bind at 1; state_simpl);
  unfold bind at 1; rewrite create_user_run; state_simpl;
  (erewrite save_address_data_open; [|reflexivity|reflexivity]); state_simpl;
  unfold bind at 1;
  erewrite increment_balance_some
    by (state_simpl; cbn [dict_get]; now rewrite String.eqb_refl);
  state_simpl; cbn [dict_set]; rewrite String.eqb_refl;
  unfold bind at 1; unfold new_genesis_block;
  unfold bind at 1;
  (let signature := fresh "signature" in
   edestruct (sign_transaction_some name "This is the genesis block!!!")
     as [signature ->];
   [state_simpl; cbn [dict_get]; now rewrite String.eqb_refl|]);
  unfold new_block;
  do 3 (unfold bind at 1; state_simpl);
  unfold bind at 1;
  (erewrite save_block_data_open; [|reflexivity|reflexivity|reflexivity]);
  unfold bind at 1;
  erewrite save_metadata_run by reflexivity;
  (erewrite save_genesis_data_run; [|reflexivity|reflexivity]).

(** X18. What [initialize] leaves in the store, once its writes have reached
    the files. The line of the genesis block is in [genesis] and also the
    only line of [data-0]; the record of the first account was written
    when the account was created, before the 50 were credited, so the
    address file says balance 0 while the pool says 50; [metadata] counts
    one block; and no [transactions] file is written. *)
Theorem initialize_store (d : gmap string (list string)) (name : string) :
  exists (self : t) (genesis : Block.t) (account : Address)
         (d' : gmap string (list string)),
    initialize name (__init__ (Some d)) = (Ok tt, self)
    /\ _blocks self = [genesis]
    /\ address_pool self = [(name, account)]
    /\ Wallet.balance account = 50
    /\ disk self = Some d'
    /\ d' !! "genesis" = Some [Block.serialize genesis]
    /\ d' !! "data-0" = Some [Block.serialize genesis]
    /\ d' !! "address"
       = Some [Json.dumps (address_record name (Wallet.set_balance account 0))]
    /\ d' !! "metadata"
       = Some [Json.dumps [("bits", Json.Int 15); ("subsidy", Json.Int 50);
                           ("height", Json.Int 1); ("count", Json.Int 1);
                           ("index", Json.Int 0)]]
    /\ d' !! "transactions" = d !! "transactions".
Proof.
  run_initialize name.
  eexists _, _, _, _. split; [reflexivity|].
  state_simpl.
  split; [reflexivity|]. split; [reflexivity|]. split; [reflexivity|].
  split; [reflexivity|].
  repeat split.
  - now rewrite lookup_insert_eq.
  - rewrite !(lookup_insert_ne _ _ "data-0") by discriminate.
    rewrite lookup_insert_eq. cbn [Wallet.name Wallet._name Wallet.__init__].
    rewrite lookup_insert_ne by discriminate. now rewrite lookup_insert_eq.
  - rewrite !(lookup_insert_ne _ _ "address") by discriminate.
    rewrite lookup_insert_eq. cbn [Wallet.name Wallet._name Wallet.__init__].
    rewrite lookup_insert_ne by discriminate. now rewrite lookup_insert_eq.
  - rewrite lookup_insert_ne by discriminate. now rewrite lookup_insert_eq.
  - cbn [Wallet.name Wallet._name Wallet.__init__].
    now rewrite !(lookup_insert_ne _ _ "transactions") by discriminate.
Qed.

Lemma read_metadata_line (bits subsidy height count index : Z)
    (d : gmap string (list string)) (other : t) :
  disk other = Some d ->
  d !! "metadata"
  = Some [Json.dumps [("bits", Json.Int bits); ("subsidy", Json.Int subsidy);
                      ("height", Json.Int height); ("count", Json.Int count);
                      ("index", Json.Int index)]] ->
  read_metadata other
  = (Ok tt,
     set_index index
       (set_count count (set_height height (set_subsidy subsidy (set_bits bits other))))).
Proof.
  intros Hd Hm. unfold read_metadata. unfold bind at 1. cbn [gets]. rewrite Hd.
  unfold bind at 1. unfold open_r. rewrite Hd, Hm.
  cbn [or_raise read_strip String.concat].
  unfold bind at 1. unfold json_loads.
  rewrite loads_dumps by (cbn; repeat split; reflexivity).
  reflexivity.
Qed.

(** X19. A store that [initialize] has written into an empty place cannot be
    loaded: there is no [transactions] file before the first
    [save_blockchain]. Once the writes of [initialize] have reached the
    files (it leaves the address and data files open and flushes neither,
    so that is when the writing process has ended), [read_blockchain] on a
    new object reads the metadata and the first account, whose stored
    balance is 0, and raises on opening [transactions], before any block
    is read. *)
Theorem read_blockchain_after_initialize (d : gmap string (list string))
    (name : string) :
  d !! "transactions" = None ->
  exists (self other : t) (account : Address),
    initialize name (__init__ (Some d)) = (Ok tt, self)
    /\ read_blockchain (__init__ (disk self))
       = (Raise (FileNotFoundError "transactions"), other)
    /\ _blocks other = []
    /\ count other = 1
    /\ address_pool other = [(name, account)]
    /\ Wallet.balance account = 0.
Proof.
  intros Ht.
  assert (R : exists (self : t) (d' : gmap string (list string)),
             initialize name (__init__ (Some d)) = (Ok tt, self)
             /\ disk self = Some d'
             /\ d' !! "metadata"
                = Some [Json.dumps [("bits", Json.Int 15); ("subsidy", Json.Int 50);
                                    ("height", Json.Int 1); ("count", Json.Int 1);
                                    ("index", Json.Int 0)]]
             /\ d' !! "address"
                = Some [Json.dumps
                          (address_record name (Wallet.__init__ name 0 (os_urandom 0)))]
             /\ d' !! "transactions" = None).
  { run_initialize name.
    eexists _, _. split; [reflexivity|]. state_simpl. split; [reflexivity|].
    cbn [Wallet.name Wallet._name Wallet.__init__].
    split; [|split].
    - rewrite lookup_insert_ne by discriminate. now rewrite lookup_insert_eq.
    - rewrite !(lookup_insert_ne _ _ "address") by discriminate.
      rewrite lookup_insert_eq.
      rewrite lookup_insert_ne by discriminate. now rewrite lookup_insert_eq.
    - now rewrite !(lookup_insert_ne _ _ "transactions") by discriminate. }
  destruct R as (self & d' & E & Hd & Hm & Ha & Hx).
  exists self. eexists. eexists. split; [exact E|].
  rewrite Hd. split.
  - unfold read_blockchain. unfold bind at 1.
    erewrite read_metadata_line; [|reflexivity|exact Hm].
    unfold bind at 1. unfold read_address_pool_data. unfold bind at 1, open_r.
    state_simpl. rewrite Ha. cbn [or_raise].
    pose proof (for_each_read_address [(name, Wallet.__init__ name 0 (os_urandom 0))])
      as K.
    cbn [map fst snd] in K. rewrite K; [|cbn; auto|intros k v _; reflexivity].
    apply bind_raise. unfold read_transaction_data. apply bind_raise.
    unfold open_r. state_simpl. now rewrite Hx.
  - state_simpl. cbn [reload_pool app]. repeat split.
Qed.

End Initial_store.

Section Runs_edges.
Import Blockchain Demo.
#[local] Existing Instance Demo.crypto.
#[local] Existing Instance Demo.block_lib.
#[local] Existing Instance Demo.system.

Lemma fire_transactions_unknown_dest_witness :
  total_balance (address_pool (snd (fire_transactions "B" misdirected)))
  = total_balance (address_pool misdirected) + subsidy misdirected - 30.
Proof.
  eapply proj2,
    (fire_transactions_unknown_dest "B" "A" "Z" 30 _ misdirected
       (exec (new_coinbase_tx_account (transaction_pool misdirected) "B") misdirected)
       (exec (new_coinbase_tx_account (transaction_pool misdirected) "B") misdirected)).
  exists [], [].
  split; [vm_compute; reflexivity|].
  split; [vm_compute; reflexivity|].
  split; [reflexivity|].
  split; [vm_compute; reflexivity|].
  split; [vm_compute; discriminate | vm_compute; reflexivity].
Defined.


Lemma read_blockchain_after_initialize_witness :
  exists (self other : t) (account : Address),
    initialize "A" (__init__ (Some ∅)) = (Ok tt, self)
    /\ read_blockchain (__init__ (disk self))
       = (Raise (FileNotFoundError "transactions"), other)
    /\ _blocks other = []
    /\ count other = 1
    /\ address_pool other = [("A", account)]
    /\ Wallet.balance account = 0.
Proof.
  apply (@read_blockchain_after_initialize Demo.crypto demo_crypto_laws Demo.block_lib
           Demo.system ∅ "A").
  apply lookup_empty.
Defined.

End Runs_edges.
